(** * ML service of the travel platform: configuration, preprocessing,
      models and trainer

    A shallow embedding of the Python sources under
    [src/backend/ml-service/src] and the properties proved about them.

    - [ModelConfig]       : config/model_config.py
    - [DataPreprocessor]  : utils/data_preprocessor.py
    - [PersonaModel]      : models/persona_model.py
    - [RecommendationModel] : models/recommendation_model.py
    - [ModelTrainer]      : services/model_trainer.py

    Python values are modelled as the code uses them: dictionaries as finite
    maps, numpy [float64] numbers as IEEE binary64 floats (the kernel's
    primitive floats), exceptions as an explicit result type, attributes that
    are assigned as fields of a state record that is passed along. *)

From Stdlib Require Import ZArith Lia Ascii Uint63 Floats.PrimFloat.
From stdpp Require Import gmap strings list fin_maps.

#[local] Set Warnings "-register-all,-inexact-float".
#[local] Open Scope string_scope.

(* ===================================================================== *)
(** * Python exceptions and results *)
(* ===================================================================== *)

Inductive exn_kind :=
| AttributeError | TypeError | KeyError | ValueError | IndexError
| OSError | NotFittedError
| RuntimeError | ConfigValidationError | PreprocessingError.

(** An exception object: its class and [str(e)]. *)
Record exn := Exn { exn_class : exn_kind; exn_str : string }.

(** The outcome of a call: a returned value or a raised exception. *)
Inductive result (A : Type) :=
| Returns (a : A)
| Raises (e : exn).
Arguments Returns {A} a.
Arguments Raises {A} e.

#[global] Instance result_ret : MRet result := fun A a => Returns a.
#[global] Instance result_bind : MBind result := fun A B f r =>
  match r with
  | Returns a => f a
  | Raises e => Raises e
  end.

Definition raise {A} (k : exn_kind) (msg : string) : result A :=
  Raises (Exn k msg).

(** [try: ... except Exception as e: raise K(prefix + str(e))]. *)
Definition reraise_as {A} (k : exn_kind) (prefix : string) (r : result A)
  : result A :=
  match r with
  | Returns a => Returns a
  | Raises e => Raises (Exn k (prefix +:+ exn_str e))
  end.

Definition succeeded {A} (r : result A) : bool :=
  match r with Returns _ => true | Raises _ => false end.

(** A closed equation is settled by evaluating both sides: the proof term is
    [eq_refl] under a cast that the kernel checks by evaluation. *)
Ltac by_evaluation :=
  lazymatch goal with
  | |- @eq ?T _ ?rhs => vm_cast_no_check (@eq_refl T rhs)
  end.

(* ===================================================================== *)
(** * Python data: what YAML and JSON files load to *)
(* ===================================================================== *)

Inductive scalar :=
| SNone
| SBool (b : bool)
| SInt (z : Z)
| SFloat (f : float)
| SStr (s : string).

Inductive value :=
| VScalar (s : scalar)
| VList (items : list value)
| VDict (d : gmap string value).

Definition str (s : string) : value := VScalar (SStr s).

(** [isinstance(v, dict)] *)
Definition is_dict (v : value) : bool :=
  match v with VDict _ => true | _ => false end.

(** Truth value of an object, as [if not x] tests it. *)
Definition truthy (v : value) : bool :=
  match v with
  | VScalar SNone => false
  | VScalar (SBool b) => b
  | VScalar (SInt z) => negb (z =? 0)%Z
  | VScalar (SFloat f) => negb (PrimFloat.eqb f 0)
  | VScalar (SStr s) => negb (String.eqb s "")
  | VList l => match l with [] => false | _ => true end
  | VDict d => negb (bool_decide (d = ∅))
  end.

(** [needle in hay] on two strings. *)
Fixpoint is_substring (needle hay : string) : bool :=
  String.prefix needle hay ||
  match hay with
  | EmptyString => false
  | String _ rest => is_substring needle rest
  end.

(** [type(v).__name__] *)
Definition type_name (v : value) : string :=
  match v with
  | VScalar SNone => "NoneType"
  | VScalar (SBool _) => "bool"
  | VScalar (SInt _) => "int"
  | VScalar (SFloat _) => "float"
  | VScalar (SStr _) => "str"
  | VList _ => "list"
  | VDict _ => "dict"
  end.

Definition is_str (key : string) (v : value) : bool :=
  match v with
  | VScalar (SStr s) => String.eqb s key
  | _ => false
  end.

(** [key in container] for a string [key]: a key of a dict, an element of a
    list, a substring of a string; the other scalars are not iterable. *)
Definition contains (container : value) (key : string) : result bool :=
  match container with
  | VDict d => Returns (bool_decide (is_Some (d !! key)))
  | VList l => Returns (existsb (is_str key) l)
  | VScalar (SStr s) => Returns (is_substring key s)
  | VScalar _ =>
      raise TypeError
        ("argument of type '" +:+ type_name container +:+ "' is not iterable")
  end.

(** [d.get(key, default)]; only a dict has [get]. *)
Definition dict_get (d : value) (key : string) (dflt : value) : result value :=
  match d with
  | VDict m => Returns (default dflt (m !! key))
  | _ =>
      raise AttributeError
        ("'" +:+ type_name d +:+ "' object has no attribute 'get'")
  end.

(** [d[key]] *)
Definition getitem (d : value) (key : string) : result value :=
  match d with
  | VDict m =>
      match m !! key with
      | Some v => Returns v
      | None => raise KeyError ("'" +:+ key +:+ "'")
      end
  | _ => raise TypeError "object is not subscriptable by a string key"
  end.

(* ===================================================================== *)
(** * config/model_config.py *)
(* ===================================================================== *)

(** What one run of the interpreter fixes: the order in which a set of
    strings is iterated and printed. CPython takes it from the hashes of
    the strings, which are salted anew for every process; any order of the
    elements can occur. *)
Class Interpreter := {
  set_order : list string -> list string;
  set_order_permutation : forall keys, set_order keys ≡ₚ keys
}.

Module ModelConfig.
Section WithInterpreter.
Context `{Interpreter}.

(** [ENVIRONMENTS]: environment identifier to configuration subdirectory. *)
Definition ENVIRONMENTS : list (string * string) :=
  [("development", "dev"); ("staging", "stg"); ("production", "prod")].

(** A [ModelConfig] object: [self.env], [self._cache] and the merged
    [self.config] that [_load_base_config] left. *)
Record t := Make {
  env : string;
  _cache : gmap string value;
  config : value
}.

(** [base.copy()]: dicts and lists have it, scalars do not. *)
Definition copy (base : value) : option value :=
  match base with
  | VScalar _ => None
  | v => Some v
  end.

(** One round of the loop of [_merge_configs]: [merged[key] = ...].
    [merged] is the copy being filled; item assignment with a string key
    needs a dict. [rec] is [_merge_configs] itself. *)
Definition merge_item (rec : value -> value -> option value)
    (key : string) (v : value) (acc : option value) : option value :=
  merged ← acc;
  match merged with
  | VDict m =>
      match v, m !! key with
      | VDict _, Some old =>
          new ← rec old v;
          Some (VDict (<[key := new]> m))
      | _, _ => Some (VDict (<[key := v]> m))
      end
  | _ => None
  end.

(** [_merge_configs(base, override)]. [None] stands for an exception
    escaping the call ([AttributeError] from [base.copy()] or
    [override.items()], [TypeError] from an item assignment on a list):
    the function has no handler, and a dict's iteration order decides
    nothing else than which of them is seen first. *)
Fixpoint _merge_configs (base override : value) {struct override}
  : option value :=
  match override with
  | VDict ov => map_fold (merge_item _merge_configs) (copy base) ov
  | _ => None
  end.

(** The required keys of the recommendation configuration (a set, given
    here by its display in the source), and how the f-string prints the
    set: in the order of this run of the interpreter. *)
Definition required_keys : list string :=
  ["model_architecture"; "hyperparameters"; "training_settings"].

Definition quoted (s : string) : string := "'" +:+ s +:+ "'".

Fixpoint join (sep : string) (l : list string) : string :=
  match l with
  | [] => ""
  | [s] => s
  | s :: rest => s +:+ sep +:+ join sep rest
  end.

Definition set_repr (keys : list string) : string :=
  "{" +:+ join ", " (map quoted (set_order keys)) +:+ "}".

(** [all(key in config for key in keys)], the keys as they are iterated *)
Fixpoint all_in (cfg : value) (keys : list string) : result bool :=
  match keys with
  | [] => Returns true
  | key :: rest =>
      b ← contains cfg key;
      if b : bool then all_in cfg rest else Returns false
  end.

Definition missing_keys_message : string :=
  "Missing required keys in recommendation config: " +:+ set_repr required_keys.

(** [_validate_recommendation_config(config)] *)
Definition _validate_recommendation_config (cfg : value) : result unit :=
  ok ← all_in cfg (set_order required_keys);
  if ok : bool then Returns tt
  else raise ConfigValidationError missing_keys_message.

(** [get_recommendation_config()]: the result and the object afterwards.
    ([lru_cache] on the method returns what the first successful call
    returned; an exception is not cached.) *)
Definition get_recommendation_config (self : t) : result value * t :=
  match _cache self !! "recommendation" with
  | Some cached => (Returns cached, self)
  | None =>
      match dict_get (config self) "recommendation_model" (VDict ∅) with
      | Raises e => (Raises e, self)
      | Returns cfg =>
          match _validate_recommendation_config cfg with
          | Raises e => (Raises e, self)
          | Returns _ =>
              (Returns cfg,
               Make (env self) (<["recommendation" := cfg]> (_cache self))
                    (config self))
          end
      end
  end.

Definition nlp_required_keys : list string :=
  ["model_architecture"; "tokenizer_settings"; "training_parameters"].

(** [_validate_nlp_config(config)] *)
Definition _validate_nlp_config (cfg : value) : result unit :=
  ok ← all_in cfg (set_order nlp_required_keys);
  if ok : bool then Returns tt
  else raise ConfigValidationError
         ("Missing required keys in NLP config: " +:+ set_repr nlp_required_keys).

(** [get_nlp_config()] *)
Definition get_nlp_config (self : t) : result value * t :=
  match _cache self !! "nlp" with
  | Some cached => (Returns cached, self)
  | None =>
      match dict_get (config self) "nlp_model" (VDict ∅) with
      | Raises e => (Raises e, self)
      | Returns cfg =>
          match _validate_nlp_config cfg with
          | Raises e => (Raises e, self)
          | Returns _ =>
              (Returns cfg,
               Make (env self) (<["nlp" := cfg]> (_cache self)) (config self))
          end
      end
  end.

(** What the merge is said to do at one key: [m] is the merged mapping.
    A key of the override whose value is a dict, and that the base has,
    holds the recursive merge of the two values; any other key of the
    override holds the override's value; a key that only the base has
    keeps its value (and a key of neither is absent). *)
Definition merged_at (base ov m : gmap string value) (key : string) : Prop :=
  match ov !! key with
  | None => m !! key = base !! key
  | Some v =>
      match v, base !! key with
      | VDict _, Some old =>
          exists new, _merge_configs old v = Some new /\ m !! key = Some new
      | _, _ => m !! key = Some v
      end
  end.

(** The state of the loop after the items [done] of the override. *)
Definition merge_loop_inv (base : gmap string value)
    (r : option value) (done : gmap string value) : Prop :=
  forall merged, r = Some merged <->
    exists m, merged = VDict m /\ forall key, merged_at base done m key.

(** A message names a key when the key's quoted name occurs in it. *)
Definition names_key (msg key : string) : bool :=
  is_substring (quoted key) msg.

(** The message names the keys actually absent from [cfg], and only them. *)
Definition names_the_absent_keys (msg : string) (cfg : gmap string value)
  : Prop :=
  forall key, key ∈ required_keys ->
    (names_key msg key = true <-> cfg !! key = None).

(** A loaded configuration whose recommendation section lacks only
    [hyperparameters]. *)
Definition section_without_hyperparameters : gmap string value :=
  {[ "model_architecture" := VDict {[ "output_dim" := VScalar (SInt 1) ]};
     "training_settings" := VDict {[ "epochs" := VScalar (SInt 10) ]} ]}.

Definition config_without_hyperparameters : t :=
  Make "development" ∅
       (VDict {[ "recommendation_model" := VDict section_without_hyperparameters ]}).

Definition sentiment_required_keys : list string :=
  ["model_settings"; "quantization_parameters"; "inference_settings"].

(** [_validate_sentiment_config(config)] *)
Definition _validate_sentiment_config (cfg : value) : result unit :=
  ok ← all_in cfg (set_order sentiment_required_keys);
  if ok : bool then Returns tt
  else raise ConfigValidationError
         ("Missing required keys in sentiment config: "
          +:+ set_repr sentiment_required_keys).

(** [get_sentiment_config()] *)
Definition get_sentiment_config (self : t) : result value * t :=
  match _cache self !! "sentiment" with
  | Some cached => (Returns cached, self)
  | None =>
      match dict_get (config self) "sentiment_model" (VDict ∅) with
      | Raises e => (Raises e, self)
      | Returns cfg =>
          match _validate_sentiment_config cfg with
          | Raises e => (Raises e, self)
          | Returns _ =>
              (Returns cfg,
               Make (env self) (<["sentiment" := cfg]> (_cache self))
                    (config self))
          end
      end
  end.

Definition anomaly_required_keys : list string :=
  ["algorithm_settings"; "detection_thresholds"; "update_frequency"].

(** [_validate_anomaly_config(config)] *)
Definition _validate_anomaly_config (cfg : value) : result unit :=
  ok ← all_in cfg (set_order anomaly_required_keys);
  if ok : bool then Returns tt
  else raise ConfigValidationError
         ("Missing required keys in anomaly config: "
          +:+ set_repr anomaly_required_keys).

(** [get_anomaly_config()] *)
Definition get_anomaly_config (self : t) : result value * t :=
  match _cache self !! "anomaly" with
  | Some cached => (Returns cached, self)
  | None =>
      match dict_get (config self) "anomaly_model" (VDict ∅) with
      | Raises e => (Raises e, self)
      | Returns cfg =>
          match _validate_anomaly_config cfg with
          | Raises e => (Raises e, self)
          | Returns _ =>
              (Returns cfg,
               Make (env self) (<["anomaly" := cfg]> (_cache self))
                    (config self))
          end
      end
  end.

(** The four getters side by side: the section of the configuration that
    each reads, the key it caches under and the keys it requires. *)
Inductive model_section := Recommendation | Nlp | Sentiment | Anomaly.

Definition getter (section : model_section) : t -> result value * t :=
  match section with
  | Recommendation => get_recommendation_config
  | Nlp => get_nlp_config
  | Sentiment => get_sentiment_config
  | Anomaly => get_anomaly_config
  end.

Definition section_key (section : model_section) : string :=
  match section with
  | Recommendation => "recommendation_model"
  | Nlp => "nlp_model"
  | Sentiment => "sentiment_model"
  | Anomaly => "anomaly_model"
  end.

Definition cache_key (section : model_section) : string :=
  match section with
  | Recommendation => "recommendation"
  | Nlp => "nlp"
  | Sentiment => "sentiment"
  | Anomaly => "anomaly"
  end.

Definition required_of (section : model_section) : list string :=
  match section with
  | Recommendation => required_keys
  | Nlp => nlp_required_keys
  | Sentiment => sentiment_required_keys
  | Anomaly => anomaly_required_keys
  end.

(** The message of each getter's [ConfigValidationError]. *)
Definition missing_message (section : model_section) : string :=
  match section with
  | Recommendation => missing_keys_message
  | Nlp => "Missing required keys in NLP config: " +:+ set_repr nlp_required_keys
  | Sentiment =>
      "Missing required keys in sentiment config: "
      +:+ set_repr sentiment_required_keys
  | Anomaly =>
      "Missing required keys in anomaly config: "
      +:+ set_repr anomaly_required_keys
  end.

(** The object after a sequence of getter calls, whatever they returned. *)
Fixpoint after_getters (calls : list model_section) (self : t) : t :=
  match calls with
  | [] => self
  | section :: rest => after_getters rest (getter section self).2
  end.

(** What holds of an object made from the loaded configuration [loaded]
    and then used: [self.config] is never assigned again, and the cache
    holds, under a getter's key, the section of that getter, which passed
    its validation. *)
Definition cache_sound (loaded : value) (self : t) : Prop :=
  config self = loaded
  /\ forall section v,
       _cache self !! cache_key section = Some v ->
       dict_get loaded (section_key section) (VDict ∅) = Returns v
       /\ all_in v (required_of section) = Returns true.

(** How deep the mappings of a value nest. *)
Fixpoint nesting (v : value) : nat :=
  match v with
  | VDict d => S (map_fold (fun _ item n => Nat.max (nesting item) n) 0 d)
  | _ => 0
  end.

(** What opening and parsing one configuration file does:
    [yaml.safe_load] returns a value ([None] for an empty file), or the
    parser raises [yaml.YAMLError], or [open] raises [FileNotFoundError] or
    another exception (a [PermissionError], say). *)
Inductive yaml_outcome :=
| Loaded (v : value)
| YAMLError (msg : string)
| FileNotFoundError (msg : string)
| OtherError (e : exn).

(** The two files that [_load_base_config] reads: [base.yml] and the
    environment's [config.yml], [None] when [os.path.exists] finds none. *)
Record config_files := Config_files {
  base_yml : yaml_outcome;
  env_yml : option yaml_outcome
}.

(** One file read inside the [try] block of [_load_base_config], as the
    block's two handlers leave it: a [YAMLError] and a [FileNotFoundError]
    become [ConfigValidationError]s, anything else passes. *)
Definition yaml_load (file : yaml_outcome) : result value :=
  match file with
  | Loaded v => Returns v
  | YAMLError msg =>
      raise ConfigValidationError ("YAML parsing error: " +:+ msg)
  | FileNotFoundError msg =>
      raise ConfigValidationError ("Configuration file not found: " +:+ msg)
  | OtherError e => Raises e
  end.

(** [_load_base_config()]: the value assigned to [self.config].
    [merge_error] is the exception that a failing [_merge_configs] raises
    (an [AttributeError] or a [TypeError]; which one, and its text, depend
    on the order of the override's items, which a finite map does not
    keep); neither handler takes it. *)
Definition _load_base_config (files : config_files) (merge_error : exn)
  : result value :=
  base ← yaml_load (base_yml files);
  match env_yml files with
  | None => Returns base
  | Some file =>
      env_config ← yaml_load file;
      match _merge_configs base env_config with
      | Some merged => Returns merged
      | None => Raises merge_error
      end
  end.

(** [str(list_of_strings)] *)
Definition list_repr (items : list string) : string :=
  "[" +:+ join ", " (map quoted items) +:+ "]".

(** [ModelConfig(env)] *)
Definition __init__ (files : config_files) (merge_error : exn) (env : string)
  : result t :=
  if negb (bool_decide (env ∈ ENVIRONMENTS.*1)) then
    raise ValueError
      ("Environment must be one of " +:+ list_repr ENVIRONMENTS.*1)
  else
    reraise_as ConfigValidationError "Configuration initialization failed: "
      (cfg ← _load_base_config files merge_error;
       Returns (Make env ∅ cfg)).

End WithInterpreter.
End ModelConfig.

(* ===================================================================== *)
(** * Stateful calls: the object is passed along, exceptions keep what was
      assigned before they were raised *)
(* ===================================================================== *)

Definition M (S A : Type) : Type := S -> result A * S.

Definition retM {S A} (a : A) : M S A := fun s => (Returns a, s).

Definition bindM {S A B} (c : M S A) (k : A -> M S B) : M S B :=
  fun s =>
    match c s with
    | (Returns a, s') => k a s'
    | (Raises e, s') => (Raises e, s')
    end.

(** A call that only reads the object. *)
Definition liftM {S A} (r : result A) : M S A := fun s => (r, s).

Definition getM {S} : M S S := fun s => (Returns s, s).
Definition putM {S} (s : S) : M S unit := fun _ => (Returns tt, s).

(** [try: c except Exception as e: handler(e)] *)
Definition tryM {S A} (c : M S A) (handler : exn -> M S A) : M S A :=
  fun s =>
    match c s with
    | (Returns a, s') => (Returns a, s')
    | (Raises e, s') => handler e s'
    end.

Notation "'do' x <~ c ;;; k" := (bindM c (fun x => k))
  (at level 10, x name, c at level 100, k at level 200,
   format "'[v' 'do'  x  <~  c  ;;;  '/' k ']'").
Notation "'exec' c ;;; k" := (bindM c (fun _ => k))
  (at level 10, c at level 100, k at level 200,
   format "'[v' 'exec'  c  ;;;  '/' k ']'").

(** A call leaves the part [f] of the object as it was, whether it returns
    or raises. *)
Definition preserves {S A X} (f : S -> X) (c : M S A) : Prop :=
  forall s, f (c s).2 = f s.

(** A call raises when made on the object [s]. *)
Definition raises_at {S A} (c : M S A) (s : S) : Prop :=
  exists e s', c s = (Raises e, s').

(* ===================================================================== *)
(** * numpy and pandas data *)
(* ===================================================================== *)

Definition vector := list float.
(** A 2-D [float64] array, by rows. *)
Definition matrix := list (list float).

(** A cell of a [DataFrame] or a field of a record: a number, a string, or
    a missing value. *)
Inductive cell :=
| CNum (x : float)
| CStr (s : string)
| CNull.

(** A numpy array: a 2-D or a 1-D array of numbers, a 1-D array of strings,
    or a structured array, whose records have named fields. *)
Inductive ndarray :=
| ArrNum (rows : matrix)
| ArrVec (v : vector)
| ArrStr (items : list string)
| ArrRec (names : list string) (records : list (list cell)).

(** Column labels: names, or positions for a frame built from an array. *)
Inductive label :=
| LStr (s : string)
| LInt (n : nat).

#[global] Instance label_eq_dec : EqDecision label.
Proof. solve_decision. Defined.

(** A [DataFrame]: its columns in order. *)
Definition DataFrame := list (label * list cell).

(** What a caller may pass as data: a list, an array, a frame, or an object
    of another type. A list is given by what [np.array(data)] and
    [pd.DataFrame(data)] make of it, each an array or a frame, or the
    exception that the conversion raises: a list of strings gives a 1-D
    array of them and a frame with the one column [0]; a list of dicts
    gives a frame with their keys as columns. *)
Inductive input :=
| InList (as_array : result ndarray) (as_frame : result DataFrame)
| InArray (a : ndarray)
| InFrame (df : DataFrame)
| InOther.

(** Data after [_validate_and_convert_input]. *)
Inductive converted :=
| CArray (a : ndarray)
| CFrame (df : DataFrame).

Definition float_of_Z (z : Z) : float :=
  if (z <? 0)%Z then PrimFloat.opp (PrimFloat.of_uint63 (Uint63.of_Z (- z)))
  else PrimFloat.of_uint63 (Uint63.of_Z z).

(** [feature in data.columns] *)
Definition has_column (df : DataFrame) (name : string) : bool :=
  bool_decide (LStr name ∈ df.*1).

(** [data[feature]] *)
Definition df_column (df : DataFrame) (name : string) : result (list cell) :=
  match list_find (fun c => c.1 = LStr name) df with
  | Some (_, (_, col)) => Returns col
  | None => raise KeyError (ModelConfig.quoted name)
  end.

(** [data[[f1, f2, ...]]] *)
Fixpoint df_select (df : DataFrame) (names : list string) : result DataFrame :=
  match names with
  | [] => Returns []
  | name :: rest =>
      col ← df_column df name;
      others ← df_select df rest;
      Returns ((LStr name, col) :: others)
  end.

(** Column [j] of a 2-D array. *)
Definition matrix_column {A} (dflt : A) (rows : list (list A)) (j : nat) : list A :=
  map (fun row => nth j row dflt) rows.

Definition matrix_width {A} (rows : list (list A)) : nat :=
  match rows with
  | [] => 0
  | row :: _ => length row
  end.

(** [pd.DataFrame(data)] of an array: positional labels, but for a
    structured array, whose fields name the columns. *)
Definition frame_of_array (a : ndarray) : DataFrame :=
  match a with
  | ArrNum rows =>
      map (fun j => (LInt j, map CNum (matrix_column 0%float rows j)))
          (seq 0 (matrix_width rows))
  | ArrVec v => [(LInt 0, map CNum v)]
  | ArrStr items => [(LInt 0, map CStr items)]
  | ArrRec names records =>
      imap (fun j name => (LStr name, matrix_column CNull records j)) names
  end.

(** The field names of an array: a plain array has none. *)
Definition field_names (a : ndarray) : list string :=
  match a with
  | ArrRec names _ => names
  | _ => []
  end.

(** A list of strings, the [List[str]] of the signatures. *)
Definition strings (items : list string) : input :=
  InList (Returns (ArrStr items)) (Returns (frame_of_array (ArrStr items))).

(** [len(data)] *)
Definition data_len (data : converted) : nat :=
  match data with
  | CArray (ArrNum rows) => length rows
  | CArray (ArrVec v) => length v
  | CArray (ArrStr items) => length items
  | CArray (ArrRec _ records) => length records
  | CFrame [] => 0
  | CFrame ((_, col) :: _) => length col
  end.

(** [np.array(columns).T]: the rows of a list of equally long columns. *)
Fixpoint transpose_columns {A} (n : nat) (columns : list (list A)) : list (list A) :=
  match columns with
  | [] => repeat [] n
  | col :: rest =>
      zip_with cons col (transpose_columns n rest)
  end.

(** What [np.array(columns).T] is: the 1-D empty array when there is no
    column, else a 2-D array with one row per sample. *)
Inductive stacked :=
| Empty1D
| TwoD (rows : matrix).

Definition columns_T (columns : list (list Z)) : result stacked :=
  match columns with
  | [] => Returns Empty1D
  | first :: _ =>
      if forallb (fun col => Nat.eqb (length col) (length first)) columns
      then Returns (TwoD (transpose_columns (length first)
                            (map (map float_of_Z) columns)))
      else raise ValueError "setting an array element with a sequence: inhomogeneous shape"
  end.

(** [np.hstack([a, b])]: the rows side by side. Arrays of different
    dimensions or of different heights are refused. *)
Definition hstack (a : matrix) (b : stacked) : result matrix :=
  match b with
  | Empty1D =>
      raise ValueError "all the input arrays must have same number of dimensions"
  | TwoD rows =>
      if Nat.eqb (length a) (length rows) then Returns (zip_with app a rows)
      else raise ValueError "all the input array dimensions except for the concatenation axis must match exactly"
  end.

(** The numpy reductions the code calls, on [float64]. Sums run from left
    to right. *)
Module np.

Definition sum (v : vector) : float := fold_left PrimFloat.add v 0%float.

Definition float_of_nat (n : nat) : float := float_of_Z (Z.of_nat n).

(** [np.mean(v)]: [nan] (with a warning, no exception) for an empty [v]. *)
Definition mean (v : vector) : float :=
  PrimFloat.div (sum v) (float_of_nat (length v)).

(** [np.dot(a, b)] of two vectors *)
Definition dot (a b : vector) : float := sum (zip_with PrimFloat.mul a b).

(** [np.linalg.norm(a)] *)
Definition norm (a : vector) : float := PrimFloat.sqrt (dot a a).

(** [np.std(v)] (population standard deviation) *)
Definition std (v : vector) : float :=
  let m := mean v in
  PrimFloat.sqrt (mean (map (fun x => PrimFloat.mul (PrimFloat.sub x m)
                                                    (PrimFloat.sub x m)) v)).

(** [np.maximum(a, b)]: a [nan] wins. *)
Definition maximum (a b : float) : float :=
  if PrimFloat.is_nan a then a
  else if PrimFloat.is_nan b then b
  else if PrimFloat.ltb a b then b else a.

(** [np.max(v)]: an empty array has no maximum. *)
Definition max (v : vector) : result float :=
  match v with
  | [] => raise ValueError
            "zero-size array to reduction operation maximum which has no identity"
  | x :: rest => Returns (fold_left maximum rest x)
  end.

End np.

(* ===================================================================== *)
(** * The collaborators: scikit-learn transformers, the Keras tokenizer and
      pandas statistics, by the operations the code calls *)
(* ===================================================================== *)

Class Transformers := {
  scaler : Type;
  (** [StandardScaler()] and [MinMaxScaler()], not fitted *)
  StandardScaler : scaler;
  MinMaxScaler : scaler;
  scaler_fit : scaler -> DataFrame -> result scaler;
  scaler_transform : scaler -> DataFrame -> result matrix;
  encoder : Type;
  (** [LabelEncoder()], not fitted *)
  LabelEncoder : encoder;
  encoder_fit : encoder -> list cell -> result encoder;
  encoder_transform : encoder -> list cell -> result (list Z);
  tokenizer : Type;
  (** [Tokenizer(num_words=n, ...)] *)
  Tokenizer : value -> tokenizer;
  fit_on_texts : tokenizer -> converted -> result tokenizer;
  texts_to_sequences : tokenizer -> converted -> result (list (list Z));
  (** [float(series.mean())], [float(series.std())] *)
  series_mean : list cell -> result float;
  series_std : list cell -> result float
}.

(** The Keras callbacks the training loops pass to [fit]. *)
Inductive callback :=
| EarlyStopping (monitor : string) (patience : Z) (restore_best_weights : bool)
| ModelCheckpoint (filepath : string) (save_best_only : bool) (monitor : string)
| ReduceLROnPlateau (monitor : string) (factor : float) (patience : Z)
| TensorBoard (log_dir : string) (histogram_freq : Z).

(** The arguments of one [model.fit(...)] call. *)
Record fit_call := Fit_call {
  fit_x : matrix;
  fit_y : ndarray;
  fit_epochs : Z;
  fit_batch_size : Z;
  fit_validation_split : option float;
  fit_callbacks : list callback
}.

(** [history.history]: per metric, its value after each epoch. *)
Definition History := gmap string (list float).

(** The trainable predictor (a compiled [tf.keras.Model] with its weights)
    and the interpreter's [hash(array.tobytes())]. [fit] trains in place:
    it gives the network afterwards with the history. What a [fit] that
    raises has done to the weights by then is not modelled: nothing is
    stated about the network after a failed [fit]. *)
Class Predictor := {
  network : Type;
  network_fit : network -> fit_call -> result (network * History);
  (** [predict] of a network with the two outputs
      [(recommendations, confidence)] *)
  network_predict_pair : network -> matrix -> result (matrix * matrix);
  (** [predict] of a network with one output *)
  network_predict : network -> matrix -> result matrix;
  hash_of_bytes : ndarray -> Z
}.

(* ===================================================================== *)
(** * utils/data_preprocessor.py *)
(* ===================================================================== *)

Module DataPreprocessor.
Section WithTransformers.
Context `{Interpreter} `{Transformers}.

Definition MAX_VOCAB_SIZE : Z := 10000.
Definition MAX_SEQUENCE_LENGTH : nat := 512.
Definition CATEGORICAL_FEATURES : list string :=
  ["destination_type"; "travel_style"; "accommodation_type"].
Definition NUMERICAL_FEATURES : list string :=
  ["budget"; "duration"; "group_size"].
Definition SUPPORTED_MODEL_TYPES : list string :=
  ["recommendation"; "nlp"; "sentiment"; "anomaly"].

(** [self.transformers] *)
Record transformer_set := Transformer_set {
  numerical : scaler;
  categorical : gmap string encoder;
  text : option tokenizer
}.

(** A [DataPreprocessor] object. *)
Record t := Make {
  model_type : string;
  env : string;
  config : ModelConfig.t;
  preprocessor_state : value;
  transformers : transformer_set;
  cache : value
}.

Definition set_config (c : ModelConfig.t) (self : t) : t :=
  Make (model_type self) (env self) c (preprocessor_state self)
       (transformers self) (cache self).
Definition set_preprocessor_state (st : value) (self : t) : t :=
  Make (model_type self) (env self) (config self) st
       (transformers self) (cache self).
Definition set_transformers (tr : transformer_set) (self : t) : t :=
  Make (model_type self) (env self) (config self) (preprocessor_state self)
       tr (cache self).
Definition set_cache (c : value) (self : t) : t :=
  Make (model_type self) (env self) (config self) (preprocessor_state self)
       (transformers self) c.

Definition set_numerical (sc : scaler) (self : t) : t :=
  set_transformers
    (Transformer_set sc (categorical (transformers self)) (text (transformers self)))
    self.
Definition set_categorical (feature : string) (enc : encoder) (self : t) : t :=
  set_transformers
    (Transformer_set (numerical (transformers self))
       (<[feature := enc]> (categorical (transformers self)))
       (text (transformers self)))
    self.
Definition set_text (tok : option tokenizer) (self : t) : t :=
  set_transformers
    (Transformer_set (numerical (transformers self))
       (categorical (transformers self)) tok)
    self.

Definition modify (f : t -> t) : M t unit := fun self => (Returns tt, f self).

(** [d[key] = v] on an object that should be a dict. *)
Definition setitem (d : value) (key : string) (v : value) : result value :=
  match d with
  | VDict m => Returns (VDict (<[key := v]> m))
  | _ => raise TypeError "object does not support item assignment"
  end.

(** A call of a [ModelConfig] getter on [self.config]. *)
Definition with_config (getter : ModelConfig.t -> result value * ModelConfig.t)
  : M t value :=
  fun self =>
    let '(r, c) := getter (config self) in (r, set_config c self).

Fixpoint init_label_encoders (features : list string) : M t unit :=
  match features with
  | [] => retM tt
  | feature :: rest =>
      exec modify (set_categorical feature LabelEncoder) ;;;
      init_label_encoders rest
  end.

(** [_initialize_model_specific_components()] *)
Definition _initialize_model_specific_components : M t unit :=
  tryM
    (do self <~ getM ;;;
     if String.eqb (model_type self) "recommendation" then
       exec with_config ModelConfig.get_recommendation_config ;;;
       modify (set_text (Some (Tokenizer (VScalar (SInt MAX_VOCAB_SIZE)))))
     else if String.eqb (model_type self) "nlp" then
       do cfg <~ with_config ModelConfig.get_nlp_config ;;;
       do settings <~ liftM (dict_get cfg "tokenizer_settings" (VDict ∅)) ;;;
       do size <~ liftM (dict_get settings "vocab_size" (VScalar (SInt MAX_VOCAB_SIZE))) ;;;
       modify (set_text (Some (Tokenizer size)))
     else if String.eqb (model_type self) "sentiment" then
       init_label_encoders CATEGORICAL_FEATURES
     else if String.eqb (model_type self) "anomaly" then
       modify (set_numerical MinMaxScaler)
     else retM tt)
    (fun e => liftM (raise PreprocessingError
                       ("Model-specific initialization failed: " +:+ exn_str e))).

(** The state record that [__init__] builds. *)
Definition initial_state (model_type created_at : string) : value :=
  VDict {[ "model_type" := str model_type;
           "created_at" := str created_at;
           "version" := str "1.0.0";
           "last_updated" := VScalar SNone;
           "statistics" := VDict ∅ ]}.

Definition initial_cache : value :=
  VDict {[ "frequent_values" := VDict ∅;
           "statistics" := VDict ∅;
           "last_updated" := VScalar SNone ]}.

(** [DataPreprocessor(model_type, env)]. [loaded] is what [ModelConfig(env)]
    gives (the configuration files are read there); [created_at] is the
    clock's [utcnow().isoformat()]. *)
Definition __init__ (loaded : result ModelConfig.t)
    (model_type env created_at : string) : result t :=
  if negb (bool_decide (model_type ∈ SUPPORTED_MODEL_TYPES)) then
    raise ValueError "Unsupported model type"
  else
    reraise_as PreprocessingError "Initialization failed: "
      (cfg ← loaded;
       let self :=
         Make model_type env cfg (initial_state model_type created_at)
              (Transformer_set StandardScaler ∅ None) initial_cache in
       match _initialize_model_specific_components self with
       | (Returns _, self') => Returns self'
       | (Raises e, _) => Raises e
       end).

(** [_validate_and_convert_input(data)] *)
Definition _validate_and_convert_input (data : input) : M t converted :=
  do self <~ getM ;;;
  let textual := bool_decide (model_type self ∈ ["nlp"; "sentiment"]) in
  match data with
  | InList as_array as_frame =>
      if textual then do a <~ liftM as_array ;;; retM (CArray a)
      else do df <~ liftM as_frame ;;; retM (CFrame df)
  | InArray a =>
      if textual then retM (CArray a)
      else retM (CFrame (frame_of_array a))
  | InFrame df => retM (CFrame df)
  | InOther => liftM (raise PreprocessingError "Unsupported input type")
  end.

(** The frame that a preprocessor of the types ['recommendation'] and
    ['anomaly'] works on: the caller's frame, or [pd.DataFrame(data)]. *)
Definition frame_of (data : input) : option DataFrame :=
  match data with
  | InList _ (Returns df) => Some df
  | InList _ (Raises _) => None
  | InArray a => Some (frame_of_array a)
  | InFrame df => Some df
  | InOther => None
  end.

(** The [numerical_features] entry of the statistics. *)
Fixpoint feature_statistics (df : DataFrame) (features : list string)
  : result (gmap string value) :=
  match features with
  | [] => Returns ∅
  | feature :: rest =>
      if has_column df feature then
        col ← df_column df feature;
        mean ← series_mean col;
        std ← series_std col;
        others ← feature_statistics df rest;
        Returns (<[feature := VDict {[ "mean" := VScalar (SFloat mean);
                                       "std" := VScalar (SFloat std) ]}]> others)
      else feature_statistics df rest
  end.

(** [_update_statistics(data)]: a failure is logged and swallowed. *)
Definition _update_statistics (data : converted) (timestamp : string) : M t unit :=
  tryM
    (let stats : gmap string value :=
       {[ "sample_count" := VScalar (SInt (Z.of_nat (data_len data)));
          "timestamp" := str timestamp ]} in
     do stats <~ liftM (match data with
                     | CFrame df =>
                         feats ← feature_statistics df NUMERICAL_FEATURES;
                         Returns (<["numerical_features" := VDict feats]> stats)
                     | CArray _ => Returns stats
                     end) ;;;
     do self <~ getM ;;;
     do st <~ liftM (setitem (preprocessor_state self) "statistics" (VDict stats)) ;;;
     modify (set_preprocessor_state st))
    (fun _ => retM tt).

(** The loop that fits one [LabelEncoder] per categorical column present. *)
Fixpoint fit_categorical (df : DataFrame) (features : list string) : M t unit :=
  match features with
  | [] => retM tt
  | feature :: rest =>
      exec (if has_column df feature then
         exec modify (set_categorical feature LabelEncoder) ;;;
         do col <~ liftM (df_column df feature) ;;;
         do enc <~ liftM (encoder_fit LabelEncoder col) ;;;
         modify (set_categorical feature enc)
       else retM tt) ;;;
      fit_categorical df rest
  end.

(** The list comprehension that encodes the categorical columns present. *)
Fixpoint transform_categorical (encoders : gmap string encoder)
    (df : DataFrame) (features : list string) : result (list (list Z)) :=
  match features with
  | [] => Returns []
  | feature :: rest =>
      if has_column df feature then
        enc ← match encoders !! feature with
              | Some enc => Returns enc
              | None => raise KeyError (ModelConfig.quoted feature)
              end;
        col ← df_column df feature;
        codes ← encoder_transform enc col;
        others ← transform_categorical encoders df rest;
        Returns (codes :: others)
      else transform_categorical encoders df rest
  end.

(** [_process_recommendation_data(data, fit)] *)
Definition _process_recommendation_data (df : DataFrame) (fit : bool)
  : M t matrix :=
  exec (if fit then
     do self <~ getM ;;;
     do sub <~ liftM (df_select df NUMERICAL_FEATURES) ;;;
     do sc <~ liftM (scaler_fit (numerical (transformers self)) sub) ;;;
     exec modify (set_numerical sc) ;;;
     fit_categorical df CATEGORICAL_FEATURES
   else retM tt) ;;;
  do self <~ getM ;;;
  do sub <~ liftM (df_select df NUMERICAL_FEATURES) ;;;
  do numerical_data <~ liftM (scaler_transform (numerical (transformers self)) sub) ;;;
  do columns <~ liftM (transform_categorical (categorical (transformers self))
                      df CATEGORICAL_FEATURES) ;;;
  do categorical_data <~ liftM (columns_T columns) ;;;
  liftM (hstack numerical_data categorical_data).

(** [pad_sequences(sequences, maxlen, padding='post', truncating='post')]:
    the first [maxlen] tokens are kept, zeros are added at the end. *)
Definition pad_sequence (maxlen : nat) (sequence : list Z) : vector :=
  let kept := take maxlen sequence in
  map float_of_Z (kept ++ replicate (maxlen - length kept) 0%Z).

Definition pad_sequences (maxlen : nat) (sequences : list (list Z)) : matrix :=
  map (pad_sequence maxlen) sequences.

(** [_process_nlp_data(data, fit)] *)
Definition _process_nlp_data (data : converted) (fit : bool) : M t matrix :=
  exec (if fit then
     do self <~ getM ;;;
     match text (transformers self) with
     | Some tok =>
         do tok' <~ liftM (fit_on_texts tok data) ;;;
         modify (set_text (Some tok'))
     | None =>
         liftM (raise AttributeError
                  "'NoneType' object has no attribute 'fit_on_texts'")
     end
   else retM tt) ;;;
  do self <~ getM ;;;
  match text (transformers self) with
  | Some tok =>
      do sequences <~ liftM (texts_to_sequences tok data) ;;;
      retM (pad_sequences MAX_SEQUENCE_LENGTH sequences)
  | None =>
      liftM (raise AttributeError
               "'NoneType' object has no attribute 'texts_to_sequences'")
  end.

(** [_process_sentiment_data(data, fit)] *)
Definition _process_sentiment_data (data : converted) (fit : bool) : M t matrix :=
  match data with
  | CArray _ => _process_nlp_data data fit
  | CFrame df => _process_recommendation_data df fit
  end.

(** [_process_anomaly_data(data, fit)]; an array has no named columns. *)
Definition _process_anomaly_data (data : converted) (fit : bool) : M t matrix :=
  match data with
  | CArray _ =>
      liftM (raise IndexError "only integers and slices are valid indices")
  | CFrame df =>
      exec (if fit then
         do self <~ getM ;;;
         do sub <~ liftM (df_select df NUMERICAL_FEATURES) ;;;
         do sc <~ liftM (scaler_fit (numerical (transformers self)) sub) ;;;
         modify (set_numerical sc)
       else retM tt) ;;;
      do self <~ getM ;;;
      do sub <~ liftM (df_select df NUMERICAL_FEATURES) ;;;
      liftM (scaler_transform (numerical (transformers self)) sub)
  end.

(** The model-specific branch of [fit_transform] and [transform]. *)
Definition process (data : converted) (fit : bool) : M t matrix :=
  do self <~ getM ;;;
  if String.eqb (model_type self) "recommendation" then
    match data with
    | CFrame df => _process_recommendation_data df fit
    | CArray _ =>
        liftM (raise IndexError "only integers and slices are valid indices")
    end
  else if String.eqb (model_type self) "nlp" then _process_nlp_data data fit
  else if String.eqb (model_type self) "sentiment" then
    _process_sentiment_data data fit
  else _process_anomaly_data data fit.

(** [fit_transform(data)]; the two timestamps are the clock's at
    [_update_statistics] and at the state update. *)
Definition fit_transform (data : input) (stats_time now : string) : M t matrix :=
  tryM
    (do data' <~ _validate_and_convert_input data ;;;
     exec _update_statistics data' stats_time ;;;
     do processed_data <~ process data' true ;;;
     do self <~ getM ;;;
     do st <~ liftM (setitem (preprocessor_state self) "last_updated" (str now)) ;;;
     exec modify (set_preprocessor_state st) ;;;
     retM processed_data)
    (fun e => liftM (raise PreprocessingError
                       ("Fit transform failed: " +:+ exn_str e))).

(** [transform(data)] *)
Definition transform (data : input) : M t matrix :=
  tryM
    (do self <~ getM ;;;
     do last_updated <~ liftM (dict_get (preprocessor_state self) "last_updated"
                              (VScalar SNone)) ;;;
     if negb (truthy last_updated) then
       liftM (raise PreprocessingError
                "Preprocessor must be fitted before transform")
     else
       do data' <~ _validate_and_convert_input data ;;;
       do processed_data <~ process data' false ;;;
       retM processed_data)
    (fun e => liftM (raise PreprocessingError
                       ("Transform failed: " +:+ exn_str e))).

(** What [load_state(path)] finds under [path]: for each of the three files,
    what opening and decoding it gives. *)
Record state_files := State_files {
  preprocessor_state_json : result value;
  transformers_pkl : result transformer_set;
  cache_json : result value
}.

(** [load_state(path)]: each attribute is assigned as soon as its file is
    read; a failure ends the call with [False]. *)
Definition load_state (files : state_files) : M t bool :=
  tryM
    (do st <~ liftM (preprocessor_state_json files) ;;;
     exec modify (set_preprocessor_state st) ;;;
     do tr <~ liftM (transformers_pkl files) ;;;
     exec modify (set_transformers tr) ;;;
     do c <~ liftM (cache_json files) ;;;
     exec modify (set_cache c) ;;;
     retM true)
    (fun _ => retM false).

(** The preprocessor is not fitted: its state record has no [last_updated]
    (the value that [__init__] leaves and that only a completed
    [fit_transform], or a state record read by [load_state], replaces). *)
Definition unfitted (self : t) : Prop :=
  exists m, preprocessor_state self = VDict m /\
    truthy (default (VScalar SNone) (m !! "last_updated")) = false.

(** A call keeps the state record. *)
Definition keeps_state {A} (c : M t A) : Prop :=
  forall self, preprocessor_state (c self).2 = preprocessor_state self.

(** What [transform] raises on a preprocessor that is not fitted. *)
Definition unfitted_message : string :=
  "Transform failed: Preprocessor must be fitted before transform".

(** The calls a preprocessor can receive that are not a successful
    [fit_transform] or a successful [load_state]; [readable] says which
    directories a failed [load_state] may have been given. *)
Inductive idle_call (readable : state_files -> Prop) (self self' : t) : Prop :=
| fit_transform_failed data stats_time now e :
    fit_transform data stats_time now self = (Raises e, self') ->
    idle_call readable self self'
| transform_called data r :
    transform data self = (r, self') ->
    idle_call readable self self'
| load_state_failed files :
    readable files ->
    load_state files self = (Returns false, self') ->
    idle_call readable self self'.

(** A preprocessor as constructed, and after any number of such calls. *)
Inductive history (readable : state_files -> Prop) : t -> Prop :=
| constructed loaded model_type env created_at self :
    __init__ loaded model_type env created_at = Returns self ->
    history readable self
| called self self' :
    history readable self -> idle_call readable self self' ->
    history readable self'.

(** "Never had a successful fit_transform or state load": whatever the
    failed loads were given. *)
Definition never_fitted_or_loaded : t -> Prop := history (fun _ => True).

(** The same, where every failed load failed on the state record itself
    ([preprocessor_state.json] missing or not decodable). *)
Definition state_record_unread (files : state_files) : Prop :=
  succeeded (preprocessor_state_json files) = false.

Definition never_given_a_state : t -> Prop := history state_record_unread.

(** A call reads the object: it changes nothing, and what it gives depends
    on the model type and the transformers only. *)
Definition reads {A} (c : M t A) : Prop :=
  forall a b, model_type a = model_type b -> transformers a = transformers b ->
    (c a).1 = (c b).1 /\ (c a).2 = a.

(** ** State on disk *)

(** What a file of a state directory holds: a JSON document, a pickled
    transformer set, or what a write that did not complete left. *)
Inductive state_file :=
| JsonFile (v : value)
| PickleFile (tr : transformer_set)
| Truncated.

(** The state directories, by the path that [save_state] and [load_state]
    are given (one string, one directory); a directory maps file names to
    what the files hold. *)
Definition state_disk := gmap string (gmap string state_file).

(** How a write ends: the file is written; or it cannot be opened, and
    nothing changes; or the write is cut short, and the file is left
    truncated. *)
Inductive write_outcome := Written | NotOpened | Interrupted.

(** What the environment does to one [save_state] call. *)
Record save_conditions := Save_conditions {
  mkdir_fails : bool;
  state_write : write_outcome;
  transformers_write : write_outcome;
  cache_write : write_outcome
}.

(** [save_path.mkdir(parents=True, exist_ok=True)] *)
Definition mkdir (fails : bool) (path : string) : M state_disk unit :=
  fun disk =>
    if fails then (raise OSError "Permission denied", disk)
    else match disk !! path with
         | Some _ => (Returns tt, disk)
         | None => (Returns tt, <[path := ∅]> disk)
         end.

(** [with open(save_path / name, mode) as f: dump(content, f)] *)
Definition write_file (outcome : write_outcome) (path name : string)
    (content : state_file) : M state_disk unit :=
  fun disk =>
    let directory := default ∅ (disk !! path) in
    match outcome with
    | Written => (Returns tt, <[path := <[name := content]> directory]> disk)
    | NotOpened => (raise OSError "Permission denied", disk)
    | Interrupted =>
        (raise OSError "No space left on device",
         <[path := <[name := Truncated]> directory]> disk)
    end.

(** [save_state(path)] *)
Definition save_state (self : t) (cond : save_conditions) (path : string)
  : M state_disk bool :=
  tryM
    (exec mkdir (mkdir_fails cond) path ;;;
     exec write_file (state_write cond) path "preprocessor_state.json"
            (JsonFile (preprocessor_state self)) ;;;
     exec write_file (transformers_write cond) path "transformers.pkl"
            (PickleFile (transformers self)) ;;;
     exec write_file (cache_write cond) path "cache.json"
            (JsonFile (cache self)) ;;;
     retM true)
    (fun _ => retM false).

(** What [load_state] finds in a directory: a JSON document and a pickle
    decode to what was encoded; a missing file raises [FileNotFoundError]
    (an [OSError]); on any other content the decoder raises [undecodable]. *)
Definition read_json (undecodable : exn) (directory : gmap string state_file)
    (name : string) : result value :=
  match directory !! name with
  | Some (JsonFile v) => Returns v
  | Some _ => Raises undecodable
  | None => raise OSError "No such file or directory"
  end.

Definition read_pickle (undecodable : exn)
    (directory : gmap string state_file) (name : string)
  : result transformer_set :=
  match directory !! name with
  | Some (PickleFile tr) => Returns tr
  | Some _ => Raises undecodable
  | None => raise OSError "No such file or directory"
  end.

Definition files_in (undecodable : exn) (directory : gmap string state_file)
  : state_files :=
  State_files (read_json undecodable directory "preprocessor_state.json")
              (read_pickle undecodable directory "transformers.pkl")
              (read_json undecodable directory "cache.json").

(** [load_state(path)] on a disk. *)
Definition load_state_from (undecodable : exn) (disk : state_disk)
    (path : string) : M t bool :=
  load_state (files_in undecodable (default ∅ (disk !! path))).

(** The preprocessor [other] after it is given the state record, the
    transformers and the cache of [self]. *)
Definition restored_from (self other : t) : t :=
  set_cache (cache self)
    (set_transformers (transformers self)
       (set_preprocessor_state (preprocessor_state self) other)).

(** ** Attribute access *)

(** The names that attribute access finds on a [DataPreprocessor] object,
    besides what every object has: the attributes that [__init__] assigns
    and the methods of the class. The constants of the module
    ([NUMERICAL_FEATURES], [CATEGORICAL_FEATURES], ...) are not among
    them. *)
Definition attribute_names : list string :=
  ["model_type"; "env"; "config"; "preprocessor_state"; "transformers";
   "cache"; "__init__"; "_initialize_model_specific_components";
   "fit_transform"; "transform"; "save_state"; "load_state";
   "_validate_and_convert_input"; "_update_statistics";
   "_process_recommendation_data"; "_process_nlp_data";
   "_process_sentiment_data"; "_process_anomaly_data"].

(** [self.preprocessor.<name>], for its success only *)
Definition getattr (name : string) : result unit :=
  if bool_decide (name ∈ attribute_names) then Returns tt
  else raise AttributeError
         ("'DataPreprocessor' object has no attribute '" +:+ name +:+ "'").

End WithTransformers.
End DataPreprocessor.

(* ===================================================================== *)
(** * models/persona_model.py *)
(* ===================================================================== *)

Module PersonaModel.
Section WithCollaborators.
Context `{Interpreter} `{Transformers} `{Predictor}.

Definition MODEL_VERSION : string := "1.0.0".
Definition BATCH_SIZE : Z := 64.
Definition MAX_EPOCHS : Z := 100.
Definition EARLY_STOPPING_PATIENCE : Z := 5.

(** [self.model_state] *)
Record model_state_t := Model_state {
  version : string;
  env : string;
  training_iterations : Z;
  last_update : option float
}.

(** A [PersonaModel] object. A cache entry is the pair that [predict]
    returned: the recommendations (filtered to one dimension, or whole) and
    the confidence array. *)
Record t := Make {
  model_config : value;
  preprocessor : DataPreprocessor.t;
  model_state : model_state_t;
  model : network;
  training_history : option History;
  _prediction_cache : gmap Z (ndarray * matrix)
}.

Definition set_preprocessor (p : DataPreprocessor.t) (self : t) : t :=
  Make (model_config self) p (model_state self) (model self)
       (training_history self) (_prediction_cache self).
Definition set_model_state (st : model_state_t) (self : t) : t :=
  Make (model_config self) (preprocessor self) st (model self)
       (training_history self) (_prediction_cache self).
Definition set_model (net : network) (self : t) : t :=
  Make (model_config self) (preprocessor self) (model_state self) net
       (training_history self) (_prediction_cache self).
Definition set_training_history (h : option History) (self : t) : t :=
  Make (model_config self) (preprocessor self) (model_state self) (model self)
       h (_prediction_cache self).
Definition set_prediction_cache (c : gmap Z (ndarray * matrix)) (self : t) : t :=
  Make (model_config self) (preprocessor self) (model_state self) (model self)
       (training_history self) c.

Definition modify (f : t -> t) : M t unit := fun self => (Returns tt, f self).

(** A call of a method of [self.preprocessor]. *)
Definition on_preprocessor {A} (c : M DataPreprocessor.t A) : M t A :=
  fun self =>
    let '(r, p) := c (preprocessor self) in (r, set_preprocessor p self).

(** [history.history[name][-1]] *)
Definition final_metric (history : History) (name : string) : result float :=
  match history !! name with
  | None => raise KeyError (ModelConfig.quoted name)
  | Some values =>
      match last values with
      | Some x => Returns x
      | None => raise IndexError "list index out of range"
      end
  end.

Definition training_callbacks : list callback :=
  [ EarlyStopping "val_loss" EARLY_STOPPING_PATIENCE true;
    ModelCheckpoint "checkpoints/model_{epoch:02d}.h5" true "val_loss";
    ReduceLROnPlateau "val_loss" 0.2 3 ].

(** [train(X_train, y_train, epochs, batch_size, incremental)]; [stats_time]
    and [fitted_at] are the preprocessor's clock readings, [now] is
    [tf.timestamp()]. *)
Definition train (X_train : input) (y_train : ndarray)
    (epochs batch_size : Z) (incremental : bool)
    (stats_time fitted_at : string) (now : float) : M t (gmap string float) :=
  tryM
    (do X_processed <~
       on_preprocessor
         (if negb incremental
          then DataPreprocessor.fit_transform X_train stats_time fitted_at
          else DataPreprocessor.transform X_train) ;;;
     do self <~ getM ;;;
     do fitted <~
       liftM (network_fit (model self)
                (Fit_call X_processed y_train epochs batch_size (Some 0.2%float)
                          training_callbacks)) ;;;
     exec modify (set_model fitted.1) ;;;
     do self <~ getM ;;;
     exec modify (set_model_state
                    (Model_state (version (model_state self))
                       (env (model_state self))
                       (training_iterations (model_state self) + 1)
                       (Some now))) ;;;
     exec modify (set_training_history (Some fitted.2)) ;;;
     exec modify (set_prediction_cache ∅) ;;;
     do loss <~ liftM (final_metric fitted.2 "loss") ;;;
     do accuracy <~ liftM (final_metric fitted.2 "recommendations_accuracy") ;;;
     do confidence_accuracy <~
       liftM (final_metric fitted.2 "confidence_accuracy") ;;;
     do val_loss <~ liftM (final_metric fitted.2 "val_loss") ;;;
     retM ({[ "loss" := loss; "accuracy" := accuracy;
              "confidence_accuracy" := confidence_accuracy;
              "val_loss" := val_loss ]} : gmap string float))
    (fun e => liftM (raise RuntimeError
                       ("Model training failed: " +:+ exn_str e))).

(** A number read from the configuration, as numpy compares with it. *)
Definition as_float (v : value) : result float :=
  match v with
  | VScalar (SFloat f) => Returns f
  | VScalar (SInt z) => Returns (float_of_Z z)
  | VScalar (SBool b) => Returns (if b then 1%float else 0%float)
  | _ => raise TypeError "'>=' not supported between an array and this object"
  end.

(** [self.model_config['inference_settings']['confidence_threshold']] *)
Definition confidence_threshold (model_config : value) : result float :=
  settings ← getitem model_config "inference_settings";
  threshold ← getitem settings "confidence_threshold";
  as_float threshold.

(** [confidence >= threshold], element by element *)
Definition at_least (confidence : matrix) (threshold : float)
  : list (list bool) :=
  map (map (fun c => PrimFloat.leb threshold c)) confidence.

(** The elements of a row at the places a row of the mask selects. *)
Fixpoint select_row (row : vector) (mask : list bool) : vector :=
  match row, mask with
  | x :: row', b :: mask' =>
      if b then x :: select_row row' mask' else select_row row' mask'
  | _, _ => []
  end.

(** [a[mask]] for a boolean [mask] of as many dimensions as [a]: the mask
    must have the shape of [a]; the selected elements come out as a 1-D
    array, row by row. *)
Definition boolean_index (a : matrix) (mask : list (list bool)) : result vector :=
  if bool_decide (map length a = map length mask)
  then Returns (concat (zip_with select_row a mask))
  else raise IndexError "boolean index did not match indexed array".

(** [np.ones_like(confidence) * 0.5] *)
Definition half_ones_like (confidence : matrix) : matrix :=
  map (map (fun _ => PrimFloat.mul 1 0.5)) confidence.

(** [user_preferences.tobytes()]: arrays have it. *)
Definition tobytes_hash (user_preferences : input) : result Z :=
  match user_preferences with
  | InArray a => Returns (hash_of_bytes a)
  | _ => raise AttributeError "object has no attribute 'tobytes'"
  end.

(** [predict(user_preferences, use_cache)] *)
Definition predict (user_preferences : input) (use_cache : bool)
  : M t (ndarray * matrix) :=
  tryM
    (do cache_key <~ liftM (tobytes_hash user_preferences) ;;;
     do self <~ getM ;;;
     match (if use_cache then _prediction_cache self !! cache_key else None) with
     | Some cached => retM cached
     | None =>
         do processed_input <~
           on_preprocessor (DataPreprocessor.transform user_preferences) ;;;
         do outputs <~ liftM (network_predict_pair (model self) processed_input) ;;;
         let recommendations := outputs.1 in
         let confidence := outputs.2 in
         do threshold <~ liftM (confidence_threshold (model_config self)) ;;;
         do valid_recommendations <~
           liftM (boolean_index recommendations (at_least confidence threshold)) ;;;
         let answer :=
           if Nat.eqb (length valid_recommendations) 0
           then (ArrNum recommendations, half_ones_like confidence)
           else (ArrVec valid_recommendations, confidence) in
         exec (if use_cache
               then do self <~ getM ;;;
                    modify (set_prediction_cache
                              (<[cache_key := answer]> (_prediction_cache self)))
               else retM tt) ;;;
         retM answer
     end)
    (fun e => liftM (raise RuntimeError
                       ("Model prediction failed: " +:+ exn_str e))).

(** [len(a)] of what [predict] returns first. *)
Definition array_len (a : ndarray) : nat :=
  match a with
  | ArrNum rows => length rows
  | ArrVec v => length v
  | ArrStr items => length items
  | ArrRec _ records => length records
  end.

(** [build_model()]. Its first statement evaluates
    [self.preprocessor.NUMERICAL_FEATURES] (and [CATEGORICAL_FEATURES] in
    the next) before any Keras call; [assembled] is what the statements
    after these give, the network or their exception. *)
Definition build_model (assembled : result network) : result network :=
  reraise_as RuntimeError "Model architecture build failed: "
    (_ ← DataPreprocessor.getattr "NUMERICAL_FEATURES";
     _ ← DataPreprocessor.getattr "CATEGORICAL_FEATURES";
     assembled).

(** [self.model_config.update(custom_config)] *)
Definition dict_update (d : value) (custom_config : gmap string value)
  : result value :=
  match d with
  | VDict m => Returns (VDict (custom_config ∪ m))
  | _ => raise AttributeError "object has no attribute 'update'"
  end.

(** [PersonaModel(env, custom_config)]: [custom_config] is a dict or [None];
    the preprocessor reads the configuration files again, for an object of
    its own. *)
Definition __init__ (files : ModelConfig.config_files) (merge_error : exn)
    (env : string) (custom_config : option (gmap string value))
    (created_at : string) (assembled : result network) : result t :=
  reraise_as RuntimeError "Model initialization failed: "
    (config ← ModelConfig.__init__ files merge_error env;
     model_config ← (ModelConfig.get_recommendation_config config).1;
     model_config ← match custom_config with
                    | Some custom =>
                        if bool_decide (custom = ∅) then Returns model_config
                        else dict_update model_config custom
                    | None => Returns model_config
                    end;
     preprocessor ← DataPreprocessor.__init__
                      (ModelConfig.__init__ files merge_error env)
                      "recommendation" env created_at;
     model ← build_model assembled;
     Returns (Make model_config preprocessor
                   (Model_state MODEL_VERSION env 0 None) model None ∅)).

(** What [load(path)] finds under [path]: what [load_model] gives for
    [path/model], the files of [path/preprocessor], what [np.load] gives
    for [path/model_state.npy], and what the test prediction on a random
    input does with a loaded network. *)
Record load_inputs := Load_inputs {
  keras_model : result network;
  preprocessor_files : DataPreprocessor.state_files;
  model_state_npy : result model_state_t;
  integrity : network -> result unit
}.

(** [load(path, verify_integrity)] *)
Definition load (inputs : load_inputs) (verify_integrity : bool) : M t bool :=
  tryM
    (do net <~ liftM (keras_model inputs) ;;;
     exec modify (set_model net) ;;;
     exec on_preprocessor
            (DataPreprocessor.load_state (preprocessor_files inputs)) ;;;
     do st <~ liftM (model_state_npy inputs) ;;;
     exec modify (set_model_state st) ;;;
     exec (if verify_integrity then liftM (integrity inputs net)
           else retM tt) ;;;
     retM true)
    (fun _ => retM false).

(** [save(path, include_optimizer)], as far as the preprocessor's state
    directories go: [keras_save] is what [self.model.save] does,
    [state_save] what [np.save] of the model state does. *)
Definition save (self : t) (keras_save : result unit)
    (cond : DataPreprocessor.save_conditions) (state_save : result unit)
    (path : string) : M DataPreprocessor.state_disk bool :=
  tryM
    (exec liftM keras_save ;;;
     exec DataPreprocessor.save_state (preprocessor self) cond
            (path +:+ "/preprocessor") ;;;
     exec liftM state_save ;;;
     retM true)
    (fun _ => retM false).

End WithCollaborators.
End PersonaModel.

(* ===================================================================== *)
(** * models/recommendation_model.py *)
(* ===================================================================== *)

Module RecommendationModel.

(** ** The selection arithmetic: no collaborator is involved *)

(** [_calculate_diversity(feature_vector, selected_features)]. A division by
    a zero norm is numpy's: it gives [nan] (and a warning), no exception. *)
Definition _calculate_diversity (feature_vector : vector)
    (selected_features : option matrix) : float :=
  match selected_features with
  | None => 1%float
  | Some chosen =>
      let similarities :=
        np.mean
          (map (fun selected =>
                  PrimFloat.div (np.dot feature_vector selected)
                    (PrimFloat.mul (np.norm feature_vector) (np.norm selected)))
               chosen) in
      PrimFloat.sub 1 similarities
  end.

Definition lambda_param : float := 0.5%float.

(** [a[i]] on the first axis *)
Definition item {A} (a : list A) (i : nat) : result A :=
  match a !! i with
  | Some x => Returns x
  | None => raise IndexError "index is out of bounds for axis 0"
  end.

(** [features[selected_indices] if selected_indices else None] *)
Definition rows_at (features : matrix) (selected_indices : list nat)
  : result (option matrix) :=
  match selected_indices with
  | [] => Returns None
  | _ => rows ← mapM (item features) selected_indices; Returns (Some rows)
  end.

(** The score of candidate [i] in one round. *)
Definition candidate_score (predictions : vector) (features : matrix)
    (selected_indices : list nat) (i : nat) : result float :=
  relevance ← item predictions i;
  feature_vector ← item features i;
  chosen ← rows_at features selected_indices;
  let diversity := _calculate_diversity feature_vector chosen in
  Returns (PrimFloat.add (PrimFloat.mul lambda_param relevance)
             (PrimFloat.mul (PrimFloat.sub 1 lambda_param) diversity)).

(** The [for i in range(len(predictions))] loop of one round, from the
    candidates still to visit; [best_idx] is [None] for the source's -1. *)
Fixpoint scan (predictions : vector) (features : matrix)
    (selected_indices : list nat) (candidates : list nat)
    (best_score : float) (best_idx : option nat)
  : result (float * option nat) :=
  match candidates with
  | [] => Returns (best_score, best_idx)
  | i :: rest =>
      if bool_decide (i ∈ selected_indices)
      then scan predictions features selected_indices rest best_score best_idx
      else
        score ← candidate_score predictions features selected_indices i;
        if PrimFloat.ltb best_score score
        then scan predictions features selected_indices rest score (Some i)
        else scan predictions features selected_indices rest best_score best_idx
  end.

Definition best_candidate (predictions : vector) (features : matrix)
    (selected_indices : list nat) : result (option nat) :=
  found ← scan predictions features selected_indices
             (seq 0 (length predictions)) neg_infinity None;
  Returns found.2.

(** The [while len(selected_indices) < n_recommendations] loop, run for at
    most [fuel] rounds: [Returns None] when the rounds are used up and the
    loop has not ended. *)
Fixpoint selection_loop (fuel : nat) (predictions : vector) (features : matrix)
    (n_recommendations : Z) (selected_indices : list nat)
  : result (option (list nat)) :=
  if negb (Z.of_nat (length selected_indices) <? n_recommendations)%Z
  then Returns (Some selected_indices)
  else
    match fuel with
    | O => Returns None
    | S fuel' =>
        best_idx ← best_candidate predictions features selected_indices;
        match best_idx with
        | Some i =>
            selection_loop fuel' predictions features n_recommendations
              (selected_indices ++ [i])
        | None =>
            selection_loop fuel' predictions features n_recommendations
              selected_indices
        end
    end.

(** The indices that [_enhance_diversity] selects, within [fuel] rounds. *)
Definition selected_within (fuel : nat) (predictions : vector)
    (features : matrix) (n_recommendations : Z) : result (option (list nat)) :=
  selection_loop fuel predictions features n_recommendations [].

(** [_enhance_diversity(predictions, features, n_recommendations)], within
    [fuel] rounds: [predictions[selected_indices]]. *)
Definition _enhance_diversity (fuel : nat) (predictions : vector)
    (features : matrix) (n_recommendations : Z) : result (option vector) :=
  chosen ← selected_within fuel predictions features n_recommendations;
  match chosen with
  | None => Returns None
  | Some selected_indices =>
      picked ← mapM (item predictions) selected_indices;
      Returns (Some picked)
  end.

(** Every score that a round can compute compares above the starting
    [-inf]: it is a number (no [nan] from a zero norm or from the
    predictions) and not [-inf]. [selected_indices] ranges over what the
    loop can hold: distinct indices of the pool. *)
Definition scores_comparable (predictions : vector) (features : matrix)
  : Prop :=
  forall selected_indices i,
    NoDup selected_indices ->
    Forall (fun j => j < length predictions) selected_indices ->
    i < length predictions ->
    i ∉ selected_indices ->
    exists score,
      candidate_score predictions features selected_indices i = Returns score
      /\ PrimFloat.ltb neg_infinity score = true.

(** [(1 - prediction_std) * feature_density], before the normalization *)
Definition confidence_scores (predictions : vector) (features : matrix)
  : vector :=
  let prediction_std := np.std predictions in
  let feature_density := map np.mean features in
  map (fun density => PrimFloat.mul (PrimFloat.sub 1 prediction_std) density)
      feature_density.

(** [_calculate_confidence(predictions, features)] *)
Definition _calculate_confidence (predictions : vector) (features : matrix)
  : result vector :=
  let scores := confidence_scores predictions features in
  largest ← np.max scores;
  Returns (map (fun score => PrimFloat.div score largest) scores).

(** What the specification asks of the normalization: a zero maximum is
    found by a check of its own and reported by an error with a message. *)
Definition zero_maximum_reported (predictions : vector) (features : matrix)
  : Prop :=
  np.max (confidence_scores predictions features) = Returns 0%float ->
  exists e, _calculate_confidence predictions features = Raises e.

(** [_detect_performance_drift(metrics)] *)
Definition _detect_performance_drift (loss_delta : float) : bool :=
  PrimFloat.ltb 0.1 (PrimFloat.abs loss_delta).

(** ** Training *)

(** [processed_data[:, :-1]] *)
Definition all_but_last_column (processed_data : matrix) : matrix :=
  map (fun row : vector => List.removelast row) processed_data.

(** [processed_data[:, -1]] *)
Definition last_column (processed_data : matrix) : result vector :=
  mapM (fun row => match last row with
                   | Some x => Returns x
                   | None => raise IndexError
                               "index -1 is out of bounds for axis 1 with size 0"
                   end) processed_data.

Section WithCollaborators.
Context `{Interpreter} `{Transformers} `{Predictor}.

Definition BATCH_SIZE : Z := 32.
Definition MAX_EPOCHS : Z := 100.

(** One entry of [update_history]. *)
Record update_metrics := Update_metrics {
  loss_delta : float;
  auc_delta : float;
  timestamp : string
}.

Record model_state_t := Model_state {
  is_trained : bool;
  training_iterations : Z;
  update_history : list update_metrics
}.

Record metadata_t := Metadata {
  version : string;
  created_at : string;
  last_trained : option string;
  performance_metrics : gmap string float
}.

(** A [RecommendationModel] object. *)
Record t := Make {
  preprocessor : DataPreprocessor.t;
  metadata : metadata_t;
  model_state : model_state_t;
  model : network
}.

Definition set_preprocessor (p : DataPreprocessor.t) (self : t) : t :=
  Make p (metadata self) (model_state self) (model self).
Definition set_metadata (m : metadata_t) (self : t) : t :=
  Make (preprocessor self) m (model_state self) (model self).
Definition set_model_state (st : model_state_t) (self : t) : t :=
  Make (preprocessor self) (metadata self) st (model self).
Definition set_model (net : network) (self : t) : t :=
  Make (preprocessor self) (metadata self) (model_state self) net.

Definition modify (f : t -> t) : M t unit := fun self => (Returns tt, f self).

Definition on_preprocessor {A} (c : M DataPreprocessor.t A) : M t A :=
  fun self =>
    let '(r, p) := c (preprocessor self) in (r, set_preprocessor p self).

Definition training_callbacks (log_dir : string) : list callback :=
  [ EarlyStopping "val_loss" 5 true;
    ReduceLROnPlateau "val_loss" 0.2 3;
    TensorBoard log_dir 1 ].

(** The call [self.model.fit(X_train, y_train, ...)] of [train]. *)
Definition train_fit_call (X_train : matrix) (y_train : vector)
    (epochs batch_size : Z) (log_dir : string) : fit_call :=
  Fit_call X_train (ArrVec y_train) epochs batch_size (Some 0.2%float)
           (training_callbacks log_dir).

(** The call [self.model.fit(...)] of [update]. *)
Definition update_fit_call (X : matrix) (y : vector) : fit_call :=
  Fit_call X (ArrVec y) 5 BATCH_SIZE None [].

(** [train(interaction_data, epochs, batch_size)]: no labels are passed.
    [stats_time], [fitted_at] and [now] are clock readings, [log_dir] is
    the dated TensorBoard directory. *)
Definition train (interaction_data : input) (epochs batch_size : Z)
    (stats_time fitted_at now log_dir : string) : M t (gmap string float) :=
  tryM
    (do processed_data <~
       on_preprocessor
         (DataPreprocessor.fit_transform interaction_data stats_time fitted_at) ;;;
     let X_train := all_but_last_column processed_data in
     do y_train <~ liftM (last_column processed_data) ;;;
     do self <~ getM ;;;
     do fitted <~
       liftM (network_fit (model self)
                (train_fit_call X_train y_train epochs batch_size log_dir)) ;;;
     exec modify (set_model fitted.1) ;;;
     do self <~ getM ;;;
     exec modify (set_model_state
                    (Model_state true
                       (training_iterations (model_state self) + 1)
                       (update_history (model_state self)))) ;;;
     exec modify (fun self =>
                    set_metadata
                      (Metadata (version (metadata self))
                         (created_at (metadata self)) (Some now)
                         (performance_metrics (metadata self))) self) ;;;
     do final_loss <~ liftM (PersonaModel.final_metric fitted.2 "loss") ;;;
     do final_auc <~ liftM (PersonaModel.final_metric fitted.2 "auc") ;;;
     do final_precision <~ liftM (PersonaModel.final_metric fitted.2 "precision") ;;;
     do final_recall <~ liftM (PersonaModel.final_metric fitted.2 "recall") ;;;
     do val_loss <~ liftM (PersonaModel.final_metric fitted.2 "val_loss") ;;;
     do val_auc <~ liftM (PersonaModel.final_metric fitted.2 "val_auc") ;;;
     let metrics : gmap string float :=
       {[ "final_loss" := final_loss; "final_auc" := final_auc;
          "final_precision" := final_precision; "final_recall" := final_recall;
          "val_loss" := val_loss; "val_auc" := val_auc ]} in
     exec modify (fun self =>
                    set_metadata
                      (Metadata (version (metadata self))
                         (created_at (metadata self))
                         (last_trained (metadata self)) metrics) self) ;;;
     retM metrics)
    (fun e => liftM (raise RuntimeError
                       ("Model training failed: " +:+ exn_str e))).

(** [history.history[name][0]] *)
Definition first_metric (history : History) (name : string) : result float :=
  match history !! name with
  | None => raise KeyError (ModelConfig.quoted name)
  | Some [] => raise IndexError "list index out of range"
  | Some (x :: _) => Returns x
  end.

(** [update(new_interactions)]: no labels are passed either. (The drift
    test at the end only logs a warning.) *)
Definition update (new_interactions : input) (now : string)
  : M t update_metrics :=
  tryM
    (do processed_data <~
       on_preprocessor (DataPreprocessor.transform new_interactions) ;;;
     let X := all_but_last_column processed_data in
     do y <~ liftM (last_column processed_data) ;;;
     do self <~ getM ;;;
     do fitted <~ liftM (network_fit (model self) (update_fit_call X y)) ;;;
     exec modify (set_model fitted.1) ;;;
     do loss_first <~ liftM (first_metric fitted.2 "loss") ;;;
     do loss_last <~ liftM (PersonaModel.final_metric fitted.2 "loss") ;;;
     do auc_last <~ liftM (PersonaModel.final_metric fitted.2 "auc") ;;;
     do auc_first <~ liftM (first_metric fitted.2 "auc") ;;;
     let metrics :=
       Update_metrics (PrimFloat.sub loss_first loss_last)
                      (PrimFloat.sub auc_last auc_first) now in
     do self <~ getM ;;;
     exec modify (set_model_state
                    (Model_state (is_trained (model_state self))
                       (training_iterations (model_state self))
                       (update_history (model_state self) ++ [metrics]))) ;;;
     retM metrics)
    (fun e => liftM (raise RuntimeError
                       ("Model update failed: " +:+ exn_str e))).

(** The last of the categorical features that the frame has. *)
Definition last_categorical (df : DataFrame) : option string :=
  last (filter (fun feature => has_column df feature = true)
               DataPreprocessor.CATEGORICAL_FEATURES).

(** What the Keras calls of [build_model] do: the input layer for a
    feature count, and the layers, model and compilation that follow for
    the two counts. *)
Record keras_calls := Keras_calls {
  input_layer : value -> result unit;
  assembled : value -> value -> result network
}.

(** [build_model()] on [self.config]: the network, and the configuration
    object afterwards. *)
Definition build_model (keras : keras_calls) (config : ModelConfig.t)
  : result network * ModelConfig.t :=
  let '(got, config') := ModelConfig.get_recommendation_config config in
  (reraise_as RuntimeError "Model building failed: "
     (model_config ← got;
      user_features ← getitem model_config "user_features";
      _ ← input_layer keras user_features;
      item_features ← getitem model_config "item_features";
      _ ← input_layer keras item_features;
      assembled keras user_features item_features),
   config').

Definition MODEL_VERSION : string := "1.0.0".

(** [RecommendationModel(env)]: [gpu_setup] is what the GPU configuration
    at the start does; the preprocessor reads the configuration files
    again, for an object of its own; the two timestamps are the clock's
    when the preprocessor and when the metadata are made. *)
Definition __init__ (gpu_setup : result unit)
    (files : ModelConfig.config_files) (merge_error : exn) (env : string)
    (preprocessor_created_at created_at : string) (keras : keras_calls)
  : result t :=
  reraise_as RuntimeError "Model initialization failed: "
    (_ ← gpu_setup;
     config ← ModelConfig.__init__ files merge_error env;
     preprocessor ← DataPreprocessor.__init__
                      (ModelConfig.__init__ files merge_error env)
                      "recommendation" env preprocessor_created_at;
     model ← (build_model keras config).1;
     Returns (Make preprocessor
                   (Metadata MODEL_VERSION created_at None ∅)
                   (Model_state false 0 [])
                   model)).

End WithCollaborators.
End RecommendationModel.

(* ===================================================================== *)
(** * services/model_trainer.py *)
(* ===================================================================== *)

Module ModelTrainer.

(** The metadata record that [save_model] writes. *)
Record metadata := Metadata {
  md_version : string;
  md_model_type : string;
  md_environment : string;
  md_timestamp : string;
  md_framework_versions : string
}.

(** What a file holds. *)
Inductive content :=
| Bytes (data : string)
| Pickled (md : metadata).

(** A directory entry: a file, or a directory with the files below it by
    their relative paths. The file system maps the paths the trainer uses
    to their entries, one entry per path string. That is what the paths
    are when the version is a plain directory name ([plain_name] below):
    three different entries of the directory [MODELS_PATH]. The version is
    not validated, and for another string (the empty one, one with a
    separator or with [..]) two of the paths can be one directory or lie
    inside each other, which this map does not show; what a path holds
    after a call is therefore stated for plain names. Directories that
    [os.makedirs] creates above the temporary one ([MODELS_PATH] itself)
    are not entries of the map either. *)
Inductive node :=
| File (c : content)
| Dir (entries : gmap string content).

Abbreviation filesystem := (gmap string node).

(** A [ModelTrainer] object, as far as [save_model] reads it. [self.model]
    is a [RecommendationModel] for the model type ['recommendation'] and a
    [PersonaModel] otherwise; only the latter defines [save]. *)
Record t := Make {
  env : string;
  model_type : string
}.

Definition model_has_save (self : t) : bool :=
  negb (String.eqb (model_type self) "recommendation").

(** What a save call that handles its own exceptions did: the flag it
    returned and the files it left under the directory it was given. *)
Record attempt := Attempt {
  reported : bool;
  left_behind : gmap string content
}.

(** What the environment does to one [save_model] call. *)
Record conditions := Conditions {
  makedirs_denied : bool;
  model_save : attempt;
  preprocessor_save_state : attempt;
  (** [np.save]: [None] when it succeeds, else what the failed write left *)
  metadata_save_failure : option (gmap string content);
  rename_backup_denied : bool;
  rename_final_denied : bool;
  remove_denied : bool;
  clock : string;
  framework_versions : string
}.

Definition starts_with_slash (s : string) : bool :=
  match s with
  | String c _ => Ascii.eqb c "/"%char
  | EmptyString => false
  end.

Fixpoint ends_with_slash (s : string) : bool :=
  match s with
  | EmptyString => false
  | String c EmptyString => Ascii.eqb c "/"%char
  | String _ rest => ends_with_slash rest
  end.

(** [os.path.join(a, b)] *)
Definition join (a b : string) : string :=
  if starts_with_slash b then b
  else if String.eqb a "" || ends_with_slash a then a +:+ b
  else a +:+ "/" +:+ b.

(** A call touches the file system at [path] only. *)
Definition touches_only {A} (path : string) (c : M filesystem A) : Prop :=
  forall fs other, other <> path -> (c fs).2 !! other = fs !! other.

(** What [join] puts before a relative second part. *)
Definition dir_prefix (a : string) : string :=
  if String.eqb a "" || ends_with_slash a then a else a +:+ "/".

Fixpoint has_separator (s : string) : bool :=
  match s with
  | EmptyString => false
  | String c rest => Ascii.eqb c "/"%char || has_separator rest
  end.

(** A plain directory name: not empty, not [.] or [..], no separator. *)
Definition plain_name (name : string) : bool :=
  negb (String.eqb name "") && negb (String.eqb name ".")
  && negb (String.eqb name "..") && negb (has_separator name).

Section WithModelsPath.
(** [MODELS_PATH], read from the environment when the module is loaded. *)
Variable MODELS_PATH : string.

Definition temp_path (version : string) : string :=
  join MODELS_PATH ("temp_" +:+ version).
Definition final_path (version : string) : string :=
  join MODELS_PATH version.
Definition backup_path (version : string) : string :=
  final_path version +:+ "_backup".

(** [os.path.exists(path)] *)
Definition path_exists (path : string) : M filesystem bool :=
  fun fs => (Returns (bool_decide (is_Some (fs !! path))), fs).

(** [os.makedirs(path, exist_ok=True)] *)
Definition makedirs (denied : bool) (path : string) : M filesystem unit :=
  fun fs =>
    if denied then (raise OSError "Permission denied", fs)
    else match fs !! path with
         | Some (Dir _) => (Returns tt, fs)
         | Some (File _) => (raise OSError "File exists", fs)
         | None => (Returns tt, <[path := Dir ∅]> fs)
         end.

(** Files written below the directory [path]. *)
Definition write_files (path : string) (files : gmap string content)
    (fs : filesystem) : filesystem :=
  match fs !! path with
  | Some (Dir entries) => <[path := Dir (files ∪ entries)]> fs
  | _ => fs
  end.

(** A save call that returns its success flag. *)
Definition run_attempt (path : string) (a : attempt) : M filesystem bool :=
  fun fs => (Returns (reported a), write_files path (left_behind a) fs).

(** [self.model.save(os.path.join(temp_path, 'model'))] *)
Definition save_model_part (self : t) (path : string) (a : attempt)
  : M filesystem bool :=
  if model_has_save self then run_attempt path a
  else liftM (raise AttributeError
                "'RecommendationModel' object has no attribute 'save'").

(** [np.save(os.path.join(temp_path, 'metadata.npy'), metadata)] *)
Definition np_save (failure : option (gmap string content)) (path : string)
    (md : metadata) : M filesystem unit :=
  fun fs =>
    match failure with
    | None => (Returns tt, write_files path {[ "metadata.npy" := Pickled md ]} fs)
    | Some partial => (raise OSError "No space left on device",
                       write_files path partial fs)
    end.

(** [os.rename(src, dst)]: the entry moves, replacing a file by a file or an
    empty directory by a directory. *)
Definition os_rename (denied : bool) (src dst : string) : M filesystem unit :=
  fun fs =>
    if denied then (raise OSError "Permission denied", fs)
    else match fs !! src with
         | None => (raise OSError "No such file or directory", fs)
         | Some entry =>
             if bool_decide (src = dst) then (Returns tt, fs)
             else
               let replaceable :=
                 match entry, fs !! dst with
                 | _, None => true
                 | Dir _, Some (Dir entries) => bool_decide (entries = ∅)
                 | Dir _, Some (File _) => false
                 | File _, Some (File _) => true
                 | File _, Some (Dir _) => false
                 end in
               if replaceable
               then (Returns tt, <[dst := entry]> (delete src fs))
               else (raise OSError "Directory not empty", fs)
         end.

(** [os.remove(path)]: it removes files; on a directory it raises. *)
Definition os_remove (denied : bool) (path : string) : M filesystem unit :=
  fun fs =>
    match fs !! path with
    | None => (raise OSError "No such file or directory", fs)
    | Some (Dir _) => (raise OSError "Is a directory", fs)
    | Some (File _) =>
        if denied then (raise OSError "Permission denied", fs)
        else (Returns tt, delete path fs)
    end.

(** The first part of the body of [save_model]: the bundle is written to
    the temporary directory. *)
Definition write_bundle (self : t) (cond : conditions) (version : string)
  : M filesystem unit :=
  exec makedirs (makedirs_denied cond) (temp_path version) ;;;
  do model_saved <~
    save_model_part self (temp_path version) (model_save cond) ;;;
  do preprocessor_saved <~
    run_attempt (temp_path version) (preprocessor_save_state cond) ;;;
  exec (if negb (model_saved && preprocessor_saved)
        then liftM (raise RuntimeError "Failed to save model artifacts")
        else retM tt) ;;;
  np_save (metadata_save_failure cond) (temp_path version)
    (Metadata version (model_type self) (env self) (clock cond)
              (framework_versions cond)).

(** The second part: the renames and the removal of the backup. *)
Definition install_bundle (cond : conditions) (version : string)
  : M filesystem unit :=
  do final_exists <~ path_exists (final_path version) ;;;
  exec (if final_exists
        then os_rename (rename_backup_denied cond)
               (final_path version) (backup_path version)
        else retM tt) ;;;
  exec os_rename (rename_final_denied cond)
         (temp_path version) (final_path version) ;;;
  do backup_exists <~ path_exists (backup_path version) ;;;
  if backup_exists
  then os_remove (remove_denied cond) (backup_path version)
  else retM tt.

(** [save_model(version)] *)
Definition save_model (self : t) (cond : conditions) (version : string)
  : M filesystem bool :=
  tryM
    (exec write_bundle self cond version ;;;
     exec install_bundle cond version ;;;
     retM true)
    (fun _ => retM false).

End WithModelsPath.

(** A call touches the file system at the given paths only. *)
Definition touches_within {A} (paths : list string) (c : M filesystem A)
  : Prop :=
  forall fs other, other ∉ paths -> (c fs).2 !! other = fs !! other.

Section WithModels.
Context `{Interpreter} `{Transformers} `{Predictor}.
Variable MODELS_PATH : string.

Definition TRAINING_FREQUENCY : list (string * string) :=
  [("recommendation", "daily"); ("nlp", "weekly"); ("sentiment", "daily");
   ("anomaly", "hourly")].

(** [self.model]: a [RecommendationModel] or a [PersonaModel]. *)
Inductive model_object :=
| Persona (m : PersonaModel.t)
| Recommender (m : RecommendationModel.t).

(** A [ModelTrainer] object with what it holds. *)
Record trainer := Trainer {
  identity : t;
  config : ModelConfig.t;
  preprocessor : DataPreprocessor.t;
  model : model_object
}.

Definition set_preprocessor (p : DataPreprocessor.t) (self : trainer)
  : trainer :=
  Trainer (identity self) (config self) p (model self).
Definition set_model (m : model_object) (self : trainer) : trainer :=
  Trainer (identity self) (config self) (preprocessor self) m.

(** The clock's readings during one construction: for the trainer's
    preprocessor, for the model's preprocessor and for the model's
    metadata. *)
Record clock_readings := Clock_readings {
  preprocessor_created_at : string;
  model_preprocessor_created_at : string;
  model_created_at : string
}.

(** [ModelTrainer(env, model_type)]; every object that reads the
    configuration files reads them again. *)
Definition __init__ (files : ModelConfig.config_files) (merge_error : exn)
    (env model_type : string) (clock : clock_readings)
    (gpu_setup : result unit) (keras : RecommendationModel.keras_calls)
    (persona_assembled : result network) : result trainer :=
  reraise_as RuntimeError "Initialization failed: "
    (_ ← (if negb (bool_decide (model_type ∈ TRAINING_FREQUENCY.*1))
          then raise ValueError
                 ("Invalid model type. Must be one of "
                  +:+ ModelConfig.list_repr TRAINING_FREQUENCY.*1)
          else Returns tt);
     config ← ModelConfig.__init__ files merge_error env;
     preprocessor ← DataPreprocessor.__init__
                      (ModelConfig.__init__ files merge_error env)
                      model_type env (preprocessor_created_at clock);
     model ← (if String.eqb model_type "recommendation" then
                m ← RecommendationModel.__init__ gpu_setup files merge_error
                      env (model_preprocessor_created_at clock)
                      (model_created_at clock) keras;
                Returns (Recommender m)
              else
                m ← PersonaModel.__init__ files merge_error env None
                      (model_preprocessor_created_at clock) persona_assembled;
                Returns (Persona m));
     Returns (Trainer (Make env model_type) config preprocessor model)).

(** What [load_model] finds besides the metadata: the files under
    [model_path/model] and under [model_path/preprocessor], and the
    exception that [np.load] raises on a file that is no pickled record. *)
Record load_conditions := Load_conditions {
  model_files : PersonaModel.load_inputs;
  preprocessor_files : DataPreprocessor.state_files;
  metadata_undecodable : exn
}.

(** [np.load(os.path.join(model_path, 'metadata.npy'),
    allow_pickle=True).item()] *)
Definition load_metadata (undecodable : exn) (fs : filesystem)
    (model_path : string) : result metadata :=
  match fs !! model_path with
  | Some (Dir entries) =>
      match entries !! "metadata.npy" with
      | Some (Pickled md) => Returns md
      | Some (Bytes _) => Raises undecodable
      | None => raise OSError "No such file or directory"
      end
  | Some (File _) => raise OSError "Not a directory"
  | None => raise OSError "No such file or directory"
  end.

(** [self.model.load(os.path.join(model_path, 'model'))]: only a
    [PersonaModel] defines [load]. *)
Definition load_model_part (inputs : PersonaModel.load_inputs)
  : M trainer bool :=
  fun self =>
    match model self with
    | Persona m =>
        let '(r, m') := PersonaModel.load inputs true m in
        (r, set_model (Persona m') self)
    | Recommender _ =>
        (raise AttributeError
           "'RecommendationModel' object has no attribute 'load'", self)
    end.

(** [self.preprocessor.load_state(os.path.join(model_path, 'preprocessor'))] *)
Definition load_preprocessor_part (files : DataPreprocessor.state_files)
  : M trainer bool :=
  fun self =>
    let '(r, p) := DataPreprocessor.load_state files (preprocessor self) in
    (r, set_preprocessor p self).

(** [load_model(version)] on the file system [fs].
    ([_verify_model_compatibility], called before [True] is returned, has
    an empty body.) *)
Definition load_model (fs : filesystem) (cond : load_conditions)
    (version : string) : M trainer bool :=
  tryM
    (do self <~ getM ;;;
     let model_path := final_path MODELS_PATH version in
     exec (if negb (bool_decide (is_Some (fs !! model_path)))
           then liftM (raise ValueError
                         ("Model version " +:+ version +:+ " not found"))
           else retM tt) ;;;
     do md <~ liftM (load_metadata (metadata_undecodable cond) fs model_path) ;;;
     exec (if negb (String.eqb (md_model_type md) (model_type (identity self)))
           then liftM (raise ValueError "Model type mismatch")
           else retM tt) ;;;
     do model_loaded <~ load_model_part (model_files cond) ;;;
     do preprocessor_loaded <~
       load_preprocessor_part (preprocessor_files cond) ;;;
     exec (if negb (model_loaded && preprocessor_loaded)
           then liftM (raise RuntimeError "Failed to load model artifacts")
           else retM tt) ;;;
     retM true)
    (fun _ => retM false).

End WithModels.
End ModelTrainer.

(* ===================================================================== *)
(** * A small executable instance of the collaborators

    Enough of scikit-learn's scalers and label encoder, of the tokenizer and
    of pandas' statistics to run the preprocessor on concrete data. *)
(* ===================================================================== *)

Module Reference.

(** A scaler: its kind and, once fitted, a pair of parameters per column
    ([mean_], [scale_] for the standard scaler; [min_], [scale_] for the
    range scaler). *)
Record scaler := Scaler {
  is_minmax : bool;
  fitted_params : option (list (float * float))
}.

Fixpoint numbers (col : list cell) : result vector :=
  match col with
  | [] => Returns []
  | CNum x :: rest => xs ← numbers rest; Returns (x :: xs)
  | _ :: _ => raise ValueError "could not convert string to float"
  end.

Definition nonzero_or_one (x : float) : float :=
  if PrimFloat.eqb x 0 then 1%float else x.

Definition minimum (a b : float) : float :=
  if PrimFloat.is_nan a then a
  else if PrimFloat.is_nan b then b
  else if PrimFloat.ltb b a then b else a.

Definition column_params (minmax : bool) (xs : vector) : result (float * float) :=
  match xs with
  | [] => raise ValueError "Found array with 0 sample(s)"
  | x :: rest =>
      if minmax then
        let lo := fold_left minimum rest x in
        let hi := fold_left np.maximum rest x in
        let scale := PrimFloat.div 1 (nonzero_or_one (PrimFloat.sub hi lo)) in
        Returns (PrimFloat.sub 0 (PrimFloat.mul lo scale), scale)
      else Returns (np.mean xs, nonzero_or_one (np.std xs))
  end.

Fixpoint fit_columns (minmax : bool) (df : DataFrame)
  : result (list (float * float)) :=
  match df with
  | [] => Returns []
  | (_, col) :: rest =>
      xs ← numbers col;
      p ← column_params minmax xs;
      ps ← fit_columns minmax rest;
      Returns (p :: ps)
  end.

Definition scaler_fit (sc : scaler) (df : DataFrame) : result scaler :=
  ps ← fit_columns (is_minmax sc) df;
  Returns (Scaler (is_minmax sc) (Some ps)).

Definition scale_value (minmax : bool) (p : float * float) (x : float) : float :=
  if minmax then PrimFloat.add (PrimFloat.mul x p.2) p.1
  else PrimFloat.div (PrimFloat.sub x p.1) p.2.

Fixpoint transform_columns (minmax : bool) (ps : list (float * float))
    (df : DataFrame) : result (list vector) :=
  match ps, df with
  | [], [] => Returns []
  | p :: ps', (_, col) :: rest =>
      xs ← numbers col;
      others ← transform_columns minmax ps' rest;
      Returns (map (scale_value minmax p) xs :: others)
  | _, _ => raise ValueError "X has a different number of features than the scaler was fitted with"
  end.

Definition scaler_transform (sc : scaler) (df : DataFrame) : result matrix :=
  match fitted_params sc with
  | None => raise NotFittedError "This scaler instance is not fitted yet"
  | Some ps =>
      columns ← transform_columns (is_minmax sc) ps df;
      Returns (transpose_columns (data_len (CFrame df)) columns)
  end.

(** A label encoder: once fitted, its classes in increasing order. *)
Definition encoder := option (list string).

Fixpoint labels (col : list cell) : result (list string) :=
  match col with
  | [] => Returns []
  | CStr s :: rest => ss ← labels rest; Returns (s :: ss)
  | _ :: _ => raise TypeError "argument must be a string"
  end.

Fixpoint insert_sorted (s : string) (classes : list string) : list string :=
  match classes with
  | [] => [s]
  | c :: rest =>
      if String.eqb s c then classes
      else if String.ltb s c then s :: classes
      else c :: insert_sorted s rest
  end.

Definition encoder_fit (_ : encoder) (col : list cell) : result encoder :=
  ss ← labels col;
  Returns (Some (fold_right insert_sorted [] ss)).

Fixpoint class_index (classes : list string) (s : string) : option Z :=
  match classes with
  | [] => None
  | c :: rest =>
      if String.eqb s c then Some 0%Z
      else Z.succ <$> class_index rest s
  end.

Fixpoint encode (classes : list string) (ss : list string) : result (list Z) :=
  match ss with
  | [] => Returns []
  | s :: rest =>
      match class_index classes s with
      | Some i => codes ← encode classes rest; Returns (i :: codes)
      | None => raise ValueError "y contains previously unseen labels"
      end
  end.

Definition encoder_transform (enc : encoder) (col : list cell)
  : result (list Z) :=
  match enc with
  | None => raise NotFittedError "This LabelEncoder instance is not fitted yet"
  | Some classes => ss ← labels col; encode classes ss
  end.

(** A tokenizer that takes every text as one word: its vocabulary in the
    order the words were first seen. *)
Record tokenizer := Tok {
  num_words : value;
  word_index : list string
}.

Definition texts_of (data : converted) : list string :=
  match data with
  | CArray (ArrStr items) => items
  | CArray (ArrNum _) | CArray (ArrVec _) | CArray (ArrRec _ _) => []
  | CFrame df =>
      omap (fun c => match c.1 with LStr s => Some s | LInt _ => None end) df
  end.

Definition add_word (index : list string) (w : string) : list string :=
  if bool_decide (w ∈ index) then index else index ++ [w].

Definition fit_on_texts (tok : tokenizer) (data : converted) : result tokenizer :=
  Returns (Tok (num_words tok) (fold_left add_word (texts_of data) (word_index tok))).

Definition texts_to_sequences (tok : tokenizer) (data : converted)
  : result (list (list Z)) :=
  Returns (map (fun w => match class_index (word_index tok) w with
                         | Some i => [Z.succ i]
                         | None => []
                         end) (texts_of data)).

Definition series_mean (col : list cell) : result float :=
  xs ← numbers col; Returns (np.mean xs).

(** [series.std()]: the sample standard deviation. *)
Definition series_std (col : list cell) : result float :=
  xs ← numbers col;
  let m := np.mean xs in
  Returns (PrimFloat.sqrt
             (PrimFloat.div
                (np.sum (map (fun x => PrimFloat.mul (PrimFloat.sub x m)
                                                     (PrimFloat.sub x m)) xs))
                (np.float_of_nat (length xs - 1)))).

#[global] Instance transformers : Transformers :=
  Build_Transformers
    scaler (Scaler false None) (Scaler true None) scaler_fit scaler_transform
    encoder None encoder_fit encoder_transform
    tokenizer (fun n => Tok n []) fit_on_texts texts_to_sequences
    series_mean series_std.

(** A stand-in network: it counts its [fit] calls, reports fixed metrics,
    and answers every input row with the recommendation [1.0] at the
    confidence [0.25] (or with the score [0.5]). *)
Definition network := nat.

Definition fixed_history : History :=
  {[ "loss" := [0.9; 0.5]%float; "val_loss" := [0.95; 0.6]%float;
     "recommendations_accuracy" := [0.5; 0.75]%float;
     "confidence_accuracy" := [0.5; 0.5]%float;
     "auc" := [0.5; 0.75]%float; "val_auc" := [0.5; 0.5]%float;
     "precision" := [0.5; 0.75]%float; "recall" := [0.5; 0.25]%float ]}.

Definition network_fit (net : network) (call : fit_call)
  : result (network * History) :=
  match fit_x call with
  | [] => raise ValueError "Expect x to be a non-empty array"
  | _ => Returns (S net, fixed_history)
  end.

Definition network_predict_pair (net : network) (x : matrix)
  : result (matrix * matrix) :=
  Returns (map (fun _ => [1%float]) x, map (fun _ => [0.25%float]) x).

Definition network_predict (net : network) (x : matrix) : result matrix :=
  Returns (map (fun _ => [0.5%float]) x).

Definition hash_of_bytes (a : ndarray) : Z :=
  match a with
  | ArrNum rows => Z.of_nat (length rows)
  | ArrVec v => Z.of_nat (length v)
  | ArrStr items => Z.of_nat (String.length (String.concat "" items))
  | ArrRec _ records => Z.of_nat (length records)
  end.

#[global] Instance predictor : Predictor :=
  Build_Predictor network network_fit network_predict_pair network_predict
                  hash_of_bytes.

(** A run of the interpreter that iterates a set in the order of its
    display in the source, and one that iterates it backwards. *)
Definition interpreter : Interpreter :=
  {| set_order := fun keys => keys;
     set_order_permutation := fun keys => Permutation_refl keys |}.

Definition backwards : Interpreter :=
  {| set_order := reverse;
     set_order_permutation := fun keys => reverse_Permutation keys |}.

End Reference.

(* ===================================================================== *)
(** * Concrete data, for running the model *)
(* ===================================================================== *)

Module Examples.
#[local] Existing Instance Reference.interpreter.

Definition complete_config : ModelConfig.t :=
  ModelConfig.Make "development" ∅
    (VDict {[
       "recommendation_model" :=
         VDict {[ "model_architecture" := VDict {[ "output_dim" := VScalar (SInt 1) ]};
                  "hyperparameters" := VDict ∅;
                  "training_settings" := VDict {[ "epochs" := VScalar (SInt 10) ]};
                  "inference_settings" :=
                    VDict {[ "confidence_threshold" := VScalar (SFloat 0.7) ]} ]};
       "nlp_model" :=
         VDict {[ "model_architecture" := VDict ∅;
                  "tokenizer_settings" := VDict ∅;
                  "training_parameters" := VDict ∅ ]} ]}).

(** Three trips. *)
Definition trips : DataFrame :=
  [ (LStr "budget", [CNum 1000; CNum 2000; CNum 3000]);
    (LStr "duration", [CNum 3; CNum 7; CNum 14]);
    (LStr "group_size", [CNum 1; CNum 2; CNum 4]);
    (LStr "destination_type", [CStr "beach"; CStr "city"; CStr "beach"]);
    (LStr "travel_style", [CStr "budget"; CStr "luxury"; CStr "luxury"]);
    (LStr "accommodation_type", [CStr "hostel"; CStr "hotel"; CStr "hotel"]) ].

Definition created_at : string := "2024-01-01T00:00:00".
Definition fitted_at : string := "2024-01-02T00:00:00".

(** [DataPreprocessor('anomaly', 'development')], as constructed. *)
Definition fresh_anomaly : result DataPreprocessor.t :=
  DataPreprocessor.__init__ (Returns complete_config)
    "anomaly" "development" created_at.

Definition fresh_recommendation : result DataPreprocessor.t :=
  DataPreprocessor.__init__ (Returns complete_config)
    "recommendation" "development" created_at.

Definition or_else {A} (r : result A) (a : A) : A :=
  match r with Returns x => x | Raises _ => a end.

Definition blank : DataPreprocessor.t :=
  DataPreprocessor.Make "anomaly" "development" complete_config (VDict ∅)
    (DataPreprocessor.Transformer_set (Reference.Scaler true None) ∅ None)
    (VDict ∅).

(** The anomaly preprocessor as constructed. *)
Definition anomaly0 : DataPreprocessor.t := or_else fresh_anomaly blank.

(** The recommendation preprocessor as constructed. *)
Definition recommendation0 : DataPreprocessor.t :=
  or_else fresh_recommendation blank.

(** Another anomaly preprocessor, fitted on the trips. *)
Definition fitted_anomaly : DataPreprocessor.t :=
  (DataPreprocessor.fit_transform (InFrame trips) fitted_at fitted_at
     (or_else fresh_anomaly blank)).2.

(** A directory that holds the fitted preprocessor's state record and
    transformers, and no readable [cache.json]. *)
Definition saved_without_cache : DataPreprocessor.state_files :=
  DataPreprocessor.State_files
    (Returns (DataPreprocessor.preprocessor_state fitted_anomaly))
    (Returns (DataPreprocessor.transformers fitted_anomaly))
    (raise OSError "No such file or directory: 'cache.json'").

(** The fresh anomaly preprocessor after [load_state] on that directory. *)
Definition half_loaded : DataPreprocessor.t :=
  (DataPreprocessor.load_state saved_without_cache anomaly0).2.

(** A directory with no state record. *)
Definition empty_directory : DataPreprocessor.state_files :=
  DataPreprocessor.State_files
    (raise OSError "No such file or directory: 'preprocessor_state.json'")
    (raise OSError "No such file or directory: 'transformers.pkl'")
    (raise OSError "No such file or directory: 'cache.json'").

Definition fresh_nlp : result DataPreprocessor.t :=
  DataPreprocessor.__init__ (Returns complete_config)
    "nlp" "development" created_at.

Definition reviews : list string := ["beach"; "city"; "beach"].

(** An nlp preprocessor fitted on three texts. *)
Definition fitted_nlp : DataPreprocessor.t :=
  (DataPreprocessor.fit_transform (strings reviews) fitted_at fitted_at
     (or_else fresh_nlp blank)).2.

Definition recommendation_section : value :=
  or_else (ModelConfig.get_recommendation_config complete_config).1 (VDict ∅).

(** A persona model whose preprocessor reads texts. *)
Definition persona : PersonaModel.t :=
  PersonaModel.Make recommendation_section fitted_nlp
    (PersonaModel.Model_state "1.0.0" "development" 0 None)
    (0%nat : Reference.network) None ∅.

(** A persona model with the preprocessor of its constructor and one
    cached prediction. *)
Definition persona_with_cache : PersonaModel.t :=
  PersonaModel.Make recommendation_section (or_else fresh_recommendation blank)
    (PersonaModel.Model_state "1.0.0" "development" 3 None)
    (3%nat : Reference.network) None
    {[ 42%Z := (ArrVec [1%float], [[0.9%float]]) ]}.

Definition labels : ndarray := ArrNum [[1%float]; [0%float]; [1%float]].

(** Two candidates, the first with an all-zero feature vector. *)
Definition pool_predictions : vector := [0.9; 0.1]%float.
Definition pool_features : matrix := [[0; 0]; [1; 0]]%float.

(** Two candidates with different directions. *)
Definition fair_predictions : vector := [0.9; 0.1]%float.
Definition fair_features : matrix := [[1; 0]; [1; 1]]%float.

(** A batch whose rows all have mean zero. *)
Definition flat_predictions : vector := [0.5; 0.5]%float.
Definition zero_mean_features : matrix := [[1; -1]; [2; -2]]%float.

(** What the persona model's preprocessor makes of one text. *)
Definition beach_processed : matrix :=
  or_else (DataPreprocessor.transform (InArray (ArrStr ["beach"]))
             (PersonaModel.preprocessor persona)).1 [].

(** The bundle of version v1, saved earlier. *)
Definition old_bundle : gmap string ModelTrainer.content :=
  {[ "model/model_state.npy" := ModelTrainer.Bytes "v1 weights";
     "preprocessor/preprocessor_state.json" := ModelTrainer.Bytes "v1 state";
     "metadata.npy" :=
       ModelTrainer.Pickled
         (ModelTrainer.Metadata "v1" "nlp" "development"
            "2024-01-01T00:00:00" "tensorflow 2.12") ]}.

Definition disk : gmap string ModelTrainer.node :=
  {[ "models/v1" := ModelTrainer.Dir old_bundle ]}.

Definition nlp_trainer : ModelTrainer.t :=
  ModelTrainer.Make "development" "nlp".

(** The model part is saved, the preprocessor part fails half-way. *)
Definition preprocessor_write_fails : ModelTrainer.conditions :=
  ModelTrainer.Conditions false
    (ModelTrainer.Attempt true
       {[ "model/model_state.npy" := ModelTrainer.Bytes "v2 weights" ]})
    (ModelTrainer.Attempt false
       {[ "preprocessor/preprocessor_state.json" := ModelTrainer.Bytes "{" ]})
    None false false false "2024-02-01T00:00:00" "tensorflow 2.12".

(** Every write and rename succeeds. *)
Definition nothing_fails : ModelTrainer.conditions :=
  ModelTrainer.Conditions false
    (ModelTrainer.Attempt true
       {[ "model/model_state.npy" := ModelTrainer.Bytes "v2 weights" ]})
    (ModelTrainer.Attempt true
       {[ "preprocessor/preprocessor_state.json" := ModelTrainer.Bytes "v2 state" ]})
    None false false false "2024-02-01T00:00:00" "tensorflow 2.12".

(** The disk after the failed write of v1, and of v2. *)
Definition after_failed_write (version : string)
  : gmap string ModelTrainer.node :=
  (ModelTrainer.write_bundle "models" nlp_trainer preprocessor_write_fails
     version disk).2.

Definition artifacts_not_saved : exn :=
  Exn RuntimeError "Failed to save model artifacts".

(** The disk after each step of a save over version v1. *)
Definition after_write : gmap string ModelTrainer.node :=
  (ModelTrainer.write_bundle "models" nlp_trainer nothing_fails "v1" disk).2.
Definition after_backup : gmap string ModelTrainer.node :=
  (ModelTrainer.os_rename false "models/v1" "models/v1_backup" after_write).2.
Definition after_install : gmap string ModelTrainer.node :=
  (ModelTrainer.os_rename false "models/temp_v1" "models/v1" after_backup).2.

(** A recommendation model as constructed. *)
Definition recommender : RecommendationModel.t :=
  RecommendationModel.Make recommendation0
    (RecommendationModel.Metadata "1.0.0" created_at None ∅)
    (RecommendationModel.Model_state false 0 [])
    (0%nat : Reference.network).

(** What the fitted recommendation pipeline makes of the trips. *)
Definition trips_processed : matrix :=
  or_else (DataPreprocessor.fit_transform (InFrame trips) fitted_at fitted_at
             recommendation0).1 [].

(** The trips without their group sizes. *)
Definition trips_without_group_size : DataFrame :=
  [ (LStr "budget", [CNum 1000; CNum 2000; CNum 3000]);
    (LStr "duration", [CNum 3; CNum 7; CNum 14]);
    (LStr "destination_type", [CStr "beach"; CStr "city"; CStr "beach"]) ].

(** The trips with their numbers only. *)
Definition trips_in_numbers : DataFrame :=
  [ (LStr "budget", [CNum 1000; CNum 2000; CNum 3000]);
    (LStr "duration", [CNum 3; CNum 7; CNum 14]);
    (LStr "group_size", [CNum 1; CNum 2; CNum 4]) ].

(** The recommendation preprocessor fitted on the trips. *)
Definition fitted_recommendation : DataPreprocessor.t :=
  (DataPreprocessor.fit_transform (InFrame trips) fitted_at fitted_at
     recommendation0).2.

(** What the fitted nlp preprocessor makes of the three texts. *)
Definition reviews_processed : matrix :=
  or_else (DataPreprocessor.transform (strings reviews) fitted_nlp).1 [].

(** The persona model after its first prediction for one text. *)
Definition persona_after_beach : PersonaModel.t :=
  (PersonaModel.predict (InArray (ArrStr ["beach"])) true persona).2.

Definition trained_at : string := "2024-01-03T00:00:00".
Definition updated_at : string := "2024-01-04T00:00:00".
Definition log_dir : string := "logs/fit/20240103-000000".

(** The recommendation model after one [train] call on the trips, and
    after one [update] call on them. *)
Definition trained_recommender : RecommendationModel.t :=
  (RecommendationModel.train (InFrame trips) 2 32 fitted_at fitted_at
     trained_at log_dir recommender).2.

(** The metrics that this [train] call returns. *)
Definition training_metrics : gmap string float :=
  {[ "final_loss" := 0.5; "final_auc" := 0.75; "final_precision" := 0.75;
     "final_recall" := 0.25; "val_loss" := 0.6; "val_auc" := 0.5 ]}%float.

Definition updated_recommender : RecommendationModel.t :=
  (RecommendationModel.update (InFrame trips) updated_at
     trained_recommender).2.



(** The entry that this update adds to the history. *)
Definition update_entry : RecommendationModel.update_metrics :=
  RecommendationModel.Update_metrics
    (PrimFloat.sub 0.9 0.5) (PrimFloat.sub 0.75 0.5) updated_at.

(** A configuration directory with a base file only; the recommendation
    section has the feature counts that the recommendation model reads. *)
Definition base_only : ModelConfig.config_files :=
  ModelConfig.Config_files
    (ModelConfig.Loaded
       (VDict {[
          "recommendation_model" :=
            VDict {[ "model_architecture" := VDict ∅;
                     "hyperparameters" := VDict ∅;
                     "training_settings" := VDict ∅;
                     "user_features" := VScalar (SInt 8);
                     "item_features" := VScalar (SInt 12) ]} ]}))
    None.

(** An empty [base.yml]; and a base file with an empty override file. *)
Definition empty_base : ModelConfig.config_files :=
  ModelConfig.Config_files (ModelConfig.Loaded (VScalar SNone)) None.

Definition empty_override : ModelConfig.config_files :=
  ModelConfig.Config_files (ModelConfig.base_yml base_only)
    (Some (ModelConfig.Loaded (VScalar SNone))).

Definition no_items : exn :=
  Exn AttributeError "'NoneType' object has no attribute 'items'".

(** A recommendation section written as the list of the key names. *)
Definition section_as_list : list value :=
  [str "model_architecture"; str "hyperparameters"; str "training_settings"].

Definition config_with_list_section : ModelConfig.t :=
  ModelConfig.Make "development" ∅
    (VDict {[ "recommendation_model" := VList section_as_list ]}).

(** The complete configuration after its recommendation section is
    served. *)
Definition served_config : ModelConfig.t :=
  (ModelConfig.get_recommendation_config complete_config).2.

(** A base configuration, an override for one environment, and their
    merge. *)
Definition base_settings : value :=
  VDict {[ "nlp_model" :=
             VDict {[ "tokenizer_settings" :=
                        VDict {[ "vocab_size" := VScalar (SInt 5000);
                                 "lower" := VScalar (SBool true) ]};
                      "training_parameters" := VDict ∅ ]};
           "log_level" := str "info" ]}.

Definition staging_override : value :=
  VDict {[ "nlp_model" :=
             VDict {[ "tokenizer_settings" :=
                        VDict {[ "vocab_size" := VScalar (SInt 8000) ]} ]};
           "log_level" := str "debug" ]}.

Definition staging_settings : value :=
  VDict {[ "nlp_model" :=
             VDict {[ "tokenizer_settings" :=
                        VDict {[ "vocab_size" := VScalar (SInt 8000);
                                 "lower" := VScalar (SBool true) ]};
                      "training_parameters" := VDict ∅ ]};
           "log_level" := str "debug" ]}.

(** Keras calls that build the stand-in network. *)
Definition keras : RecommendationModel.keras_calls :=
  RecommendationModel.Keras_calls (fun _ => Returns tt)
    (fun _ _ => Returns (0%nat : Reference.network)).

Definition clock : ModelTrainer.clock_readings :=
  ModelTrainer.Clock_readings created_at created_at created_at.

(** [RecommendationModel('development')] over the base file. *)
Definition constructed_recommender : result RecommendationModel.t :=
  RecommendationModel.__init__ (Returns tt) base_only no_items
    "development" created_at created_at keras.

Definition built_recommender : RecommendationModel.t :=
  or_else constructed_recommender recommender.

(** [ModelTrainer('development', 'recommendation')] over the base file. *)
Definition constructed_trainer : result ModelTrainer.trainer :=
  ModelTrainer.__init__ base_only no_items "development" "recommendation"
    clock (Returns tt) keras (Returns (0%nat : Reference.network)).

Definition built_trainer : ModelTrainer.trainer :=
  or_else constructed_trainer
    (ModelTrainer.Trainer (ModelTrainer.Make "development" "recommendation")
       complete_config recommendation0 (ModelTrainer.Recommender recommender)).

(** Every write of [save_state] succeeds. *)
Definition all_written : DataPreprocessor.save_conditions :=
  DataPreprocessor.Save_conditions false DataPreprocessor.Written
    DataPreprocessor.Written DataPreprocessor.Written.

(** The state directories after the fitted anomaly preprocessor is saved. *)
Definition state_saved : DataPreprocessor.state_disk :=
  (DataPreprocessor.save_state fitted_anomaly all_written "state/v1" ∅).2.

Definition not_json : exn := Exn ValueError "Expecting value".

(** The disk after version v2 is saved beside v1. *)
Definition after_save_v2 : gmap string ModelTrainer.node :=
  (ModelTrainer.save_model "models" nlp_trainer nothing_fails "v2" disk).2.

(** A disk where an earlier save of v2 left a file in the temporary
    directory, and the disk after v2 is saved on it. *)
Definition disk_with_stale_file : gmap string ModelTrainer.node :=
  {[ "models/temp_v2" :=
       ModelTrainer.Dir
         {[ "model/old_weights.h5" := ModelTrainer.Bytes "stale" ]} ]}.

Definition after_save_over_stale : gmap string ModelTrainer.node :=
  (ModelTrainer.save_model "models" nlp_trainer nothing_fails "v2"
     disk_with_stale_file).2.

(** The write of the preprocessor state is cut short. *)
Definition state_write_cut : DataPreprocessor.save_conditions :=
  DataPreprocessor.Save_conditions false DataPreprocessor.Interrupted
    DataPreprocessor.Written DataPreprocessor.Written.

(** What [self.model.save] of the trainer does under [state_write_cut]:
    the flag is the one [PersonaModel.save] returns; below the directory
    it was given are the network, the state record cut after its first
    byte, and the model state. The trainer's own [save_state] succeeds. *)
Definition model_part_cut : ModelTrainer.attempt :=
  ModelTrainer.Attempt
    (or_else
       (PersonaModel.save persona (Returns tt) state_write_cut (Returns tt)
          "models/temp_v2/model" ∅).1 false)
    {[ "model/model/saved_model.pb" := ModelTrainer.Bytes "v2 network";
       "model/preprocessor/preprocessor_state.json" := ModelTrainer.Bytes "{";
       "model/model_state.npy" := ModelTrainer.Bytes "v2 weights" ]}.

Definition unnoticed_failure : ModelTrainer.conditions :=
  ModelTrainer.Conditions false model_part_cut
    (ModelTrainer.Attempt true
       {[ "preprocessor/preprocessor_state.json" := ModelTrainer.Bytes "v2 state" ]})
    None false false false "2024-02-01T00:00:00" "tensorflow 2.12".

Definition after_unnoticed_failure : gmap string ModelTrainer.node :=
  (ModelTrainer.save_model "models" nlp_trainer unnoticed_failure "v2" disk).2.

(** The bundle that [unnoticed_failure] leaves. *)
Definition partial_bundle : gmap string ModelTrainer.content :=
  {[ "model/model/saved_model.pb" := ModelTrainer.Bytes "v2 network";
     "model/preprocessor/preprocessor_state.json" := ModelTrainer.Bytes "{";
     "model/model_state.npy" := ModelTrainer.Bytes "v2 weights";
     "preprocessor/preprocessor_state.json" := ModelTrainer.Bytes "v2 state";
     "metadata.npy" :=
       ModelTrainer.Pickled
         (ModelTrainer.Metadata "v2" "nlp" "development"
            "2024-02-01T00:00:00" "tensorflow 2.12") ]}.

(** A disk where the backup of v1 was kept. *)
Definition disk_with_backup : gmap string ModelTrainer.node :=
  {[ "models/v1" := ModelTrainer.Dir old_bundle;
     "models/v1_backup" := ModelTrainer.Dir old_bundle ]}.

End Examples.

(* ===================================================================== *)
(** * Properties of the configuration provider *)
(* ===================================================================== *)

Section ConfigFacts.
Context `{Interpreter}.
Import ModelConfig.

Example merge_nested :
  _merge_configs
    (VDict {[ "a" := VDict {[ "x" := str "1"; "y" := str "2" ]}; "b" := str "3" ]})
    (VDict {[ "a" := VDict {[ "y" := str "9" ]}; "c" := str "4" ]})
  = Some (VDict {[ "a" := VDict {[ "x" := str "1"; "y" := str "9" ]};
                   "b" := str "3"; "c" := str "4" ]}).
Proof. vm_compute. reflexivity. Qed.

Example merge_dict_over_scalar :
  _merge_configs (VDict {[ "a" := VScalar (SInt 1) ]})
                 (VDict {[ "a" := VDict {[ "b" := VScalar (SInt 2) ]} ]})
  = None.
Proof. vm_compute. reflexivity. Qed.

Lemma merged_at_functional base ov m1 m2 key :
  merged_at base ov m1 key -> merged_at base ov m2 key ->
  m1 !! key = m2 !! key.
Proof.
  unfold merged_at. intros H1 H2.
  destruct (ov !! key) as [v|]; [|congruence].
  destruct v; try congruence.
  destruct (base !! key); [|congruence].
  destruct H1 as (n1 & E1 & ->), H2 as (n2 & E2 & ->). congruence.
Qed.

Lemma merged_at_other base ov m m' i x key :
  key <> i -> m' !! key = m !! key ->
  merged_at base (<[i := x]> ov) m' key <-> merged_at base ov m key.
Proof.
  intros Hne Hm. unfold merged_at.
  rewrite lookup_insert_ne by congruence. rewrite Hm. reflexivity.
Qed.


Lemma merge_loop_start base : merge_loop_inv base (Some (VDict base)) ∅.
Proof.
  intros merged. split.
  - intros [= <-]. exists base. split; [reflexivity|].
    intros key. unfold merged_at. rewrite lookup_empty. reflexivity.
  - intros (m & -> & Hm). do 2 f_equal. apply map_eq. intros key.
    specialize (Hm key). unfold merged_at in Hm.
    rewrite lookup_empty in Hm. congruence.
Qed.

Lemma merge_loop_step base i x done r :
  done !! i = None ->
  merge_loop_inv base r done ->
  merge_loop_inv base (merge_item _merge_configs i x r) (<[i := x]> done).
Proof.
  intros Hi Hinv merged. destruct r as [acc|]; simpl.
  - destruct (proj1 (Hinv acc) eq_refl) as (m0 & -> & Hm0).
    assert (Hbase : m0 !! i = base !! i).
    { specialize (Hm0 i). unfold merged_at in Hm0. rewrite Hi in Hm0. exact Hm0. }
    assert (Hstep : forall w,
      merged_at base (<[i := x]> done) (<[i := w]> m0) i ->
      forall key, merged_at base (<[i := x]> done) (<[i := w]> m0) key).
    { intros w Hw key. destruct (decide (key = i)) as [->|Hne]; [exact Hw|].
      apply (merged_at_other base done m0); [exact Hne| |apply Hm0].
      apply lookup_insert_ne. congruence. }
    assert (Huniq : forall w m,
      (forall key, merged_at base (<[i := x]> done) m key) ->
      merged_at base (<[i := x]> done) (<[i := w]> m0) i ->
      VDict (<[i := w]> m0) = VDict m).
    { intros w m Hm Hw. f_equal. apply map_eq. intros key.
      eapply merged_at_functional; [apply Hstep, Hw | apply Hm]. }
    rewrite Hbase.
    destruct x as [sc|items|d].
    + assert (Hw : merged_at base (<[i := VScalar sc]> done)
                     (<[i := VScalar sc]> m0) i).
      { unfold merged_at. rewrite !lookup_insert_eq. reflexivity. }
      split.
      * intros [= <-]. eexists; split; [reflexivity|]. apply Hstep, Hw.
      * intros (m & -> & Hm). f_equal. apply Huniq; assumption.
    + assert (Hw : merged_at base (<[i := VList items]> done)
                     (<[i := VList items]> m0) i).
      { unfold merged_at. rewrite !lookup_insert_eq. reflexivity. }
      split.
      * intros [= <-]. eexists; split; [reflexivity|]. apply Hstep, Hw.
      * intros (m & -> & Hm). f_equal. apply Huniq; assumption.
    + destruct (base !! i) as [old|] eqn:Hold.
      * destruct (_merge_configs old (VDict d)) as [new|] eqn:Hrec; simpl.
        -- assert (Hw : merged_at base (<[i := VDict d]> done)
                          (<[i := new]> m0) i).
           { unfold merged_at. rewrite !lookup_insert_eq, Hold. eauto. }
           split.
           ++ intros [= <-]. eexists; split; [reflexivity|]. apply Hstep, Hw.
           ++ intros (m & -> & Hm). f_equal. apply Huniq; assumption.
        -- split; [discriminate|]. intros (m & -> & Hm).
           specialize (Hm i). unfold merged_at in Hm.
           rewrite lookup_insert_eq, Hold in Hm.
           destruct Hm as (new & Hnew & _). congruence.
      * assert (Hw : merged_at base (<[i := VDict d]> done)
                       (<[i := VDict d]> m0) i).
        { unfold merged_at. rewrite !lookup_insert_eq, Hold. reflexivity. }
        split.
        -- intros [= <-]. eexists; split; [reflexivity|]. apply Hstep, Hw.
        -- intros (m & -> & Hm). f_equal. apply Huniq; assumption.
  - split; [discriminate|]. intros (m & -> & Hm). exfalso.
    set (m' := match base !! i with
               | Some b => <[i := b]> m
               | None => delete i m
               end).
    assert (Hm' : forall key, merged_at base done m' key).
    { intros key. destruct (decide (key = i)) as [->|Hne].
      - unfold merged_at. rewrite Hi. unfold m'.
        destruct (base !! i); [apply lookup_insert_eq|apply lookup_delete_eq].
      - apply (merged_at_other base done m' m i x key Hne); [|apply Hm].
        unfold m'. destruct (base !! i);
          [rewrite lookup_insert_ne by congruence
          |rewrite lookup_delete_ne by congruence]; reflexivity. }
    assert (Hnone : (None : option value) = Some (VDict m')).
    { apply Hinv. eauto. }
    discriminate.
Qed.

(** The loop of [_merge_configs] ends in the state that the invariant
    describes for the whole override. *)
Lemma merge_configs_loop (base ov : gmap string value) :
  merge_loop_inv base (_merge_configs (VDict base) (VDict ov)) ov.
Proof.
  simpl. apply (map_fold_weak_ind (merge_loop_inv base)).
  - apply merge_loop_start.
  - intros i x m r Hi Hr. apply merge_loop_step; assumption.
Qed.


(** An override without nested mappings always merges: its values replace
    or extend the base's. *)
Lemma merge_configs_flat (base ov : gmap string value) :
  (forall key v, ov !! key = Some v -> is_dict v = false) ->
  _merge_configs (VDict base) (VDict ov) = Some (VDict (ov ∪ base)).
Proof.
  intros Hflat. apply (merge_configs_loop base ov).
  eexists; split; [reflexivity|]. intros key. unfold merged_at.
  destruct (ov !! key) as [v|] eqn:Hk.
  - assert (Hu : (ov ∪ base) !! key = Some v)
      by (apply lookup_union_Some_l; exact Hk).
    specialize (Hflat _ _ Hk). destruct v; try exact Hu. discriminate.
  - rewrite lookup_union_r by exact Hk. reflexivity.
Qed.

Lemma all_in_dict (cfg : gmap string value) (keys : list string) :
  all_in (VDict cfg) keys
  = Returns (forallb (fun key => bool_decide (is_Some (cfg !! key))) keys).
Proof.
  induction keys as [|key rest IH]; simpl; [reflexivity|].
  destruct (bool_decide (is_Some (cfg !! key))); simpl; [exact IH|reflexivity].
Qed.

(** ** The order of the set decides nothing but the text of the message *)

Lemma forallb_permutation {A} (f : A -> bool) (l l' : list A) :
  l ≡ₚ l' -> forallb f l = forallb f l'.
Proof.
  induction 1 as [|x l l' _ IH|x y l|l l' l'' _ IH1 _ IH2]; simpl.
  - reflexivity.
  - rewrite IH. reflexivity.
  - destruct (f x), (f y); reflexivity.
  - congruence.
Qed.

(** The membership test either answers for every key, or raises for every
    key (on [None], a number or a boolean). *)
Lemma contains_cases (container : value) :
  (exists mem, forall key, contains container key = Returns (mem key))
  \/ (exists msg, forall key, contains container key = raise TypeError msg).
Proof.
  destruct container as [[| | | |s]|items|d]; simpl; eauto.
Qed.

Lemma all_in_answers (cfg : value) (mem : string -> bool) keys :
  (forall key, contains cfg key = Returns (mem key)) ->
  all_in cfg keys = Returns (forallb mem keys).
Proof.
  intros Hmem. induction keys as [|key rest IH]; simpl; [reflexivity|].
  rewrite Hmem. simpl. destruct (mem key); [exact IH|reflexivity].
Qed.

Lemma all_in_raises (cfg : value) msg key rest :
  (forall key, contains cfg key = raise TypeError msg) ->
  all_in cfg (key :: rest) = raise TypeError msg.
Proof. intros Hraise. simpl. rewrite Hraise. reflexivity. Qed.

Lemma all_in_permutation (cfg : value) keys keys' :
  keys ≡ₚ keys' -> all_in cfg keys = all_in cfg keys'.
Proof.
  intros Hperm. destruct (contains_cases cfg) as [[mem Hmem]|[msg Hraise]].
  - rewrite !(all_in_answers cfg mem) by exact Hmem.
    rewrite (forallb_permutation mem _ _ Hperm). reflexivity.
  - destruct keys as [|key rest], keys' as [|key' rest']; [reflexivity| | |].
    + apply Permutation_nil_l in Hperm. discriminate.
    + apply Permutation_nil_r in Hperm. discriminate.
    + rewrite !(all_in_raises cfg msg) by exact Hraise. reflexivity.
Qed.

Lemma all_in_order (cfg : value) keys :
  all_in cfg (set_order keys) = all_in cfg keys.
Proof. apply all_in_permutation, set_order_permutation. Qed.

Lemma validate_recommendation_dict (cfg : gmap string value) :
  _validate_recommendation_config (VDict cfg)
  = if forallb (fun key => bool_decide (is_Some (cfg !! key))) required_keys
    then Returns tt
    else raise ConfigValidationError missing_keys_message.
Proof.
  unfold _validate_recommendation_config.
  rewrite all_in_order, all_in_dict. reflexivity.
Qed.

Lemma validate_recommendation_missing (cfg : gmap string value) key :
  key ∈ required_keys -> cfg !! key = None ->
  _validate_recommendation_config (VDict cfg)
  = raise ConfigValidationError missing_keys_message.
Proof.
  intros Hin Hnone. rewrite validate_recommendation_dict.
  destruct (forallb _ required_keys) eqn:Hall; [|reflexivity].
  rewrite forallb_forall in Hall.
  specialize (Hall key (proj1 (list_elem_of_In _ _) Hin)).
  apply bool_decide_eq_true in Hall. rewrite Hnone in Hall.
  destruct Hall as [? [=]].
Qed.

Lemma validate_recommendation_complete (cfg : gmap string value) :
  (forall key, key ∈ required_keys -> is_Some (cfg !! key)) ->
  _validate_recommendation_config (VDict cfg) = Returns tt.
Proof.
  intros Hall. rewrite validate_recommendation_dict.
  destruct (forallb _ required_keys) eqn:Hfa; [reflexivity|].
  apply not_true_iff_false in Hfa. exfalso. apply Hfa.
  apply forallb_forall. intros key Hin.
  apply bool_decide_eq_true, Hall, list_elem_of_In, Hin.
Qed.

(** ** What the message names *)

Lemma prefix_empty (b : string) : String.prefix "" b = true.
Proof. destruct b; reflexivity. Qed.

Lemma prefix_append (a b : string) : String.prefix a (a +:+ b) = true.
Proof.
  induction a as [|c a IH]; [apply prefix_empty|].
  change (String.prefix (String c a) (String c (a +:+ b)) = true).
  simpl. destruct (ascii_dec c c); [exact IH|contradiction].
Qed.

Lemma prefix_append_l (n a b : string) :
  String.prefix n a = true -> String.prefix n (a +:+ b) = true.
Proof.
  revert a. induction n as [|c n IH]; intros a Hpre; [apply prefix_empty|].
  destruct a as [|c' a]; [discriminate|].
  change (String.prefix (String c n) (String c' (a +:+ b)) = true).
  simpl in *. destruct (ascii_dec c c'); [apply IH, Hpre|discriminate].
Qed.

Lemma is_substring_unfold (n hay : string) :
  is_substring n hay
  = String.prefix n hay
    || match hay with
       | EmptyString => false
       | String _ rest => is_substring n rest
       end.
Proof. destruct hay; reflexivity. Qed.

Lemma is_substring_append_r (n a b : string) :
  is_substring n b = true -> is_substring n (a +:+ b) = true.
Proof.
  intros Hb. induction a as [|c a IH]; [exact Hb|].
  change (is_substring n (String c (a +:+ b)) = true).
  rewrite is_substring_unfold, IH. apply orb_true_r.
Qed.

Lemma is_substring_append_l (n a b : string) :
  is_substring n a = true -> is_substring n (a +:+ b) = true.
Proof.
  induction a as [|c a IH]; intros Ha.
  - rewrite is_substring_unfold, orb_false_r in Ha.
    rewrite is_substring_unfold, (prefix_append_l n "" b Ha). reflexivity.
  - rewrite is_substring_unfold in Ha. apply orb_true_iff in Ha.
    change (is_substring n (String c (a +:+ b)) = true).
    rewrite is_substring_unfold. apply orb_true_iff.
    destruct Ha as [Hpre|Hrest].
    + left. apply (prefix_append_l n (String c a) b Hpre).
    + right. apply IH, Hrest.
Qed.

Lemma is_substring_here (n rest : string) : is_substring n (n +:+ rest) = true.
Proof. rewrite is_substring_unfold, prefix_append. reflexivity. Qed.

Lemma is_substring_refl (n : string) : is_substring n n = true.
Proof.
  rewrite is_substring_unfold.
  assert (Hpre : String.prefix n n = true).
  { rewrite <- (prefix_append n "") at 1. f_equal.
    induction n as [|c n IH]; [reflexivity|].
    change (String c n = String c (n +:+ "")). f_equal. exact IH. }
  rewrite Hpre. reflexivity.
Qed.

Lemma is_substring_join (sep item : string) (items : list string) :
  item ∈ items -> is_substring item (join sep items) = true.
Proof.
  induction items as [|s rest IH]; intros Hin.
  - apply elem_of_nil in Hin. contradiction.
  - apply elem_of_cons in Hin.
    destruct rest as [|s' rest].
    + destruct Hin as [->|Hin]; [apply is_substring_refl|].
      apply elem_of_nil in Hin. contradiction.
    + change (is_substring item (s +:+ sep +:+ join sep (s' :: rest)) = true).
      destruct Hin as [->|Hin]; [apply is_substring_here|].
      apply is_substring_append_r, is_substring_append_r, IH, Hin.
Qed.

(** The printed set names each of its elements, whatever the order. *)
Lemma set_repr_names (text : string) (keys : list string) key :
  key ∈ keys -> names_key (text +:+ set_repr keys) key = true.
Proof.
  intros Hin. unfold names_key, set_repr.
  apply is_substring_append_r, (is_substring_append_r _ "{").
  apply is_substring_append_l, is_substring_join.
  apply list_elem_of_fmap. exists key. split; [reflexivity|].
  rewrite (set_order_permutation keys). exact Hin.
Qed.

Lemma missing_message_names_required section key :
  key ∈ required_of section -> names_key (missing_message section) key = true.
Proof. destruct section; apply set_repr_names. Qed.

(** ** A getter whose cache entry is empty, and what the cache holds *)

Lemma getter_uncached section self :
  _cache self !! cache_key section = None ->
  getter section self
  = match dict_get (config self) (section_key section) (VDict ∅) with
    | Raises e => (Raises e, self)
    | Returns cfg =>
        match all_in cfg (required_of section) with
        | Returns true =>
            (Returns cfg,
             Make (env self) (<[cache_key section := cfg]> (_cache self))
                  (config self))
        | Returns false =>
            (raise ConfigValidationError (missing_message section), self)
        | Raises e => (Raises e, self)
        end
    end.
Proof.
  intros Hnone.
  destruct section;
    cbn [getter cache_key section_key required_of missing_message] in *;
    unfold get_recommendation_config, get_nlp_config, get_sentiment_config,
      get_anomaly_config, _validate_recommendation_config,
      _validate_nlp_config, _validate_sentiment_config,
      _validate_anomaly_config, missing_keys_message;
    rewrite Hnone; (destruct (dict_get _ _ _) as [cfg|e]; [|reflexivity]);
    rewrite all_in_order; destruct (all_in cfg _) as [[|]|e]; reflexivity.
Qed.

Lemma getter_from_cache section self cached :
  _cache self !! cache_key section = Some cached ->
  getter section self = (Returns cached, self).
Proof.
  intros Hsome.
  destruct section; cbn [getter cache_key] in *;
    unfold get_recommendation_config, get_nlp_config, get_sentiment_config,
      get_anomaly_config; rewrite Hsome; reflexivity.
Qed.

Lemma cache_key_inj a b : cache_key a = cache_key b -> a = b.
Proof. destruct a, b; simpl; intros Heq; try reflexivity; discriminate. Qed.

Lemma cache_sound_new env loaded : cache_sound loaded (Make env ∅ loaded).
Proof.
  split; [reflexivity|]. intros section v Hv. simpl in Hv.
  rewrite lookup_empty in Hv. discriminate.
Qed.

Lemma cache_sound_getter loaded section self :
  cache_sound loaded self -> cache_sound loaded (getter section self).2.
Proof.
  intros [Hconfig Hcache].
  destruct (_cache self !! cache_key section) as [cached|] eqn:Hentry.
  - rewrite (getter_from_cache _ _ _ Hentry). split; assumption.
  - rewrite (getter_uncached _ _ Hentry).
    destruct (dict_get _ _ _) as [cfg|e] eqn:Hget; [|split; assumption].
    destruct (all_in cfg _) as [[|]|e] eqn:Hall; try (split; assumption).
    split; [exact Hconfig|]. intros other v. simpl.
    destruct (decide (cache_key other = cache_key section)) as [Heq|Hne].
    + apply cache_key_inj in Heq as ->. rewrite lookup_insert_eq.
      intros [= <-]. rewrite <- Hconfig. split; assumption.
    + rewrite lookup_insert_ne by congruence. apply Hcache.
Qed.

Lemma cache_sound_after_getters loaded calls : forall self,
  cache_sound loaded self -> cache_sound loaded (after_getters calls self).
Proof.
  induction calls as [|section calls IH]; intros self Hsound; [exact Hsound|].
  simpl. apply IH, cache_sound_getter, Hsound.
Qed.

(** A section that is [None], a number or a boolean is not told apart by
    the validation: the membership test raises, and the getter passes the
    [TypeError] on. *)
Lemma getter_on_scalar_section section env loaded calls (s : scalar) :
  dict_get loaded (section_key section) (VDict ∅) = Returns (VScalar s) ->
  (forall text, s <> SStr text) ->
  getter section (after_getters calls (Make env ∅ loaded))
  = (raise TypeError
       ("argument of type '" +:+ type_name (VScalar s) +:+ "' is not iterable"),
     after_getters calls (Make env ∅ loaded)).
Proof.
  intros Hget Hscalar.
  destruct (cache_sound_after_getters loaded calls _ (cache_sound_new env loaded))
    as [Hconfig Hcache].
  assert (Hall : all_in (VScalar s) (required_of section)
                 = raise TypeError
                     ("argument of type '" +:+ type_name (VScalar s)
                      +:+ "' is not iterable")).
  { destruct s as [| | | |text]; try (destruct section; reflexivity).
    destruct (Hscalar text eq_refl). }
  destruct (_cache (after_getters calls (Make env ∅ loaded))
              !! cache_key section) as [cached|] eqn:Hentry.
  - destruct (Hcache _ _ Hentry) as [Hsame Hok].
    rewrite Hget in Hsame. injection Hsame as <-.
    rewrite Hall in Hok. discriminate.
  - rewrite (getter_uncached _ _ Hentry), Hconfig, Hget, Hall. reflexivity.
Qed.

(** C7 (as the code has it), for each of the four model types: on a
    constructed [ModelConfig] object, after any getter calls, when a
    required key is absent from the section that the getter reads (a
    mapping; an absent section counts as the empty mapping; a list or a
    string is tested for the key in the same way), the getter raises
    [ConfigValidationError]; nothing is returned, cached or defaulted (the
    object is unchanged); the message is one fixed text that prints the
    whole required-key set, in the interpreter's order, so it names every
    absent key, whichever they are. *)
Theorem missing_required_key_rejected
    (section : model_section) (env : string) (loaded : value)
    (calls : list model_section) (cfg : value) (key : string) :
  dict_get loaded (section_key section) (VDict ∅) = Returns cfg ->
  key ∈ required_of section ->
  contains cfg key = Returns false ->
  getter section (after_getters calls (Make env ∅ loaded))
  = (raise ConfigValidationError (missing_message section),
     after_getters calls (Make env ∅ loaded))
  /\ (forall k, k ∈ required_of section ->
        names_key (missing_message section) k = true).
Proof.
  intros Hget Hin Hnone. split; [|apply missing_message_names_required].
  destruct (cache_sound_after_getters loaded calls _ (cache_sound_new env loaded))
    as [Hconfig Hcache].
  assert (Hall : all_in cfg (required_of section) = Returns false).
  { destruct (contains_cases cfg) as [[mem Hmem]|[msg Hraise]];
      [|rewrite Hraise in Hnone; discriminate].
    rewrite (all_in_answers cfg mem) by exact Hmem. f_equal.
    apply not_true_iff_false. rewrite forallb_forall. intros Hall.
    specialize (Hall key (proj1 (list_elem_of_In _ _) Hin)).
    rewrite Hmem in Hnone. congruence. }
  destruct (_cache (after_getters calls (Make env ∅ loaded))
              !! cache_key section) as [cached|] eqn:Hentry.
  - destruct (Hcache _ _ Hentry) as [Hsame Hok].
    rewrite Hget in Hsame. injection Hsame as <-.
    rewrite Hall in Hok. discriminate.
  - rewrite (getter_uncached _ _ Hentry), Hconfig, Hget, Hall. reflexivity.
Qed.

End ConfigFacts.

Section ConfigRuns.
Import ModelConfig.
#[local] Existing Instance Reference.interpreter.

(** The text of the message depends on the run: the two reference runs
    print the required keys in opposite orders. *)
Example message_depends_on_the_run :
  @missing_keys_message Reference.interpreter
  = "Missing required keys in recommendation config: {'model_architecture', 'hyperparameters', 'training_settings'}"
  /\ @missing_keys_message Reference.backwards
     = "Missing required keys in recommendation config: {'training_settings', 'hyperparameters', 'model_architecture'}".
Proof. split; reflexivity. Qed.

Lemma missing_required_key_rejected_witness :
  getter Recommendation
    (after_getters [Nlp; Recommendation] config_without_hyperparameters)
  = (raise ConfigValidationError (missing_message Recommendation),
     after_getters [Nlp; Recommendation] config_without_hyperparameters)
  /\ (forall k, k ∈ required_of Recommendation ->
        names_key (missing_message Recommendation) k = true).
Proof.
  apply (missing_required_key_rejected Recommendation "development"
           (VDict {[ "recommendation_model" :=
                       VDict section_without_hyperparameters ]})
           [Nlp; Recommendation]
           (VDict section_without_hyperparameters) "hyperparameters").
  - reflexivity.
  - unfold required_of, required_keys.
    apply list_elem_of_further, list_elem_of_here.
  - reflexivity.
Defined.

(** C7 as stated fails: with only [hyperparameters] absent, the message that
    is raised also names [model_architecture] and [training_settings], which
    are present; it does not tell which keys are missing. And a section
    that is left empty in the file (it loads as [None]) has every required
    key absent, yet the getter raises a [TypeError], no
    [ConfigValidationError]. *)
Lemma missing_keys_message_names_present_keys :
  (exists msg,
     fst (get_recommendation_config config_without_hyperparameters)
       = raise ConfigValidationError msg
     /\ section_without_hyperparameters !! "model_architecture" <> None
     /\ names_key msg "model_architecture" = true
     /\ ~ names_the_absent_keys msg section_without_hyperparameters)
  /\ fst (get_recommendation_config
            (Make "development" ∅
               (VDict {[ "recommendation_model" := VScalar SNone ]})))
     = raise TypeError "argument of type 'NoneType' is not iterable".
Proof.
  split; [|vm_compute; reflexivity].
  exists missing_keys_message. split; [|split; [|split]].
  - vm_compute. reflexivity.
  - vm_compute. discriminate.
  - vm_compute. reflexivity.
  - intros Hclaim.
    assert (Hin : "model_architecture" ∈ required_keys)
      by (unfold required_keys; apply list_elem_of_here).
    pose proof (proj1 (Hclaim _ Hin)) as Habs.
    assert (Hnamed : names_key missing_keys_message "model_architecture" = true)
      by (vm_compute; reflexivity).
    specialize (Habs Hnamed). vm_compute in Habs. discriminate.
Qed.

End ConfigRuns.

(* ===================================================================== *)
(** * Properties of the preprocessor *)
(* ===================================================================== *)

Section PreprocessorFacts.
Context `{Interpreter} `{Transformers}.
Import DataPreprocessor.


Lemma keeps_ret {A} (a : A) : keeps_state (retM a).
Proof. intros self. reflexivity. Qed.

Lemma keeps_get : keeps_state getM.
Proof. intros self. reflexivity. Qed.

Lemma keeps_lift {A} (r : result A) : keeps_state (liftM r).
Proof. intros self. reflexivity. Qed.

Lemma keeps_modify (f : t -> t) :
  (forall self, preprocessor_state (f self) = preprocessor_state self) ->
  keeps_state (modify f).
Proof. intros Hf self. apply Hf. Qed.

Lemma keeps_bind {A B} (c : M t A) (k : A -> M t B) :
  keeps_state c -> (forall a, keeps_state (k a)) -> keeps_state (bindM c k).
Proof.
  intros Hc Hk self. unfold bindM. specialize (Hc self).
  destruct (c self) as [[a|e] s']; simpl in *; [|exact Hc].
  rewrite Hk. exact Hc.
Qed.

Lemma keeps_try {A} (c : M t A) (handler : exn -> M t A) :
  keeps_state c -> (forall e, keeps_state (handler e)) ->
  keeps_state (tryM c handler).
Proof.
  intros Hc Hh self. unfold tryM. specialize (Hc self).
  destruct (c self) as [[a|e] s']; simpl in *; [exact Hc|].
  rewrite Hh. exact Hc.
Qed.

Lemma keeps_with_config getter : keeps_state (with_config getter).
Proof.
  intros self. unfold with_config. destruct (getter (config self)). reflexivity.
Qed.

Ltac keeps_step :=
  first
    [ apply keeps_ret | apply keeps_get | apply keeps_lift
    | apply keeps_with_config
    | apply keeps_modify; intros ?; reflexivity
    | apply keeps_bind; [|intros ?]
    | apply keeps_try; [|intros ?]
    | match goal with
      | |- keeps_state (if ?b then _ else _) => destruct b
      | |- keeps_state (match ?x with _ => _ end) => destruct x
      end ].

Lemma keeps_init_label_encoders features :
  keeps_state (init_label_encoders features).
Proof.
  induction features; simpl; [apply keeps_ret|].
  apply keeps_bind; [repeat keeps_step|intros ?; exact IHfeatures].
Qed.

Lemma keeps_fit_categorical df features :
  keeps_state (fit_categorical df features).
Proof.
  induction features; simpl; [apply keeps_ret|].
  apply keeps_bind; [repeat keeps_step|intros ?; exact IHfeatures].
Qed.

Lemma keeps_initialize : keeps_state _initialize_model_specific_components.
Proof.
  unfold _initialize_model_specific_components.
  repeat first [apply keeps_init_label_encoders | keeps_step].
Qed.

Lemma keeps_process_recommendation df fit :
  keeps_state (_process_recommendation_data df fit).
Proof.
  unfold _process_recommendation_data.
  repeat first [apply keeps_fit_categorical | keeps_step].
Qed.

Lemma keeps_process_nlp data fit : keeps_state (_process_nlp_data data fit).
Proof. unfold _process_nlp_data. repeat keeps_step. Qed.

Lemma keeps_process data fit : keeps_state (process data fit).
Proof.
  unfold process, _process_sentiment_data, _process_anomaly_data.
  repeat first [apply keeps_process_recommendation | apply keeps_process_nlp
               | keeps_step].
Qed.

Lemma keeps_validate_and_convert data :
  keeps_state (_validate_and_convert_input data).
Proof. unfold _validate_and_convert_input. repeat keeps_step. Qed.

(** [transform] never assigns the state record. *)
Lemma keeps_transform data : keeps_state (transform data).
Proof.
  unfold transform.
  repeat first [apply keeps_process | apply keeps_validate_and_convert
               | keeps_step].
Qed.

(** [transform] leaves the state record as it was, on every input and
    whether it returns or raises. *)
Theorem transform_keeps_state_record data self :
  preprocessor_state (transform data self).2 = preprocessor_state self.
Proof. exact (keeps_transform data self). Qed.

Lemma unfitted_same_state self self' :
  preprocessor_state self' = preprocessor_state self ->
  unfitted self -> unfitted self'.
Proof. intros Heq (m & Hm & Hlu). exists m. rewrite Heq. auto. Qed.

(** The constructor leaves the preprocessor unfitted. *)
Lemma init_unfitted loaded model_type env created_at self :
  __init__ loaded model_type env created_at = Returns self -> unfitted self.
Proof.
  unfold __init__. destruct (negb _); [discriminate|].
  destruct loaded as [cfg|e]; simpl; [|discriminate].
  pose proof (keeps_initialize
    (Make model_type env cfg (initial_state model_type created_at)
          (Transformer_set StandardScaler ∅ None) initial_cache)) as Hk.
  destruct (_initialize_model_specific_components _) as [[u|e] s'];
    simpl in *; [|discriminate].
  intros [= <-]. eexists. split; [exact Hk|]. reflexivity.
Qed.


(** The guard of [transform]: without [last_updated] the call raises, and
    the object is as before. *)
Lemma transform_when_unfitted self data :
  unfitted self ->
  transform data self = (raise PreprocessingError unfitted_message, self).
Proof.
  intros (m & Hm & Hlu). unfold transform, tryM, bindM, getM, liftM.
  rewrite Hm. simpl. rewrite Hlu. reflexivity.
Qed.

Lemma bindM_inv {S A B} (c : M S A) (k : A -> M S B) s r s' :
  bindM c k s = (r, s') ->
  (exists e, c s = (Raises e, s') /\ r = Raises e) \/
  (exists a s1, c s = (Returns a, s1) /\ k a s1 = (r, s')).
Proof.
  unfold bindM. destruct (c s) as [[a|e] s1]; intros Hk.
  - right. eauto.
  - left. injection Hk as <- <-. eauto.
Qed.

Lemma update_statistics_unfitted data timestamp self :
  unfitted self -> unfitted (_update_statistics data timestamp self).2.
Proof.
  intros (m & Hm & Hlu). unfold _update_statistics, tryM, bindM, getM, liftM.
  destruct (match data with CFrame _ => _ | CArray _ => _ end) as [stats|e];
    simpl; [|exists m; auto].
  rewrite Hm. simpl. eexists. split; [reflexivity|].
  rewrite lookup_insert_ne by discriminate. exact Hlu.
Qed.

(** A [fit_transform] that raises leaves the preprocessor unfitted: the
    timestamp is the last thing it assigns. *)
Lemma fit_transform_failed_unfitted data stats_time now self e self' :
  fit_transform data stats_time now self = (Raises e, self') ->
  unfitted self -> unfitted self'.
Proof.
  unfold fit_transform, tryM. intros Hcall Hun.
  destruct (bindM _ _ self) as [[a|e0] s0] eqn:Hbody; [discriminate|].
  unfold liftM in Hcall. injection Hcall as _ <-.
  apply bindM_inv in Hbody as [(e1 & Hc & _)|(data' & s1 & Hc & Hbody)].
  { eapply unfitted_same_state; [|exact Hun].
    rewrite <- (keeps_validate_and_convert data self), Hc. reflexivity. }
  assert (Hun1 : unfitted s1).
  { eapply unfitted_same_state; [|exact Hun].
    rewrite <- (keeps_validate_and_convert data self), Hc. reflexivity. }
  apply bindM_inv in Hbody as [(e1 & Hc2 & _)|(u & s2 & Hc2 & Hbody)].
  { pose proof (update_statistics_unfitted data' stats_time s1 Hun1) as Hu.
    rewrite Hc2 in Hu. exact Hu. }
  assert (Hun2 : unfitted s2).
  { pose proof (update_statistics_unfitted data' stats_time s1 Hun1) as Hu.
    rewrite Hc2 in Hu. exact Hu. }
  apply bindM_inv in Hbody as [(e1 & Hc3 & _)|(processed & s3 & Hc3 & Hbody)].
  { eapply unfitted_same_state; [|exact Hun2].
    rewrite <- (keeps_process data' true s2), Hc3. reflexivity. }
  assert (Hun3 : unfitted s3).
  { eapply unfitted_same_state; [|exact Hun2].
    rewrite <- (keeps_process data' true s2), Hc3. reflexivity. }
  unfold bindM, getM, liftM, modify, retM in Hbody.
  destruct (setitem _ _ _); injection Hbody as Hr <-; [discriminate|exact Hun3].
Qed.

(** A [load_state] that cannot read the state record changes nothing. *)
Lemma load_state_unread files self :
  state_record_unread files ->
  load_state files self = (Returns false, self).
Proof.
  unfold state_record_unread, load_state, tryM, bindM, liftM, retM.
  destruct (preprocessor_state_json files); [discriminate|reflexivity].
Qed.

Lemma never_given_a_state_unfitted self :
  never_given_a_state self -> unfitted self.
Proof.
  induction 1 as [loaded mt env created self Hinit|self self' _ IH Hcall].
  - eapply init_unfitted, Hinit.
  - destruct Hcall as [data t1 t2 e Hfit|data r Htr|files Hfiles Hload].
    + eapply fit_transform_failed_unfitted; eassumption.
    + eapply unfitted_same_state; [|exact IH].
      rewrite <- (keeps_transform data self), Htr. reflexivity.
    + rewrite (load_state_unread files self Hfiles) in Hload.
      injection Hload as <-. exact IH.
Qed.

(** C2 (as the code has it): a preprocessor that was constructed and since
    then has had only failed [fit_transform] calls, [transform] calls, and
    [load_state] calls that failed on the state record itself, raises
    [PreprocessingError] on every [transform], and the call changes nothing
    of the object: no transformer is fitted on the way. *)
Theorem transform_before_fit_raises self data :
  never_given_a_state self ->
  transform data self = (raise PreprocessingError unfitted_message, self).
Proof.
  intros Hhist. apply transform_when_unfitted, never_given_a_state_unfitted, Hhist.
Qed.

End PreprocessorFacts.

Section PreprocessorRuns.
#[local] Existing Instance Reference.interpreter.
Import DataPreprocessor Examples.

Lemma fresh_recommendation_constructed :
  fresh_recommendation = Returns recommendation0.
Proof. by_evaluation. Qed.

Lemma fresh_anomaly_constructed : fresh_anomaly = Returns anomaly0.
Proof. by_evaluation. Qed.

Lemma transform_before_fit_raises_witness :
  transform (InFrame trips) recommendation0
  = (raise PreprocessingError unfitted_message, recommendation0).
Proof.
  apply transform_before_fit_raises.
  apply (constructed _ (Returns complete_config)
           "recommendation" "development" created_at).
  exact fresh_recommendation_constructed.
Defined.

Lemma load_without_cache_fails :
  load_state saved_without_cache anomaly0 = (Returns false, half_loaded).
Proof. by_evaluation. Qed.

Lemma half_loaded_never_fitted_or_loaded : never_fitted_or_loaded half_loaded.
Proof.
  apply (called _ anomaly0).
  - apply (constructed _ (Returns complete_config)
             "anomaly" "development" created_at).
    exact fresh_anomaly_constructed.
  - apply (load_state_failed _ _ _ saved_without_cache);
      [exact I|exact load_without_cache_fails].
Qed.

Lemma half_loaded_transforms :
  transform (InFrame trips) half_loaded
  = (Returns [[0; 0; 0];
              [0.5; 0.36363636363636365; 0.33333333333333331];
              [1; 1; 1]]%float,
     half_loaded).
Proof. by_evaluation. Qed.

(** C2 as stated fails: [load_state] assigns the state record and the
    transformers as it reads them, so a load that ends with [False] (here
    for want of [cache.json]) leaves a preprocessor that was never fitted
    and never successfully loaded, and whose [transform] returns data. *)
Lemma transform_returns_after_failed_load :
  never_fitted_or_loaded half_loaded
  /\ succeeded (transform (InFrame trips) half_loaded).1 = true
  /\ ~ (forall self, never_fitted_or_loaded self ->
        forall data, exists msg,
          (transform data self).1 = raise PreprocessingError msg).
Proof.
  split; [exact half_loaded_never_fitted_or_loaded|].
  split; [rewrite half_loaded_transforms; reflexivity|].
  intros Hclaim.
  destruct (Hclaim half_loaded half_loaded_never_fitted_or_loaded
                   (InFrame trips)) as [msg Hmsg].
  rewrite half_loaded_transforms in Hmsg. discriminate.
Qed.

End PreprocessorRuns.

(* ===================================================================== *)
(** * Properties of the persona model *)
(* ===================================================================== *)

Section PersonaFacts.
Context `{Interpreter} `{Transformers} `{Predictor}.
Import PersonaModel.

Lemma half_ones_like_all_half confidence :
  Forall (Forall (fun c => c = 0.5%float)) (half_ones_like confidence).
Proof.
  unfold half_ones_like. apply Forall_map, Forall_true. intros row.
  apply Forall_map, Forall_true. intros c. reflexivity.
Qed.

Lemma half_ones_like_shape confidence :
  map length (half_ones_like confidence) = map length confidence.
Proof.
  unfold half_ones_like. rewrite map_map. apply map_ext. intros row.
  apply length_map.
Qed.

(** C3: when the confidence filter leaves no recommendation, [predict]
    returns the whole unfiltered recommendation array, with a confidence
    array of the same shape whose every entry is 0.5; the result is empty
    only if the predictor produced no recommendation at all. *)
Theorem predict_fallback_returns_all
    self a use_cache processed p' recommendations confidence threshold :
  (use_cache = true -> _prediction_cache self !! hash_of_bytes a = None) ->
  DataPreprocessor.transform (InArray a) (preprocessor self)
    = (Returns processed, p') ->
  network_predict_pair (model self) processed
    = Returns (recommendations, confidence) ->
  confidence_threshold (model_config self) = Returns threshold ->
  boolean_index recommendations (at_least confidence threshold) = Returns [] ->
  exists self',
    predict (InArray a) use_cache self
      = (Returns (ArrNum recommendations, half_ones_like confidence), self')
    /\ Forall (Forall (fun c => c = 0.5%float)) (half_ones_like confidence)
    /\ map length (half_ones_like confidence) = map length confidence
    /\ (recommendations <> [] -> array_len (ArrNum recommendations) <> 0%nat).
Proof.
  intros Hmiss Htransform Hpredict Hthreshold Hfilter.
  assert (Hlookup : (if use_cache
                     then _prediction_cache self !! hash_of_bytes a
                     else None) = None).
  { destruct use_cache; [apply Hmiss|]; reflexivity. }
  unfold predict, tryM, bindM, liftM, getM, on_preprocessor. simpl.
  rewrite Hlookup, Htransform. simpl.
  rewrite Hpredict, Hthreshold. simpl. rewrite Hfilter. simpl.
  destruct use_cache; simpl; eexists; (split; [reflexivity|]);
    (split; [apply half_ones_like_all_half|]);
    (split; [apply half_ones_like_shape|]);
    intros Hne; destruct recommendations; simpl; congruence.
Qed.


(** C5: a [train] call that returns its metrics leaves the prediction cache
    empty, so no entry cached before survives, and has added one to
    [training_iterations]; with or without [incremental]. *)
Theorem train_clears_prediction_cache
    self X_train y_train epochs batch_size incremental
    stats_time fitted_at now metrics self' :
  train X_train y_train epochs batch_size incremental stats_time fitted_at now
        self = (Returns metrics, self') ->
  _prediction_cache self' = ∅
  /\ (forall key, _prediction_cache self' !! key = None)
  /\ training_iterations (model_state self')
     = (training_iterations (model_state self) + 1)%Z.
Proof.
  unfold train, tryM. intros Hcall.
  destruct (bindM _ _ self) as [[m|e] s0] eqn:Hbody; [|discriminate].
  injection Hcall as -> ->.
  apply bindM_inv in Hbody as [(? & ? & ?)|(X & s1 & Hpre & Hbody)];
    [discriminate|].
  assert (Hs1 : model_state s1 = model_state self).
  { unfold on_preprocessor in Hpre.
    destruct (_ (preprocessor self)) in Hpre. injection Hpre as _ <-.
    reflexivity. }
  unfold bindM, getM, liftM, modify, retM in Hbody. simpl in Hbody.
  destruct (network_fit _ _) as [[net history]|]; simpl in Hbody;
    [|discriminate].
  repeat (destruct (final_metric _ _); simpl in Hbody; [|discriminate]).
  injection Hbody as _ <-. simpl. rewrite Hs1.
  split; [reflexivity|]. split; [intros key; apply lookup_empty|reflexivity].
Qed.

End PersonaFacts.

Section PersonaRuns.
#[local] Existing Instance Reference.interpreter.
Import PersonaModel Examples.

Lemma predict_fallback_returns_all_witness :
  exists self',
    predict (InArray (ArrStr ["beach"])) true persona
      = (Returns (ArrNum [[1%float]], half_ones_like [[0.25%float]]), self')
    /\ Forall (Forall (fun c => c = 0.5%float)) (half_ones_like [[0.25%float]])
    /\ map length (half_ones_like [[0.25%float]]) = map length [[0.25%float]]
    /\ ([[1%float]] <> [] -> array_len (ArrNum [[1%float]]) <> 0%nat).
Proof.
  apply (predict_fallback_returns_all persona (ArrStr ["beach"]) true
           beach_processed (preprocessor persona) [[1%float]] [[0.25%float]]
           0.7%float).
  - intros _. by_evaluation.
  - by_evaluation.
  - by_evaluation.
  - by_evaluation.
  - by_evaluation.
Defined.

Lemma train_with_cache_returns :
  (train (InFrame trips) labels 2 32 false fitted_at fitted_at 1700000000
         persona_with_cache).1
  = Returns ({[ "loss" := 0.5; "accuracy" := 0.75;
                "confidence_accuracy" := 0.5; "val_loss" := 0.6 ]}%float).
Proof. by_evaluation. Qed.

Lemma train_clears_prediction_cache_witness :
  _prediction_cache persona_with_cache !! 42%Z = Some (ArrVec [1%float], [[0.9%float]])
  /\ exists metrics self',
       train (InFrame trips) labels 2 32 false fitted_at fitted_at 1700000000
             persona_with_cache = (Returns metrics, self')
       /\ _prediction_cache self' = ∅
       /\ (forall key, _prediction_cache self' !! key = None)
       /\ training_iterations (model_state self')
          = (training_iterations (model_state persona_with_cache) + 1)%Z.
Proof.
  split; [by_evaluation|].
  pose proof train_with_cache_returns as Hrun.
  destruct (train (InFrame trips) labels 2 32 false fitted_at fitted_at
                  1700000000 persona_with_cache) as [r self'] eqn:Hcall.
  simpl in Hrun. subst r.
  eexists _, self'. split; [reflexivity|].
  exact (train_clears_prediction_cache _ _ _ _ _ _ _ _ _ _ _ Hcall).
Defined.

End PersonaRuns.

(* ===================================================================== *)
(** * Properties of the recommendation model *)
(* ===================================================================== *)

Section SelectionFacts.
Import RecommendationModel Examples.

(** With nothing selected yet the diversity is 1, whatever the vector. *)
Lemma first_pick_diversity feature_vector :
  _calculate_diversity feature_vector None = 1%float.
Proof. reflexivity. Qed.

Lemma first_round_score (predictions : vector) (features : matrix)
    (i : nat) relevance feature_vector :
  predictions !! i = Some relevance ->
  features !! i = Some feature_vector ->
  candidate_score predictions features [] i
  = Returns (PrimFloat.add (PrimFloat.mul 0.5 relevance)
                           (PrimFloat.mul (PrimFloat.sub 1 0.5) 1)).
Proof.
  intros Hp Hf. unfold candidate_score, item, vector, matrix in *.
  rewrite Hp. simpl. rewrite Hf. reflexivity.
Qed.

(** One round's scan: what [best_idx] can be afterwards. *)
Lemma scan_finds predictions features selected candidates :
  scores_comparable predictions features ->
  NoDup selected ->
  Forall (fun j => j < length predictions) selected ->
  Forall (fun j => j < length predictions) candidates ->
  forall best_score best_idx,
    (best_idx = None -> best_score = neg_infinity) ->
    (forall j, best_idx = Some j -> j < length predictions /\ j ∉ selected) ->
    exists score idx,
      scan predictions features selected candidates best_score best_idx
        = Returns (score, idx)
      /\ (idx = None -> score = neg_infinity)
      /\ (forall j, idx = Some j -> j < length predictions /\ j ∉ selected)
      /\ (idx = None ->
          best_idx = None /\ Forall (fun j => j ∈ selected) candidates).
Proof.
  intros Hcmp Hnd Hsel Hcands.
  induction Hcands as [|i rest Hi _ IH]; intros best_score best_idx Hstart Hbest.
  - simpl. exists best_score, best_idx.
    split; [reflexivity|]. split; [exact Hstart|]. split; [exact Hbest|].
    intros ->. split; [reflexivity|constructor].
  - simpl. case_bool_decide as Hin.
    + destruct (IH best_score best_idx Hstart Hbest)
        as (score & idx & Hscan & Hnone & Hsome & Hall).
      exists score, idx.
      split; [exact Hscan|]. split; [exact Hnone|]. split; [exact Hsome|].
      intros Hidx. destruct (Hall Hidx) as [Hb Hrest].
      split; [exact Hb|]. constructor; assumption.
    + destruct (Hcmp selected i Hnd Hsel Hi Hin) as (sc & Hsc & Hlt).
      rewrite Hsc. simpl.
      destruct (PrimFloat.ltb best_score sc) eqn:Hbetter.
      * destruct (IH sc (Some i)) as (score & idx & Hscan & Hnone & Hsome & Hall).
        { discriminate. }
        { intros j [= <-]. auto. }
        exists score, idx.
        split; [exact Hscan|]. split; [exact Hnone|]. split; [exact Hsome|].
        intros Hidx. destruct (Hall Hidx) as [[=] _].
      * destruct best_idx as [b|].
        -- destruct (IH best_score (Some b) Hstart Hbest)
             as (score & idx & Hscan & Hnone & Hsome & Hall).
           exists score, idx.
           split; [exact Hscan|]. split; [exact Hnone|]. split; [exact Hsome|].
           intros Hidx. destruct (Hall Hidx) as [[=] _].
        -- rewrite (Hstart eq_refl) in Hbetter. congruence.
Qed.

(** A list of distinct indices below [m], shorter than [m], misses one. *)
Lemma free_index (selected : list nat) m :
  NoDup selected -> length selected < m ->
  exists i, i < m /\ i ∉ selected.
Proof.
  intros Hnd Hlen.
  destruct (decide (Exists (fun i => i ∉ selected) (seq 0 m))) as [Hex|Hall].
  - apply Exists_exists in Hex as (i & Hi & Hfree).
    apply elem_of_seq in Hi. exists i. split; [lia|exact Hfree].
  - exfalso. apply not_Exists_Forall in Hall; [|intros i; apply _].
    assert (Hsub : seq 0 m ⊆ selected).
    { intros i Hi. rewrite Forall_forall in Hall.
      specialize (Hall i Hi). simpl in Hall.
      destruct (decide (i ∈ selected)); [assumption|contradiction]. }
    pose proof (submseteq_length _ _
                  (NoDup_submseteq _ _ (NoDup_seq 0 m) Hsub)) as Hle.
    rewrite length_seq in Hle. lia.
Qed.

(** A round on a pool with a free candidate selects one that is free. *)
Lemma best_candidate_selects predictions features selected :
  scores_comparable predictions features ->
  NoDup selected ->
  Forall (fun j => j < length predictions) selected ->
  length selected < length predictions ->
  exists i,
    best_candidate predictions features selected = Returns (Some i)
    /\ i < length predictions /\ i ∉ selected.
Proof.
  intros Hcmp Hnd Hsel Hlen. unfold best_candidate.
  destruct (scan_finds predictions features selected
              (seq 0 (length predictions)) Hcmp Hnd Hsel) with
      (best_score := neg_infinity) (best_idx := @None nat)
    as (score & idx & Hscan & _ & Hsome & Hall).
  - apply Forall_forall. intros j Hj. apply elem_of_seq in Hj. lia.
  - reflexivity.
  - discriminate.
  - rewrite Hscan. simpl. destruct idx as [i|].
    + exists i. split; [reflexivity|]. apply Hsome. reflexivity.
    + exfalso. destruct (Hall eq_refl) as [_ Hfull].
      destruct (free_index selected (length predictions) Hnd Hlen)
        as (i & Hi & Hfree).
      rewrite Forall_forall in Hfull. apply Hfree, Hfull, elem_of_seq. lia.
Qed.

(** The loop from any state it can be in: enough rounds end it with
    distinct indices of the pool, as many as were asked for. *)
Lemma selection_loop_ends predictions features (n : nat) :
  scores_comparable predictions features ->
  n <= length predictions ->
  forall remaining selected fuel,
    NoDup selected ->
    Forall (fun j => j < length predictions) selected ->
    length selected + remaining = n ->
    remaining <= fuel ->
    exists chosen,
      selection_loop fuel predictions features (Z.of_nat n) selected
        = Returns (Some chosen)
      /\ length chosen = n /\ NoDup chosen
      /\ Forall (fun j => j < length predictions) chosen.
Proof.
  intros Hcmp Hn. induction remaining as [|k IH];
    intros selected fuel Hnd Hsel Hlen Hfuel.
  - exists selected. split; [|split; [lia|auto]].
    destruct fuel; simpl;
      (replace (Z.of_nat (length selected) <? Z.of_nat n)%Z with false
         by (symmetry; apply Z.ltb_ge; lia)); reflexivity.
  - destruct fuel as [|fuel]; [lia|]. simpl.
    replace (Z.of_nat (length selected) <? Z.of_nat n)%Z with true
      by (symmetry; apply Z.ltb_lt; lia).
    simpl.
    destruct (best_candidate_selects predictions features selected
                Hcmp Hnd Hsel) as (i & Hbest & Hi & Hfree); [lia|].
    rewrite Hbest. simpl. apply IH.
    + apply NoDup_app. split; [exact Hnd|]. split; [|apply NoDup_singleton].
      intros x Hx Hx'. apply list_elem_of_singleton in Hx'. subst x. auto.
    + apply Forall_app. split; [exact Hsel|]. apply Forall_singleton. exact Hi.
    + rewrite length_app. simpl. lia.
    + lia.
Qed.

(** The selection on a pool whose scores all compare: asked for [n] items of
    a pool of at least [n], the loop ends within [n] rounds with exactly [n]
    pairwise distinct indices of the pool; and a candidate met while nothing
    is selected has diversity 1. *)
Theorem selection_on_comparable_scores predictions features (n : nat) :
  scores_comparable predictions features ->
  n <= length predictions ->
  (exists chosen,
      selected_within n predictions features (Z.of_nat n) = Returns (Some chosen)
      /\ length chosen = n /\ NoDup chosen
      /\ Forall (fun j => j < length predictions) chosen)
  /\ (forall feature_vector, _calculate_diversity feature_vector None = 1%float).
Proof.
  intros Hcmp Hn. split; [|intros; reflexivity].
  apply (selection_loop_ends predictions features n Hcmp Hn n []).
  - apply NoDup_nil_2.
  - apply Forall_nil_2.
  - reflexivity.
  - lia.
Qed.

Lemma no_free_index_below_two (selected : list nat) i :
  NoDup selected -> Forall (fun j => j < 2) selected -> i < 2 ->
  i ∉ selected -> selected = [] \/ selected = [1 - i].
Proof.
  intros Hnd Hsel Hi Hfree.
  destruct selected as [|a rest]; [left; reflexivity|right].
  apply Forall_cons in Hsel as [Ha Hrest].
  apply NoDup_cons in Hnd as [Hnotin Hnd].
  apply not_elem_of_cons in Hfree as [Hia Hfree].
  assert (a = 1 - i) by lia. subst a.
  destruct rest as [|b rest]; [reflexivity|exfalso].
  apply Forall_cons in Hrest as [Hb _].
  apply not_elem_of_cons in Hnotin as [Hab _].
  apply not_elem_of_cons in Hfree as [Hib _]. lia.
Qed.

Lemma fair_pool_comparable : scores_comparable fair_predictions fair_features.
Proof.
  intros selected i Hnd Hsel Hi Hfree.
  destruct (no_free_index_below_two selected i Hnd Hsel Hi Hfree) as [->| ->];
    (destruct i as [|[|i]]; [| |simpl in Hi; lia]);
    eexists; (split; [vm_compute; reflexivity|reflexivity]).
Qed.

Lemma selection_on_comparable_scores_witness :
  (exists chosen,
      selected_within 2 fair_predictions fair_features 2 = Returns (Some chosen)
      /\ length chosen = 2 /\ NoDup chosen
      /\ Forall (fun j => j < length fair_predictions) chosen)
  /\ (forall feature_vector, _calculate_diversity feature_vector None = 1%float).
Proof.
  apply (selection_on_comparable_scores fair_predictions fair_features 2).
  - exact fair_pool_comparable.
  - simpl. lia.
Defined.

Lemma selection_loop_unfold fuel predictions features n selected :
  selection_loop fuel predictions features n selected
  = if negb (Z.of_nat (length selected) <? n)%Z
    then Returns (Some selected)
    else match fuel with
         | O => Returns None
         | S fuel' =>
             best_idx ← best_candidate predictions features selected;
             match best_idx with
             | Some i =>
                 selection_loop fuel' predictions features n (selected ++ [i])
             | None => selection_loop fuel' predictions features n selected
             end
         end.
Proof. destruct fuel; reflexivity. Qed.

(** After the zero vector is selected every score is [nan]: no round
    selects anything, and the loop condition stays true. *)
Lemma zero_vector_round_selects_nothing :
  best_candidate pool_predictions pool_features [0] = Returns None.
Proof. by_evaluation. Qed.

Lemma zero_vector_first_round :
  best_candidate pool_predictions pool_features [] = Returns (Some 0).
Proof. by_evaluation. Qed.

Lemma zero_vector_loop_stuck fuel :
  selection_loop fuel pool_predictions pool_features 2 [0] = Returns None.
Proof.
  induction fuel as [|fuel IH]; rewrite selection_loop_unfold;
    [reflexivity|].
  change (negb (Z.of_nat (length [0]) <? 2)%Z) with false. cbv iota.
  rewrite zero_vector_round_selects_nothing. exact IH.
Qed.

(** C4 at a pool of two whose first feature vector is all zeros, two items
    asked for: however many rounds the loop is given, it has not returned.
    The first round selects index 0; from then on the cosine similarity
    divides by a zero norm, every score is [nan], no comparison succeeds and
    [best_idx] stays -1. *)
Theorem selection_does_not_end_after_zero_vector :
  forall fuel,
    _enhance_diversity fuel pool_predictions pool_features 2 = Returns None.
Proof.
  intros fuel. unfold _enhance_diversity, selected_within.
  rewrite selection_loop_unfold.
  change (negb (Z.of_nat (length (@nil nat)) <? 2)%Z) with false. cbv iota.
  destruct fuel as [|fuel]; [reflexivity|].
  rewrite zero_vector_first_round.
  change (Returns (Some 0) ≫= _) with
    (selection_loop fuel pool_predictions pool_features 2 ([] ++ [0])).
  simpl app. rewrite zero_vector_loop_stuck. reflexivity.
Qed.

(** The normalization has no branch for a zero maximum: on every batch with
    at least one row it returns the scores divided by their maximum. *)
Lemma calculate_confidence_always_divides predictions features :
  features <> [] ->
  exists largest,
    np.max (confidence_scores predictions features) = Returns largest
    /\ _calculate_confidence predictions features
       = Returns (map (fun score => PrimFloat.div score largest)
                      (confidence_scores predictions features)).
Proof.
  intros Hne. unfold _calculate_confidence.
  destruct (confidence_scores predictions features) as [|x rest] eqn:Hscores.
  - unfold confidence_scores in Hscores. destruct features; [congruence|].
    discriminate.
  - simpl. eexists. split; reflexivity.
Qed.

(** C8 at a batch whose rows have mean zero: the maximum of the scores is 0,
    and the call returns the quotients, [nan], with no error raised. *)
Theorem zero_maximum_is_divided_by :
  np.max (confidence_scores flat_predictions zero_mean_features)
    = Returns 0%float
  /\ _calculate_confidence flat_predictions zero_mean_features
     = Returns [nan; nan]
  /\ ~ zero_maximum_reported flat_predictions zero_mean_features.
Proof.
  assert (Hmax : np.max (confidence_scores flat_predictions zero_mean_features)
                 = Returns 0%float) by by_evaluation.
  assert (Hrun : _calculate_confidence flat_predictions zero_mean_features
                 = Returns [nan; nan]) by by_evaluation.
  split; [exact Hmax|]. split; [exact Hrun|].
  intros Hclaim. destruct (Hclaim Hmax) as [e He].
  rewrite Hrun in He. discriminate.
Qed.

End SelectionFacts.

Section TrainingFacts.
Context `{Interpreter} `{Transformers} `{Predictor}.
Import RecommendationModel.













End TrainingFacts.

Section TrainingRuns.
#[local] Existing Instance Reference.interpreter.
Import RecommendationModel Examples.

(** On the three trips: the target is the code of [accommodation_type]
    (hostel 0, hotel 1), the features are the five columns before it. *)
Example trips_training_pair :
  last_categorical trips = Some "accommodation_type"
  /\ last_column trips_processed = Returns [0; 1; 1]%float
  /\ map length (all_but_last_column trips_processed) = [5; 5; 5]
  /\ succeeded (train (InFrame trips) 2 32 fitted_at fitted_at fitted_at
                      "logs/20240102-000000" recommender).1 = true.
Proof.
  split; [by_evaluation|]. split; [by_evaluation|].
  split; by_evaluation.
Qed.

End TrainingRuns.

(* ===================================================================== *)
(** * Properties of the trainer's save *)
(* ===================================================================== *)

Section TrainerFacts.
Import ModelTrainer.
Variable MODELS_PATH : string.

Lemma string_length_append (a b : string) :
  String.length (a +:+ b) = String.length a + String.length b.
Proof. induction a as [|c a IH]; simpl; [reflexivity|]. f_equal. exact IH. Qed.

Lemma join_length (a b : string) :
  String.length (join a b)
  = if starts_with_slash b then String.length b
    else String.length (dir_prefix a) + String.length b.
Proof.
  unfold join, dir_prefix. destruct (starts_with_slash b); [reflexivity|].
  destruct (String.eqb a "" || ends_with_slash a).
  - apply string_length_append.
  - rewrite !string_length_append. simpl. lia.
Qed.

Lemma temp_path_length version :
  String.length (temp_path MODELS_PATH version)
  = String.length (dir_prefix MODELS_PATH) + 5 + String.length version.
Proof.
  unfold temp_path. rewrite join_length.
  change (starts_with_slash ("temp_" +:+ version)) with false.
  rewrite string_length_append. simpl. lia.
Qed.

Lemma final_path_length version :
  String.length (final_path MODELS_PATH version)
  <= String.length (dir_prefix MODELS_PATH) + String.length version.
Proof.
  unfold final_path. rewrite join_length.
  destruct (starts_with_slash version); lia.
Qed.

(** The temporary directory is never the final one. *)
Lemma temp_ne_final version :
  temp_path MODELS_PATH version <> final_path MODELS_PATH version.
Proof.
  intros Heq. apply (f_equal String.length) in Heq.
  rewrite temp_path_length in Heq.
  pose proof (final_path_length version). lia.
Qed.

Lemma backup_ne_final version :
  backup_path MODELS_PATH version <> final_path MODELS_PATH version.
Proof.
  intros Heq. apply (f_equal String.length) in Heq.
  unfold backup_path in Heq. rewrite string_length_append in Heq.
  simpl in Heq. lia.
Qed.


Lemma touches_ret {A} path (a : A) : touches_only path (retM a).
Proof. intros fs other _. reflexivity. Qed.

Lemma touches_lift {A} path (r : result A) : touches_only path (liftM r).
Proof. intros fs other _. reflexivity. Qed.

Lemma touches_bind {A B} path (c : M filesystem A) (k : A -> M filesystem B) :
  touches_only path c -> (forall a, touches_only path (k a)) ->
  touches_only path (bindM c k).
Proof.
  intros Hc Hk fs other Hne. unfold bindM. specialize (Hc fs other Hne).
  destruct (c fs) as [[a|e] fs1]; simpl in *; [|exact Hc].
  rewrite (Hk a fs1 other Hne). exact Hc.
Qed.

Lemma write_files_other path files fs other :
  other <> path -> write_files path files fs !! other = fs !! other.
Proof.
  intros Hne. unfold write_files.
  destruct (fs !! path) as [[c|entries]|]; try reflexivity.
  apply lookup_insert_ne. congruence.
Qed.

Lemma touches_makedirs denied path : touches_only path (makedirs denied path).
Proof.
  intros fs other Hne. unfold makedirs. destruct denied; [reflexivity|].
  destruct (fs !! path) as [[c|entries]|]; try reflexivity.
  simpl. apply lookup_insert_ne. congruence.
Qed.

Lemma touches_run_attempt path a : touches_only path (run_attempt path a).
Proof. intros fs other Hne. apply write_files_other, Hne. Qed.

Lemma touches_save_model_part self path a :
  touches_only path (save_model_part self path a).
Proof.
  unfold save_model_part.
  destruct (model_has_save self); [apply touches_run_attempt|apply touches_lift].
Qed.

Lemma touches_np_save failure path md : touches_only path (np_save failure path md).
Proof.
  intros fs other Hne. unfold np_save.
  destruct failure; simpl; apply write_files_other, Hne.
Qed.

(** Writing the bundle touches the temporary directory only. *)
Lemma touches_write_bundle self cond version :
  touches_only (temp_path MODELS_PATH version)
    (write_bundle MODELS_PATH self cond version).
Proof.
  unfold write_bundle.
  apply touches_bind; [apply touches_makedirs|intros _].
  apply touches_bind; [apply touches_save_model_part|intros model_saved].
  apply touches_bind; [apply touches_run_attempt|intros preprocessor_saved].
  apply touches_bind; [|intros _; apply touches_np_save].
  destruct (negb _); [apply touches_lift|apply touches_ret].
Qed.

Lemma failed_write_keeps_final_path self cond version fs e fs1 :
  write_bundle MODELS_PATH self cond version fs = (Raises e, fs1) ->
  save_model MODELS_PATH self cond version fs = (Returns false, fs1)
  /\ fs1 !! final_path MODELS_PATH version = fs !! final_path MODELS_PATH version.
Proof.
  intros Hwrite. split.
  - unfold save_model, tryM, bindM. rewrite Hwrite. reflexivity.
  - pose proof (touches_write_bundle self cond version fs
                  (final_path MODELS_PATH version)) as Hframe.
    rewrite Hwrite in Hframe. apply Hframe.
    intros Heq. apply (temp_ne_final version). congruence.
Qed.

(** The write steps whose failure [save_model] is told of: [os.makedirs]
    raises (it is denied, or the temporary path holds a file); the model
    has no [save] method; [self.model.save] or
    [self.preprocessor.save_state] returns [False]; [np.save] of the
    metadata raises. Each of them ends the writing of the bundle. *)
Lemma reported_failure_fails_the_write self cond version fs :
  makedirs_denied cond = true
  \/ (exists c, fs !! temp_path MODELS_PATH version = Some (File c))
  \/ model_has_save self = false
  \/ reported (model_save cond) = false
  \/ reported (preprocessor_save_state cond) = false
  \/ is_Some (metadata_save_failure cond) ->
  exists e fs1,
    write_bundle MODELS_PATH self cond version fs = (Raises e, fs1).
Proof.
  intros Hfails.
  unfold write_bundle, bindM, makedirs, save_model_part, run_attempt, liftM,
    retM, np_save.
  destruct (makedirs_denied cond) eqn:Hdenied; [eauto|].
  destruct Hfails as [Hfails|Hfails]; [discriminate|].
  destruct (fs !! temp_path MODELS_PATH version) as [[c|entries]|] eqn:Htemp;
    [eauto| |];
    (destruct Hfails as [(c & Hc)|Hfails]; [discriminate|]);
    (destruct (model_has_save self); [|eauto]);
    (destruct Hfails as [Hfails|Hfails]; [discriminate|]);
    simpl;
    (destruct (reported (model_save cond)); simpl; [|eauto]);
    (destruct Hfails as [Hfails|Hfails]; [discriminate|]);
    (destruct (reported (preprocessor_save_state cond)); simpl; [|eauto]);
    (destruct Hfails as [Hfails|Hfails]; [discriminate|]);
    destruct Hfails as [partial ->]; eauto.
Qed.

(** C1, for a version that is a plain directory name and the failures that
    [save_model] is told of: when a write step fails (the temporary
    directory cannot be made, the model cannot be saved or its [save]
    returns [False], the preprocessor's [save_state] returns [False], as
    when the model part is saved and the preprocessor part is not, or the
    metadata cannot be written), [save_model] returns [False] and the
    final version path holds what it held before the call: the old
    bundle, or nothing. *)
Theorem failed_write_leaves_final_path self cond version fs :
  plain_name version = true ->
  makedirs_denied cond = true
  \/ (exists c, fs !! temp_path MODELS_PATH version = Some (File c))
  \/ model_has_save self = false
  \/ reported (model_save cond) = false
  \/ reported (preprocessor_save_state cond) = false
  \/ is_Some (metadata_save_failure cond) ->
  exists fs1,
    save_model MODELS_PATH self cond version fs = (Returns false, fs1)
    /\ fs1 !! final_path MODELS_PATH version
       = fs !! final_path MODELS_PATH version.
Proof.
  intros _ Hfails.
  destruct (reported_failure_fails_the_write self cond version fs Hfails)
    as (e & fs1 & Hwrite).
  exists fs1. apply (failed_write_keeps_final_path _ _ _ _ _ _ Hwrite).
Qed.

(** A trainer of the model type ['recommendation'] holds a model without a
    [save] method: every [save_model] call returns [False], and for a
    version that is a plain directory name the final version path is as
    before. *)
Lemma recommendation_trainer_never_saves trainer_env cond version fs :
  exists fs1,
    save_model MODELS_PATH (Make trainer_env "recommendation") cond version fs
      = (Returns false, fs1)
    /\ (plain_name version = true ->
        fs1 !! final_path MODELS_PATH version
        = fs !! final_path MODELS_PATH version).
Proof.
  set (self := Make trainer_env "recommendation").
  assert (Hraises : exists e fs1,
            write_bundle MODELS_PATH self cond version fs = (Raises e, fs1)).
  { unfold write_bundle, bindM, makedirs, save_model_part, liftM. simpl.
    destruct (makedirs_denied cond); [eauto|].
    destruct (fs !! temp_path MODELS_PATH version) as [[c|entries]|];
      simpl; eauto. }
  destruct Hraises as (e & fs1 & Hwrite). exists fs1. split.
  - unfold save_model, tryM, bindM. rewrite Hwrite. reflexivity.
  - intros _.
    pose proof (touches_write_bundle self cond version fs
                  (final_path MODELS_PATH version)) as Hframe.
    rewrite Hwrite in Hframe. apply Hframe.
    intros Heq. apply (temp_ne_final version). congruence.
Qed.

(** A bundle that was written is a directory with its metadata. *)
Lemma write_bundle_written self cond version fs fs1 :
  write_bundle MODELS_PATH self cond version fs = (Returns tt, fs1) ->
  exists new,
    fs1 !! temp_path MODELS_PATH version = Some (Dir new)
    /\ new !! "metadata.npy"
       = Some (Pickled (Metadata version (model_type self) (env self)
                          (clock cond) (framework_versions cond)))
    /\ model_has_save self = true
    /\ reported (model_save cond) = true
    /\ reported (preprocessor_save_state cond) = true.
Proof.
  unfold write_bundle, bindM, makedirs, save_model_part, run_attempt, liftM,
    retM, np_save.
  destruct (makedirs_denied cond); [discriminate|].
  set (temp := temp_path MODELS_PATH version).
  assert (Hdir : forall fs0 entries files,
            fs0 !! temp = Some (Dir entries) ->
            write_files temp files fs0 !! temp = Some (Dir (files ∪ entries))).
  { intros fs0 entries files H0. unfold write_files. rewrite H0.
    apply lookup_insert_eq. }
  assert (Hstart : exists fs0 entries,
            (match fs !! temp with
             | Some (Dir _) => (Returns tt, fs)
             | Some (File _) => (raise OSError "File exists", fs)
             | None => (Returns tt, <[temp := Dir ∅]> fs)
             end = (Returns tt, fs0) /\ fs0 !! temp = Some (Dir entries))
            \/ exists e, match fs !! temp with
                         | Some (Dir _) => (Returns tt, fs)
                         | Some (File _) => (raise OSError "File exists", fs)
                         | None => (Returns tt, <[temp := Dir ∅]> fs)
                         end = (Raises e, fs)).
  { destruct (fs !! temp) as [[c|entries]|] eqn:Htemp.
    - exists fs, ∅. right. eexists. reflexivity.
    - exists fs, entries. left. auto.
    - exists (<[temp := Dir ∅]> fs), ∅. left. split; [reflexivity|].
      apply lookup_insert_eq. }
  destruct Hstart as (fs0 & entries & [[-> Hfs0]|[e ->]]); [|discriminate].
  destruct (model_has_save self) eqn:Hhas; [|discriminate]. simpl.
  destruct (reported (model_save cond)); simpl; [|discriminate].
  destruct (reported (preprocessor_save_state cond)); simpl; [|discriminate].
  destruct (metadata_save_failure cond); [discriminate|].
  intros [= <-].
  pose proof (Hdir _ _ (left_behind (model_save cond)) Hfs0) as H1.
  pose proof (Hdir _ _ (left_behind (preprocessor_save_state cond)) H1) as H2.
  pose proof (Hdir _ _ {[ "metadata.npy" :=
                Pickled (Metadata version (model_type self) (env self)
                           (clock cond) (framework_versions cond)) ]} H2) as H3.
  eexists. split; [exact H3|]. split; [|auto].
  apply lookup_union_Some_l, lookup_singleton_eq.
Qed.

Lemma os_rename_succeeded denied src dst fs fs' :
  os_rename denied src dst fs = (Returns tt, fs') ->
  src <> dst ->
  exists entry,
    fs !! src = Some entry
    /\ fs' = <[dst := entry]> (delete src fs)
    /\ (forall entries, fs !! dst = Some (Dir entries) -> entries = ∅).
Proof.
  unfold os_rename. intros Hrun Hne.
  destruct denied; [discriminate|].
  destruct (fs !! src) as [entry|]; [|discriminate].
  rewrite bool_decide_eq_false_2 in Hrun by exact Hne.
  exists entry. split; [reflexivity|].
  destruct entry as [c|src_entries], (fs !! dst) as [[c'|dst_entries]|];
    simpl in Hrun; try discriminate;
    try (injection Hrun as <-; split; [reflexivity|congruence]).
  case_bool_decide as Hempty; [|discriminate].
  injection Hrun as <-. split; [reflexivity|]. congruence.
Qed.

(** C9: over an existing bundle, with every write and both renames
    succeeding, [save_model] returns [False]: the new bundle is at the final
    version path, the old one is left at [<version>_backup], because the
    cleanup calls [os.remove] on that directory, which raises. *)
Theorem save_over_existing_bundle_reports_failure
    self cond version fs old fs1 fs2 fs3 :
  fs !! final_path MODELS_PATH version = Some (Dir old) ->
  write_bundle MODELS_PATH self cond version fs = (Returns tt, fs1) ->
  os_rename (rename_backup_denied cond) (final_path MODELS_PATH version)
            (backup_path MODELS_PATH version) fs1 = (Returns tt, fs2) ->
  os_rename (rename_final_denied cond) (temp_path MODELS_PATH version)
            (final_path MODELS_PATH version) fs2 = (Returns tt, fs3) ->
  save_model MODELS_PATH self cond version fs = (Returns false, fs3)
  /\ fs3 !! backup_path MODELS_PATH version = Some (Dir old)
  /\ exists new,
       fs3 !! final_path MODELS_PATH version = Some (Dir new)
       /\ new !! "metadata.npy"
          = Some (Pickled (Metadata version (model_type self) (env self)
                             (clock cond) (framework_versions cond))).
Proof.
  intros Hold Hwrite Hbackup Hinstall.
  set (temp := temp_path MODELS_PATH version) in *.
  set (final := final_path MODELS_PATH version) in *.
  set (backup := backup_path MODELS_PATH version) in *.
  assert (Htf : temp <> final) by apply temp_ne_final.
  assert (Hbf : backup <> final) by apply backup_ne_final.
  assert (Hold1 : fs1 !! final = Some (Dir old)).
  { pose proof (touches_write_bundle self cond version fs final) as Hframe.
    rewrite Hwrite in Hframe. simpl in Hframe. rewrite Hframe; [exact Hold|].
    intros Heq. apply Htf. symmetry. exact Heq. }
  destruct (write_bundle_written self cond version fs fs1 Hwrite)
    as (new & Hnew & Hmeta & _).
  fold temp in Hnew.
  destruct (os_rename_succeeded _ _ _ _ _ Hbackup) as (entry & Hentry & -> & Hfree);
    [congruence|].
  rewrite Hold1 in Hentry. injection Hentry as <-.
  assert (Hbt : backup <> temp).
  { intros Heq. rewrite Heq in Hfree. specialize (Hfree new Hnew). subst new.
    rewrite lookup_empty in Hmeta. discriminate. }
  destruct (os_rename_succeeded _ _ _ _ _ Hinstall) as (entry & Hentry & -> & _);
    [exact Htf|].
  rewrite lookup_insert_ne, lookup_delete_ne, Hnew in Hentry by congruence.
  injection Hentry as <-.
  assert (Hkept : <[final := Dir new]>
                    (delete temp (<[backup := Dir old]> (delete final fs1)))
                  !! backup = Some (Dir old)).
  { rewrite lookup_insert_ne, lookup_delete_ne by congruence.
    apply lookup_insert_eq. }
  split; [|split; [exact Hkept|]].
  - unfold save_model, tryM, bindM. rewrite Hwrite.
    unfold install_bundle, bindM, path_exists. fold final backup temp.
    rewrite Hold1.
    rewrite bool_decide_eq_true_2 by eauto.
    rewrite Hbackup, Hinstall. rewrite Hkept.
    rewrite bool_decide_eq_true_2 by eauto.
    unfold os_remove. rewrite Hkept. reflexivity.
  - exists new. split; [apply lookup_insert_eq|exact Hmeta].
Qed.

End TrainerFacts.

Section TrainerRuns.
#[local] Existing Instance Reference.interpreter.
Import ModelTrainer Examples.

(** The preprocessor part fails after the model part was saved: over the
    old bundle of v1, which stays as it was, and for a first save of v2,
    whose path stays absent. *)
Lemma failed_write_leaves_final_path_witness :
  (disk !! final_path "models" "v1" = Some (Dir old_bundle)
   /\ exists fs1,
        save_model "models" nlp_trainer preprocessor_write_fails "v1" disk
        = (Returns false, fs1)
        /\ fs1 !! final_path "models" "v1" = disk !! final_path "models" "v1")
  /\ (disk !! final_path "models" "v2" = None
      /\ exists fs1,
           save_model "models" nlp_trainer preprocessor_write_fails "v2" disk
           = (Returns false, fs1)
           /\ fs1 !! final_path "models" "v2"
              = disk !! final_path "models" "v2").
Proof.
  split; (split; [by_evaluation|]).
  - apply (failed_write_leaves_final_path "models" nlp_trainer
             preprocessor_write_fails "v1" disk); [reflexivity|].
    right; right; right; right; left. reflexivity.
  - apply (failed_write_leaves_final_path "models" nlp_trainer
             preprocessor_write_fails "v2" disk); [reflexivity|].
    right; right; right; right; left. reflexivity.
Defined.

Lemma recommendation_trainer_never_saves_witness :
  plain_name "v1" = true
  /\ exists fs1,
       save_model "models" (Make "development" "recommendation") nothing_fails
         "v1" disk = (Returns false, fs1)
       /\ fs1 !! final_path "models" "v1" = Some (Dir old_bundle).
Proof.
  split; [reflexivity|].
  destruct (recommendation_trainer_never_saves "models" "development"
              nothing_fails "v1" disk) as (fs1 & Hsave & Hkept).
  exists fs1. split; [exact Hsave|].
  rewrite Hkept; [by_evaluation|reflexivity].
Defined.

(** C1 as stated fails, in two ways. The write of the preprocessor state
    inside [PersonaModel.save] is cut short; [save] drops the flag of
    [save_state] and reports success, so the trainer is not told:
    [save_model] returns [True], and the final path of v2, absent before,
    holds a bundle whose model part has a truncated state record and no
    transformers. And the version is not validated: for the empty version
    the final path is the directory [models/] itself and the temporary
    directory [models/temp_] lies in it, so the save that fails in the
    preprocessor part has left its files under the final path. *)
Lemma partial_bundle_becomes_visible :
  (PersonaModel.save persona (Returns tt) state_write_cut (Returns tt)
     "models/temp_v2/model" ∅
   = (Returns true,
      {[ "models/temp_v2/model/preprocessor" :=
           {[ "preprocessor_state.json" := DataPreprocessor.Truncated ]} ]})
   /\ disk !! final_path "models" "v2" = None
   /\ (save_model "models" nlp_trainer unnoticed_failure "v2" disk).1
      = Returns true
   /\ after_unnoticed_failure !! final_path "models" "v2"
      = Some (Dir partial_bundle)
   /\ partial_bundle !! "model/preprocessor/preprocessor_state.json"
      = Some (Bytes "{")
   /\ partial_bundle !! "model/preprocessor/transformers.pkl" = None)
  /\ (final_path "models" "" = "models/"
      /\ temp_path "models" "" = "models/temp_"
      /\ (save_model "models" nlp_trainer preprocessor_write_fails "" ∅).1
         = Returns false
      /\ (save_model "models" nlp_trainer preprocessor_write_fails "" ∅).2
         !! "models/temp_"
         = Some (Dir {[ "model/model_state.npy" := Bytes "v2 weights";
                        "preprocessor/preprocessor_state.json" := Bytes "{" ]})).
Proof.
  split.
  - split; [by_evaluation|]. split; [by_evaluation|]. split; [by_evaluation|].
    split; [by_evaluation|]. split; by_evaluation.
  - split; [reflexivity|]. split; [reflexivity|]. split; by_evaluation.
Qed.

Lemma save_over_existing_bundle_reports_failure_witness :
  save_model "models" nlp_trainer nothing_fails "v1" disk
    = (Returns false, after_install)
  /\ after_install !! backup_path "models" "v1" = Some (Dir old_bundle)
  /\ exists new,
       after_install !! final_path "models" "v1" = Some (Dir new)
       /\ new !! "metadata.npy"
          = Some (Pickled (Metadata "v1" "nlp" "development"
                             "2024-02-01T00:00:00" "tensorflow 2.12")).
Proof.
  apply (save_over_existing_bundle_reports_failure "models" nlp_trainer
           nothing_fails "v1" disk old_bundle after_write after_backup
           after_install).
  - by_evaluation.
  - by_evaluation.
  - by_evaluation.
  - by_evaluation.
Defined.

(** A recommendation trainer's model has no [save]: the call ends before
    anything is written to the bundle. *)
Example recommendation_trainer_cannot_save :
  (save_model "models" (Make "development" "recommendation") nothing_fails
              "v1" disk).1 = Returns false.
Proof. by_evaluation. Qed.

End TrainerRuns.

(* ===================================================================== *)
(** * Further properties of the configuration provider *)
(* ===================================================================== *)

Section ConfigurationLoading.
Context `{Interpreter}.
Import ModelConfig.

(** Once an item has failed, the loop of the merge has no result. *)
Lemma merge_loop_failed (ov : gmap string value) :
  map_fold (merge_item _merge_configs) None ov = None.
Proof.
  apply (map_fold_weak_ind (fun r _ => r = None)); [reflexivity|].
  intros i x m r _ ->. reflexivity.
Qed.

Lemma merge_scalar_base s override : _merge_configs (VScalar s) override = None.
Proof. destruct override; try reflexivity. apply merge_loop_failed. Qed.

(** A list has [copy] but no item assignment by key: it merges with the
    empty mapping only. *)
Lemma merge_list_base items (ov : gmap string value) merged :
  _merge_configs (VList items) (VDict ov) = Some merged ->
  merged = VList items /\ ov = ∅.
Proof.
  simpl.
  assert (Hinv : (ov = ∅ /\ map_fold (merge_item _merge_configs)
                              (Some (VList items)) ov = Some (VList items))
                 \/ (ov <> ∅ /\ map_fold (merge_item _merge_configs)
                                 (Some (VList items)) ov = None)).
  { apply (map_fold_weak_ind
             (fun r done => (done = ∅ /\ r = Some (VList items))
                            \/ (done <> ∅ /\ r = None))); [left; auto|].
    intros i x m r Hi Hr. right. split; [apply insert_non_empty|].
    destruct Hr as [[_ ->]|[_ ->]]; reflexivity. }
  destruct Hinv as [[-> Heq]|[_ Heq]]; rewrite Heq; [|discriminate].
  intros [= <-]. auto.
Qed.


Lemma nesting_item (d : gmap string value) key v :
  d !! key = Some v -> nesting v < nesting (VDict d).
Proof.
  intros Hkey. simpl. apply Nat.lt_succ_r.
  rewrite <- (insert_delete_id d key v Hkey).
  rewrite map_fold_insert_L.
  - lia.
  - intros j1 j2 z1 z2 y _ _ _. lia.
  - apply lookup_delete_eq.
Qed.

Lemma merge_again_and_with_itself n :
  forall ov : gmap string value,
    nesting (VDict ov) <= n ->
    (forall base merged,
        _merge_configs base (VDict ov) = Some merged ->
        _merge_configs merged (VDict ov) = Some merged)
    /\ _merge_configs (VDict ov) (VDict ov) = Some (VDict ov).
Proof.
  induction n as [|n IH]; intros ov Hsize; [simpl in Hsize; lia|].
  assert (Hitem : forall key d,
            ov !! key = Some (VDict d) -> nesting (VDict d) <= n).
  { intros key d Hkey. pose proof (nesting_item ov key _ Hkey). lia. }
  split.
  - intros base merged Hmerge. destruct base as [s|items|base].
    + rewrite merge_scalar_base in Hmerge. discriminate.
    + apply merge_list_base in Hmerge as [-> ->]. reflexivity.
    + destruct (proj1 (merge_configs_loop base ov merged) Hmerge)
        as (m & -> & Hm).
      apply (merge_configs_loop m ov). exists m. split; [reflexivity|].
      intros key. specialize (Hm key). unfold merged_at in *.
      destruct (ov !! key) as [v|] eqn:Hkey; [|reflexivity].
      destruct v as [s|items|d]; try exact Hm.
      destruct (IH d (Hitem key d Hkey)) as [Hagain Hself].
      destruct (base !! key) as [old|].
      * destruct Hm as (new & Hnew & Hlook). rewrite Hlook.
        exists new. split; [apply (Hagain old), Hnew|reflexivity].
      * rewrite Hm. exists (VDict d). split; [exact Hself|reflexivity].
  - apply (merge_configs_loop ov ov). exists ov. split; [reflexivity|].
    intros key. unfold merged_at.
    destruct (ov !! key) as [v|] eqn:Hkey; [|reflexivity].
    destruct v as [s|items|d]; try reflexivity.
    destruct (IH d (Hitem key d Hkey)) as [_ Hself]. eauto.
Qed.

(** Merging is idempotent in the override: the same override applied to
    the merged configuration gives the merged configuration again. *)
Theorem merge_configs_idempotent base override merged :
  _merge_configs base override = Some merged ->
  _merge_configs merged override = Some merged.
Proof.
  intros Hmerge. destruct override as [s|items|ov]; try discriminate.
  destruct (merge_again_and_with_itself (nesting (VDict ov)) ov (le_n _))
    as [Hagain _].
  apply (Hagain base), Hmerge.
Qed.


(** ** The four getters *)

Lemma getter_cases section self :
  (exists cached,
      _cache self !! cache_key section = Some cached
      /\ getter section self = (Returns cached, self))
  \/ (_cache self !! cache_key section = None
      /\ ((exists e, getter section self = (Raises e, self))
          \/ (exists cfg,
                 dict_get (config self) (section_key section) (VDict ∅)
                 = Returns cfg
                 /\ all_in cfg (required_of section) = Returns true
                 /\ getter section self
                    = (Returns cfg,
                       Make (env self)
                            (<[cache_key section := cfg]> (_cache self))
                            (config self))))).
Proof.
  destruct (_cache self !! cache_key section) as [cached|] eqn:Hentry.
  - left. exists cached. split; [reflexivity|].
    apply getter_from_cache, Hentry.
  - right. split; [reflexivity|]. rewrite (getter_uncached _ _ Hentry).
    destruct (dict_get _ _ _) as [cfg|e]; [|left; eauto].
    destruct (all_in cfg _) as [[|]|e] eqn:Hall;
      [right; exists cfg; auto | left; eauto | left; eauto].
Qed.

Lemma getter_keeps_entries section self key v :
  _cache self !! key = Some v ->
  _cache (getter section self).2 !! key = Some v.
Proof.
  intros Hkey.
  destruct (getter_cases section self)
    as [(cached & _ & ->)|(Hnone & [(e & ->)|(cfg & _ & _ & ->)])];
    try exact Hkey.
  simpl. rewrite lookup_insert_ne; [exact Hkey|].
  intros <-. congruence.
Qed.

Lemma after_getters_keeps_entries calls : forall self key v,
  _cache self !! key = Some v ->
  _cache (after_getters calls self) !! key = Some v.
Proof.
  induction calls as [|section calls IH]; intros self key v Hkey;
    [exact Hkey|].
  simpl. apply IH, getter_keeps_entries, Hkey.
Qed.

Lemma getter_cached section self cached :
  _cache self !! cache_key section = Some cached ->
  getter section self = (Returns cached, self).
Proof.
  intros Hkey.
  destruct (getter_cases section self)
    as [(v & Hv & ->)|(Hnone & _)]; congruence.
Qed.

Lemma getter_returned_is_cached section self cfg self' :
  getter section self = (Returns cfg, self') ->
  _cache self' !! cache_key section = Some cfg.
Proof.
  intros Hcall.
  destruct (getter_cases section self)
    as [(v & Hv & Heq)|(Hnone & [(e & Heq)|(v & _ & _ & Heq)])];
    rewrite Heq in Hcall; try discriminate; injection Hcall as <- <-.
  - exact Hv.
  - simpl. apply lookup_insert_eq.
Qed.

(** A section that a getter has returned is served again unchanged,
    whatever getter calls were made in between: each getter fills its own
    cache entry, and no entry is ever removed or replaced. *)
Theorem served_section_is_stable section self cfg self' calls :
  getter section self = (Returns cfg, self') ->
  getter section (after_getters calls self')
  = (Returns cfg, after_getters calls self').
Proof.
  intros Hcall. apply getter_cached, after_getters_keeps_entries.
  apply (getter_returned_is_cached _ _ _ _ Hcall).
Qed.

Lemma all_in_list items keys :
  (forall key, key ∈ keys -> str key ∈ items) ->
  all_in (VList items) keys = Returns true.
Proof.
  induction keys as [|key keys IH]; intros Hall; [reflexivity|].
  simpl.
  assert (Hfound : existsb (is_str key) items = true).
  { apply existsb_exists. exists (str key). split.
    - apply list_elem_of_In, Hall. left.
    - simpl. apply String.eqb_refl. }
  rewrite Hfound. apply IH. intros k Hk. apply Hall. right. exact Hk.
Qed.

(** The validation tests membership, not the type of the section: a
    section that is a list holding the names of the required keys is
    accepted, cached and returned as the configuration. *)
Theorem getter_accepts_a_list_of_key_names
    section self (sections : gmap string value) items :
  _cache self !! cache_key section = None ->
  config self = VDict sections ->
  sections !! section_key section = Some (VList items) ->
  (forall key, key ∈ required_of section -> str key ∈ items) ->
  getter section self
  = (Returns (VList items),
     Make (env self) (<[cache_key section := VList items]> (_cache self))
          (config self)).
Proof.
  intros Hnone Hconfig Hsection Hall.
  assert (Hget : dict_get (config self) (section_key section) (VDict ∅)
                 = Returns (VList items)).
  { rewrite Hconfig. simpl. rewrite Hsection. reflexivity. }
  rewrite (getter_uncached _ _ Hnone), Hget.
  rewrite (all_in_list items (required_of section) Hall). reflexivity.
Qed.

(** ** Construction *)

Lemma yaml_load_raises file e :
  yaml_load file = Raises e ->
  forall A (k : value -> result A),
    exists msg,
      reraise_as ConfigValidationError "Configuration initialization failed: "
        (yaml_load file ≫= k)
      = raise ConfigValidationError msg.
Proof. intros -> A k. simpl. eauto. Qed.

(** An environment override file that exists and does not hold a mapping
    (an empty [config.yml] loads as [None]) makes the construction fail
    with a [ConfigValidationError], whatever the base file holds. *)
Theorem override_file_must_hold_a_mapping files merge_error env v :
  env ∈ ENVIRONMENTS.*1 ->
  env_yml files = Some (Loaded v) ->
  is_dict v = false ->
  exists msg,
    __init__ files merge_error env = raise ConfigValidationError msg.
Proof.
  intros Henv Hfile Hv. unfold __init__.
  rewrite (bool_decide_eq_true_2 _ Henv). simpl.
  unfold _load_base_config. rewrite Hfile.
  destruct (yaml_load (base_yml files)) as [base|e]; simpl; [|eauto].
  assert (Hmerge : _merge_configs base v = None)
    by (destruct v; try reflexivity; discriminate).
  rewrite Hmerge. simpl. eauto.
Qed.

(** A base file that does not hold a mapping (an empty [base.yml]), with
    no override file, is accepted by the constructor; every getter of the
    constructed object then raises an [AttributeError], not a
    [ConfigValidationError], and caches nothing. *)
Theorem base_file_without_mapping_fails_late files merge_error env v :
  env ∈ ENVIRONMENTS.*1 ->
  base_yml files = Loaded v ->
  env_yml files = None ->
  is_dict v = false ->
  __init__ files merge_error env = Returns (Make env ∅ v)
  /\ forall section,
       getter section (Make env ∅ v)
       = (raise AttributeError
            ("'" +:+ type_name v +:+ "' object has no attribute 'get'"),
          Make env ∅ v).
Proof.
  intros Henv Hbase Hfile Hv. split.
  - unfold __init__, _load_base_config.
    rewrite (bool_decide_eq_true_2 _ Henv), Hbase, Hfile. reflexivity.
  - intros section. destruct v as [s|items|d]; [| |discriminate];
      destruct section; reflexivity.
Qed.

End ConfigurationLoading.

(* ===================================================================== *)
(** * What calls keep, and what the pipelines need *)
(* ===================================================================== *)

Section Frames.
Context {S X : Type} (f : S -> X).

Lemma preserves_ret {A} (a : A) : preserves f (retM a).
Proof. intros s. reflexivity. Qed.
Lemma preserves_get : preserves f getM.
Proof. intros s. reflexivity. Qed.
Lemma preserves_lift {A} (r : result A) : preserves f (liftM r).
Proof. intros s. reflexivity. Qed.
Lemma preserves_bind {A B} (c : M S A) (k : A -> M S B) :
  preserves f c -> (forall a, preserves f (k a)) -> preserves f (bindM c k).
Proof.
  intros Hc Hk s. unfold bindM. specialize (Hc s).
  destruct (c s) as [[a|e] s']; simpl in *; [|exact Hc].
  rewrite Hk. exact Hc.
Qed.
Lemma preserves_try {A} (c : M S A) (handler : exn -> M S A) :
  preserves f c -> (forall e, preserves f (handler e)) ->
  preserves f (tryM c handler).
Proof.
  intros Hc Hh s. unfold tryM. specialize (Hc s).
  destruct (c s) as [[a|e] s']; simpl in *; [exact Hc|].
  rewrite Hh. exact Hc.
Qed.
End Frames.

Ltac preserves_step :=
  first
    [ apply preserves_ret | apply preserves_get | apply preserves_lift
    | apply preserves_bind; [|intros ?]
    | apply preserves_try; [|intros ?]
    | progress cbv beta iota
    | match goal with
      | |- preserves _ (if ?b then _ else _) => destruct b
      | |- preserves _ (match ?x with _ => _ end) => destruct x
      end ].

Lemma tryM_returns {S A} (c : M S A) handler s a s' :
  c s = (Returns a, s') -> tryM c handler s = (Returns a, s').
Proof. intros Hc. unfold tryM. rewrite Hc. reflexivity. Qed.

Lemma bindM_returns {S A B} (c : M S A) (k : A -> M S B) s a s1 r :
  c s = (Returns a, s1) -> k a s1 = r -> bindM c k s = r.
Proof. intros Hc Hk. unfold bindM. rewrite Hc. exact Hk. Qed.

Lemma bindM_lift {S A B} (r : result A) (k : A -> M S B) s :
  bindM (liftM r) k s
  = match r with Returns a => k a s | Raises e => (Raises e, s) end.
Proof. destruct r; reflexivity. Qed.

Lemma bindM_get {S B} (k : S -> M S B) s : bindM getM k s = k s s.
Proof. reflexivity. Qed.

Lemma bindM_ret {S A B} (a : A) (k : A -> M S B) s : bindM (retM a) k s = k a s.
Proof. reflexivity. Qed.

Lemma raises_bind {S A B} (c : M S A) (k : A -> M S B) s :
  (forall a s1, c s = (Returns a, s1) -> raises_at (k a) s1) ->
  raises_at (bindM c k) s.
Proof.
  intros Hk. unfold raises_at, bindM in *.
  destruct (c s) as [[a|e] s1]; [apply Hk; reflexivity|eauto].
Qed.

Lemma raises_lift {S A} (r : result A) (s : S) :
  succeeded r = false -> raises_at (liftM r) s.
Proof. destruct r; [discriminate|]. intros _. unfold raises_at, liftM. eauto. Qed.

(** [try: c except Exception as e: raise K(prefix + str(e))] raises [K]
    whenever [c] raises. *)
Lemma raises_wrapped {S A} (c : M S A) k prefix s :
  raises_at c s ->
  exists msg s',
    tryM c (fun e => liftM (raise k (prefix +:+ exn_str e))) s
    = (Raises (Exn k msg), s').
Proof.
  intros (e & s' & Hc). unfold tryM, liftM, raise. rewrite Hc. eauto.
Qed.

Section PreprocessorPipelines.
Context `{Interpreter} `{Transformers}.
Import DataPreprocessor.

Lemma reads_state {A} (c : M t A) : reads c -> preserves id c.
Proof. intros Hc s. apply (Hc s s); reflexivity. Qed.

Lemma reads_ret {A} (x : A) : reads (retM x).
Proof. intros a b _ _. split; reflexivity. Qed.

Lemma reads_lift {A} (r : result A) : reads (liftM r).
Proof. intros a b _ _. split; reflexivity. Qed.

Lemma reads_bind {A B} (c : M t A) (k : A -> M t B) :
  reads c -> (forall x, reads (k x)) -> reads (bindM c k).
Proof.
  intros Hc Hk a b Ht Hr. unfold bindM.
  destruct (Hc a b Ht Hr) as [Hres Ha].
  destruct (Hc b a (eq_sym Ht) (eq_sym Hr)) as [_ Hb].
  destruct (c a) as [ra sa], (c b) as [rb sb]. simpl in *. subst.
  destruct rb as [x|e]; [apply (Hk x); assumption|split; reflexivity].
Qed.

Lemma reads_get {B} (k : t -> M t B) :
  (forall a b, model_type a = model_type b -> transformers a = transformers b ->
     k a = k b) ->
  (forall x, reads (k x)) -> reads (bindM getM k).
Proof.
  intros Hsame Hk a b Ht Hr. unfold bindM, getM.
  rewrite (Hsame a b Ht Hr). apply (Hk b); assumption.
Qed.

Lemma reads_try {A} (c : M t A) (handler : exn -> M t A) :
  reads c -> (forall e, reads (handler e)) -> reads (tryM c handler).
Proof.
  intros Hc Hh a b Ht Hr. unfold tryM.
  destruct (Hc a b Ht Hr) as [Hres Ha].
  destruct (Hc b a (eq_sym Ht) (eq_sym Hr)) as [_ Hb].
  destruct (c a) as [ra sa], (c b) as [rb sb]. simpl in *. subst.
  destruct rb as [x|e]; [split; reflexivity|apply (Hh e); assumption].
Qed.

Ltac reads_step :=
  lazymatch goal with
  | |- reads (retM _) => apply reads_ret
  | |- reads (liftM _) => apply reads_lift
  | |- reads (bindM getM _) =>
      apply reads_get;
      [ let Ht := fresh in let Hr := fresh in
        intros ? ? Ht Hr; rewrite ?Ht, ?Hr; reflexivity
      | intros ? ]
  | |- reads (bindM _ _) => apply reads_bind; [|intros ?]
  | |- reads (tryM _ _) => apply reads_try; [|intros ?]
  | |- reads (if ?b then _ else _) => destruct b
  | |- reads (match ?x with _ => _ end) => destruct x
  | |- reads (let _ := _ in _) => cbv zeta
  end.

Lemma validate_reads data : reads (_validate_and_convert_input data).
Proof. unfold _validate_and_convert_input. repeat reads_step. Qed.

Lemma recommendation_reads df : reads (_process_recommendation_data df false).
Proof. unfold _process_recommendation_data. repeat reads_step. Qed.

Lemma nlp_reads data : reads (_process_nlp_data data false).
Proof. unfold _process_nlp_data. repeat reads_step. Qed.

Lemma anomaly_reads data : reads (_process_anomaly_data data false).
Proof. unfold _process_anomaly_data. repeat reads_step. Qed.

Lemma sentiment_reads data : reads (_process_sentiment_data data false).
Proof. destruct data; [apply nlp_reads|apply recommendation_reads]. Qed.

Lemma process_reads data : reads (process data false).
Proof.
  unfold process.
  repeat first [ apply recommendation_reads | apply nlp_reads
               | apply sentiment_reads | apply anomaly_reads | reads_step ].
Qed.

Lemma preserves_modify {X} (f : t -> X) (g : t -> t) :
  (forall s, f (g s) = f s) -> preserves f (modify g).
Proof. intros Hg s. apply Hg. Qed.

Lemma preserves_with_config {X} (f : t -> X) getter :
  (forall c s, f (set_config c s) = f s) -> preserves f (with_config getter).
Proof.
  intros Hf s. unfold with_config. destruct (getter (config s)). apply Hf.
Qed.

Ltac fields_step :=
  first
    [ apply preserves_modify; intros ?; reflexivity
    | apply preserves_with_config; intros ? ?; reflexivity
    | preserves_step ].

Lemma fit_categorical_keeps_type df features :
  preserves model_type (fit_categorical df features).
Proof.
  induction features; simpl; [apply preserves_ret|].
  apply preserves_bind; [repeat fields_step|intros ?; exact IHfeatures].
Qed.

Lemma process_keeps_type data fit : preserves model_type (process data fit).
Proof.
  unfold process, _process_sentiment_data, _process_anomaly_data,
    _process_nlp_data, _process_recommendation_data.
  repeat first [apply fit_categorical_keeps_type | fields_step].
Qed.

Lemma update_statistics_keeps_type data timestamp :
  preserves model_type (_update_statistics data timestamp).
Proof. unfold _update_statistics. repeat fields_step. Qed.

Lemma update_statistics_keeps_transformers data timestamp :
  preserves transformers (_update_statistics data timestamp).
Proof. unfold _update_statistics. repeat fields_step. Qed.

(** A pipeline fits when asked to and then transforms with what it holds:
    after a fitting run, the same data transforms to the same result. *)
Lemma fit_then_apply {A} (fitting : M t unit) (k : unit -> M t A) s r s1 :
  preserves id (bindM (retM tt) k) ->
  bindM fitting k s = (Returns r, s1) ->
  bindM (retM tt) k s1 = (Returns r, s1).
Proof.
  intros Hk Hrun.
  apply bindM_inv in Hrun as [(? & ? & ?)|([] & s0 & _ & Hrest)]; [discriminate|].
  pose proof (Hk s0) as Hsame. unfold bindM, retM in Hsame |- *.
  rewrite Hrest in Hsame. simpl in Hsame. subst s1. exact Hrest.
Qed.

Lemma process_branch data fit s :
  process data fit s
  = (if String.eqb (model_type s) "recommendation" then
       match data with
       | CFrame df => _process_recommendation_data df fit
       | CArray _ =>
           liftM (raise IndexError "only integers and slices are valid indices")
       end
     else if String.eqb (model_type s) "nlp" then _process_nlp_data data fit
     else if String.eqb (model_type s) "sentiment" then
       _process_sentiment_data data fit
     else _process_anomaly_data data fit) s.
Proof. reflexivity. Qed.

Lemma process_fit_then_transform data s r s1 :
  process data true s = (Returns r, s1) ->
  process data false s1 = (Returns r, s1).
Proof.
  intros Hfit.
  pose proof (process_keeps_type data true s) as Htype.
  rewrite Hfit in Htype. simpl in Htype.
  rewrite process_branch in Hfit |- *. rewrite Htype.
  destruct (String.eqb (model_type s) "recommendation").
  { destruct data as [a|df]; [discriminate|].
    unfold _process_recommendation_data in Hfit |- *.
    cbv beta iota in Hfit |- *.
    eapply fit_then_apply; [|exact Hfit]. apply reads_state, (recommendation_reads df). }
  destruct (String.eqb (model_type s) "nlp").
  { unfold _process_nlp_data in Hfit |- *. cbv beta iota in Hfit |- *.
    eapply fit_then_apply; [|exact Hfit]. apply reads_state, (nlp_reads data). }
  destruct (String.eqb (model_type s) "sentiment").
  { destruct data as [a|df].
    - unfold _process_sentiment_data, _process_nlp_data in Hfit |- *.
      cbv beta iota in Hfit |- *.
      eapply fit_then_apply; [|exact Hfit]. apply reads_state, (nlp_reads (CArray a)).
    - unfold _process_sentiment_data, _process_recommendation_data in Hfit |- *.
      cbv beta iota in Hfit |- *.
      eapply fit_then_apply; [|exact Hfit].
      apply reads_state, (recommendation_reads df). }
  destruct data as [a|df]; [discriminate|].
  unfold _process_anomaly_data in Hfit |- *. cbv beta iota in Hfit |- *.
  eapply fit_then_apply; [|exact Hfit]. apply reads_state, (anomaly_reads (CFrame df)).
Qed.

Lemma reads_at {A} (c : M t A) a b :
  reads c -> model_type a = model_type b -> transformers a = transformers b ->
  c a = ((c b).1, a).
Proof.
  intros Hc Ht Hr. destruct (Hc a b Ht Hr) as [Hres Hst].
  destruct (c a) as [r s']. simpl in *. congruence.
Qed.

(** The guard of [transform] aside, the call reads the object. *)
Lemma transform_reads_only data : preserves id (transform data).
Proof.
  unfold transform.
  repeat first [ apply (reads_state _ (process_reads _))
               | apply (reads_state _ (validate_reads _)) | preserves_step ].
Qed.

Lemma validate_same_type data a b :
  model_type a = model_type b ->
  (_validate_and_convert_input data a).1 = (_validate_and_convert_input data b).1.
Proof.
  intros Htype. unfold _validate_and_convert_input, bindM, getM.
  rewrite Htype. destruct data as [[a0|e] [df|e']|a0|df|]; try reflexivity;
    destruct (bool_decide _); reflexivity.
Qed.

(** After a [fit_transform] that returned, [transform] of the same data
    returns the same matrix (the clock's reading being a non-empty
    string), and no [transform] call changes the fitted object. *)
Theorem transform_repeats_fit_transform data stats_time now self processed self' :
  now <> "" ->
  fit_transform data stats_time now self = (Returns processed, self') ->
  transform data self' = (Returns processed, self')
  /\ forall other, (transform other self').2 = self'.
Proof.
  intros Hnow Hfit. split; [|intros other; apply (transform_reads_only other)].
  unfold fit_transform, tryM in Hfit.
  destruct (bindM _ _ self) as [[m|e] s0] eqn:Hbody; [|discriminate].
  injection Hfit as -> ->.
  apply bindM_inv in Hbody as [(? & ? & ?)|(data' & s1 & Hconv & Hbody)];
    [discriminate|].
  rewrite (reads_at _ self self (validate_reads data) eq_refl eq_refl) in Hconv.
  injection Hconv as Hdata' <-.
  apply bindM_inv in Hbody as [(? & ? & ?)|(u & s2 & Hstats & Hbody)];
    [discriminate|].
  apply bindM_inv in Hbody as [(? & ? & ?)|(r & s3 & Hproc & Hbody)];
    [discriminate|].
  assert (Htype : model_type s3 = model_type self).
  { pose proof (process_keeps_type data' true s2) as H3.
    pose proof (update_statistics_keeps_type data' stats_time self) as H2.
    rewrite Hproc in H3. rewrite Hstats in H2. simpl in *. congruence. }
  unfold bindM, getM, liftM, modify, retM in Hbody.
  destruct (preprocessor_state s3) as [sc|items|m] eqn:Hstate;
    simpl in Hbody; try discriminate.
  injection Hbody as <- <-.
  apply process_fit_then_transform in Hproc.
  set (fitted := set_preprocessor_state _ s3).
  assert (Hguard : dict_get (preprocessor_state fitted) "last_updated"
                     (VScalar SNone) = Returns (str now)).
  { unfold fitted. simpl. rewrite lookup_insert_eq. reflexivity. }
  assert (Htruthy : truthy (str now) = true).
  { simpl. destruct (String.eqb now "") eqn:Hempty; [|reflexivity].
    apply String.eqb_eq in Hempty. contradiction. }
  assert (Hconv : _validate_and_convert_input data fitted
                  = (Returns data', fitted)).
  { rewrite (reads_at _ fitted fitted (validate_reads data)) by reflexivity.
    rewrite (validate_same_type data fitted self Htype), Hdata'. reflexivity. }
  assert (Hrun : process data' false fitted = (Returns r, fitted)).
  { rewrite (reads_at _ fitted s3 (process_reads data')) by reflexivity.
    rewrite Hproc. reflexivity. }
  unfold transform. apply tryM_returns.
  eapply bindM_returns; [reflexivity|].
  eapply bindM_returns; [unfold liftM; rewrite Hguard; reflexivity|].
  rewrite Htruthy. change (negb true) with false. cbv iota.
  eapply bindM_returns; [exact Hconv|].
  eapply bindM_returns; [exact Hrun|]. reflexivity.
Qed.

Lemma raises_bind_l {A B} (c : M t A) (k : A -> M t B) s :
  raises_at c s -> raises_at (bindM c k) s.
Proof.
  intros (e & s' & Hc). apply raises_bind. intros a s1 Ha.
  rewrite Hc in Ha. discriminate.
Qed.

Lemma df_column_absent df name :
  has_column df name = false -> succeeded (df_column df name) = false.
Proof.
  unfold has_column, df_column. intros Habsent.
  apply bool_decide_eq_false in Habsent.
  destruct (list_find _ df) as [[i [lbl col]]|] eqn:Hfind; [|reflexivity].
  exfalso. apply Habsent. apply list_find_Some in Hfind as (Hi & Hlbl & _).
  simpl in Hlbl. subst lbl. apply list_elem_of_fmap. exists (LStr name, col).
  split; [reflexivity|]. eapply list_elem_of_lookup_2, Hi.
Qed.

Lemma df_select_absent df names feature :
  feature ∈ names -> has_column df feature = false ->
  succeeded (df_select df names) = false.
Proof.
  intros Hin Habsent. induction names as [|name rest IH];
    [apply elem_of_nil in Hin; contradiction|].
  simpl. apply elem_of_cons in Hin as [<-|Hin].
  - pose proof (df_column_absent df feature Habsent) as Hcol.
    destruct (df_column df feature); [discriminate|reflexivity].
  - destruct (df_column df name); [|reflexivity]. simpl.
    specialize (IH Hin). destruct (df_select df rest); [discriminate|reflexivity].
Qed.

Lemma imap_labels {A} (f : nat -> string -> label * A) names :
  (forall j name, (f j name).1 = LStr name) ->
  (imap f names).*1 = LStr <$> names.
Proof.
  revert f. induction names as [|name names IH]; intros f Hf; [reflexivity|].
  simpl. rewrite Hf. f_equal. apply IH. intros j name'. apply Hf.
Qed.

(** The named columns of a frame made of an array are the array's fields:
    the frame of a plain array, or of a list, has positional labels only. *)
Lemma frame_of_array_columns a name :
  has_column (frame_of_array a) name = bool_decide (name ∈ field_names a).
Proof.
  unfold has_column. apply bool_decide_ext.
  destruct a as [rows|v|items|names records]; simpl.
  - rewrite elem_of_nil. split; [|intros []].
    intros Hin. apply list_elem_of_fmap in Hin as ([lbl col] & Hlbl & Hin).
    apply list_elem_of_fmap in Hin as (j & Heq & _).
    simpl in Hlbl. congruence.
  - rewrite elem_of_nil, list_elem_of_singleton. split; [discriminate|intros []].
  - rewrite elem_of_nil, list_elem_of_singleton. split; [discriminate|intros []].
  - rewrite imap_labels by reflexivity. rewrite list_elem_of_fmap. split.
    + intros (name' & [= ->] & Hin). exact Hin.
    + intros Hin. eauto.
Qed.

Lemma frame_of_array_unnamed a name :
  field_names a = [] -> has_column (frame_of_array a) name = false.
Proof.
  intros Hplain. rewrite frame_of_array_columns, Hplain.
  apply bool_decide_eq_false, not_elem_of_nil.
Qed.

Lemma transform_categorical_none encoders df features :
  (forall feature, feature ∈ features -> has_column df feature = false) ->
  transform_categorical encoders df features = Returns [].
Proof.
  induction features as [|feature rest IH]; intros Habsent; [reflexivity|].
  simpl. rewrite (Habsent feature) by apply list_elem_of_here.
  apply IH. intros f Hf. apply Habsent, list_elem_of_further, Hf.
Qed.

(** The numerical part of both frame pipelines starts by selecting the
    three numerical columns. *)
Lemma recommendation_needs_numerical df fit s :
  succeeded (df_select df NUMERICAL_FEATURES) = false ->
  raises_at (_process_recommendation_data df fit) s.
Proof.
  intros Hsel. unfold _process_recommendation_data.
  destruct (df_select df NUMERICAL_FEATURES) as [sub|e] eqn:Hdf; [discriminate|].
  destruct fit.
  - apply raises_bind_l. unfold raises_at, bindM, getM, liftM. eauto.
  - unfold raises_at, bindM, retM, getM, liftM. eauto.
Qed.

Lemma anomaly_needs_numerical df fit s :
  succeeded (df_select df NUMERICAL_FEATURES) = false ->
  raises_at (_process_anomaly_data (CFrame df) fit) s.
Proof.
  intros Hsel. unfold _process_anomaly_data.
  destruct (df_select df NUMERICAL_FEATURES) as [sub|e] eqn:Hdf; [discriminate|].
  destruct fit.
  - apply raises_bind_l. unfold raises_at, bindM, getM, liftM. eauto.
  - unfold raises_at, bindM, retM, getM, liftM. eauto.
Qed.

Lemma recommendation_needs_categorical df fit s :
  (forall feature, feature ∈ CATEGORICAL_FEATURES ->
     has_column df feature = false) ->
  raises_at (_process_recommendation_data df fit) s.
Proof.
  intros Habsent. unfold _process_recommendation_data.
  apply raises_bind. intros _ s1 _.
  apply raises_bind. intros self s2 _.
  apply raises_bind. intros sub s3 _.
  apply raises_bind. intros numerical_data s4 _.
  rewrite (transform_categorical_none _ df _ Habsent).
  unfold raises_at, bindM, liftM. simpl. eauto.
Qed.

Lemma not_textual (s : t) :
  model_type s ∈ ["recommendation"; "anomaly"] ->
  bool_decide (model_type s ∈ ["nlp"; "sentiment"]) = false.
Proof.
  intros Hin. apply bool_decide_eq_false. intros Htext.
  rewrite !elem_of_cons, elem_of_nil in Hin, Htext.
  destruct Hin as [Hs|[Hs|[]]]; rewrite Hs in Htext;
    destruct Htext as [?|[?|[]]]; discriminate.
Qed.

(** On a preprocessor of the type ['recommendation'] or ['anomaly'] every
    input becomes a frame, and the pipeline starts by selecting the
    numerical columns by name. *)
Lemma frame_pipeline_raises data fit s :
  model_type s ∈ ["recommendation"; "anomaly"] ->
  (forall df, frame_of data = Some df ->
     exists feature,
       feature ∈ NUMERICAL_FEATURES /\ has_column df feature = false) ->
  forall data' s1,
    _validate_and_convert_input data s = (Returns data', s1) ->
    forall s2, model_type s2 = model_type s ->
      raises_at (process data' fit) s2.
Proof.
  intros Htype Hdata data' s1 Hconv s2 Hsame.
  assert (Hframe : exists df,
            data' = CFrame df
            /\ succeeded (df_select df NUMERICAL_FEATURES) = false).
  { unfold _validate_and_convert_input, bindM, getM, retM, liftM in Hconv.
    rewrite (not_textual s Htype) in Hconv.
    destruct data as [as_array [df|e]|a|df|]; try discriminate;
      injection Hconv as <- <-; eexists; (split; [reflexivity|]);
      destruct (Hdata _ eq_refl) as (feature & Hin & Habsent);
      apply (df_select_absent _ _ feature Hin Habsent). }
  destruct Hframe as (df & -> & Hsel).
  rewrite !elem_of_cons, elem_of_nil in Htype.
  unfold raises_at. rewrite process_branch, Hsame.
  destruct Htype as [->|[->|[]]]; simpl.
  - apply recommendation_needs_numerical, Hsel.
  - apply anomaly_needs_numerical, Hsel.
Qed.

Lemma validate_keeps data s r s1 :
  _validate_and_convert_input data s = (r, s1) -> s1 = s.
Proof.
  intros Hconv. pose proof (reads_state _ (validate_reads data) s) as Hs.
  rewrite Hconv in Hs. exact Hs.
Qed.

(** [fit_transform] raises when the pipeline does, on the converted data
    and whatever the statistics update left. *)
Lemma fit_transform_raises data stats_time now self :
  (forall data' s2,
      (_validate_and_convert_input data self).1 = Returns data' ->
      model_type s2 = model_type self ->
      raises_at (process data' true) s2) ->
  exists msg self',
    fit_transform data stats_time now self
    = (Raises (Exn PreprocessingError msg), self').
Proof.
  intros Hpipe. unfold fit_transform. apply raises_wrapped.
  apply raises_bind. intros data' s1 Hconv.
  pose proof (validate_keeps _ _ _ _ Hconv) as ->.
  apply raises_bind. intros u s2 Hstats.
  apply raises_bind_l, Hpipe; [rewrite Hconv; reflexivity|].
  pose proof (update_statistics_keeps_type data' stats_time self) as Hkeep.
  rewrite Hstats in Hkeep. exact Hkeep.
Qed.

(** [transform] raises when the pipeline does, and changes nothing. *)
Lemma transform_raises data self :
  (forall data',
      (_validate_and_convert_input data self).1 = Returns data' ->
      raises_at (process data' false) self) ->
  exists msg,
    transform data self = (Raises (Exn PreprocessingError msg), self).
Proof.
  intros Hpipe.
  assert (Hraise : raises_at
            (do self <~ getM ;;;
             do last_updated <~ liftM (dict_get (preprocessor_state self)
                                        "last_updated" (VScalar SNone)) ;;;
             if negb (truthy last_updated) then
               liftM (raise PreprocessingError
                        "Preprocessor must be fitted before transform")
             else
               do data' <~ _validate_and_convert_input data ;;;
               do processed_data <~ process data' false ;;;
               retM processed_data) self).
  { apply raises_bind. intros s0 s1 [= <- <-].
    apply raises_bind. intros last_updated s1 Hget.
    assert (s1 = self) as -> by (unfold liftM in Hget; congruence).
    destruct (negb (truthy last_updated)).
    - unfold raises_at, liftM, raise. eauto.
    - apply raises_bind. intros data' s1 Hconv.
      pose proof (validate_keeps _ _ _ _ Hconv) as ->.
      apply raises_bind_l, Hpipe. rewrite Hconv. reflexivity. }
  destruct (raises_wrapped _ PreprocessingError "Transform failed: " _ Hraise)
    as (msg & s' & Hrun).
  exists msg. fold (transform data) in Hrun.
  pose proof (transform_reads_only data self) as Hs.
  rewrite Hrun in Hs. simpl in Hs. subst s'. exact Hrun.
Qed.

Lemma validate_returns data s data' :
  (_validate_and_convert_input data s).1 = Returns data' ->
  _validate_and_convert_input data s = (Returns data', s).
Proof.
  intros Hres. destruct (_validate_and_convert_input data s) as [r s1] eqn:Hconv.
  simpl in Hres. subst r. rewrite (validate_keeps _ _ _ _ Hconv). reflexivity.
Qed.

Lemma transform_needs_numerical_columns self data :
  model_type self ∈ ["recommendation"; "anomaly"] ->
  (forall df, frame_of data = Some df ->
     exists feature,
       feature ∈ NUMERICAL_FEATURES /\ has_column df feature = false) ->
  exists msg,
    transform data self = (Raises (Exn PreprocessingError msg), self).
Proof.
  intros Htype Hdata. apply transform_raises. intros data' Hconv.
  apply (frame_pipeline_raises data false self Htype Hdata data' self);
    [apply validate_returns, Hconv|reflexivity].
Qed.

(** The recommendation and the anomaly pipeline need every numerical
    column: on an input whose frame lacks one of them, both [fit_transform]
    and [transform] raise a [PreprocessingError]. The frame is the caller's
    frame, or the one that pandas makes of the list or the array; that one
    has named columns only for the keys of a list of dicts and for the
    fields of a structured array, so a list of strings and a plain array
    always raise. An input that is no list, array or frame raises too. *)
Theorem numerical_columns_required self data stats_time now :
  model_type self ∈ ["recommendation"; "anomaly"] ->
  (forall df, frame_of data = Some df ->
     exists feature,
       feature ∈ NUMERICAL_FEATURES /\ has_column df feature = false) ->
  (exists msg self',
      fit_transform data stats_time now self
      = (Raises (Exn PreprocessingError msg), self'))
  /\ (exists msg,
        transform data self = (Raises (Exn PreprocessingError msg), self)).
Proof.
  intros Htype Hdata. split.
  - apply fit_transform_raises. intros data' s2 Hconv Hsame.
    apply (frame_pipeline_raises data true self Htype Hdata data' self);
      [apply validate_returns, Hconv|exact Hsame].
  - apply transform_needs_numerical_columns; assumption.
Qed.

(** The categorical columns are optional one by one, not all together:
    with none of them the encoded part is an empty 1-D array, which
    [np.hstack] refuses beside the 2-D numerical part. *)
Theorem categorical_column_required self df stats_time now :
  model_type self ∈ ["recommendation"; "sentiment"] ->
  (forall feature, feature ∈ CATEGORICAL_FEATURES ->
     has_column df feature = false) ->
  (exists msg self',
      fit_transform (InFrame df) stats_time now self
      = (Raises (Exn PreprocessingError msg), self'))
  /\ (exists msg,
        transform (InFrame df) self
        = (Raises (Exn PreprocessingError msg), self)).
Proof.
  intros Htype Habsent.
  assert (Hpipe : forall fit s2,
            model_type s2 = model_type self ->
            raises_at (process (CFrame df) fit) s2).
  { intros fit s2 Hsame. unfold raises_at. rewrite process_branch, Hsame.
    rewrite !elem_of_cons, elem_of_nil in Htype.
    destruct Htype as [->|[->|[]]]; simpl;
      apply recommendation_needs_categorical, Habsent. }
  assert (Hconv : forall data',
            (_validate_and_convert_input (InFrame df) self).1 = Returns data' ->
            data' = CFrame df).
  { intros data' [= <-]. reflexivity. }
  split.
  - apply fit_transform_raises. intros data' s2 Hd Hsame.
    rewrite (Hconv data' Hd). apply Hpipe, Hsame.
  - apply transform_raises. intros data' Hd.
    rewrite (Hconv data' Hd). apply Hpipe. reflexivity.
Qed.

Lemma pad_sequence_length maxlen sequence :
  length (pad_sequence maxlen sequence) = maxlen.
Proof.
  unfold pad_sequence. rewrite length_map, length_app, length_replicate.
  rewrite length_take. lia.
Qed.

Lemma process_nlp_rows data fit s m s' :
  _process_nlp_data data fit s = (Returns m, s') ->
  Forall (fun row => length row = MAX_SEQUENCE_LENGTH) m.
Proof.
  unfold _process_nlp_data. intros Hrun.
  apply bindM_inv in Hrun as [(? & ? & ?)|(u & s1 & _ & Hrun)]; [discriminate|].
  unfold bindM, getM, liftM, retM in Hrun.
  destruct (text (transformers s1)) as [tok|]; [|discriminate].
  destruct (texts_to_sequences tok data) as [sequences|]; [|discriminate].
  injection Hrun as <- _. unfold pad_sequences.
  apply Forall_map, Forall_true. intros sequence. apply pad_sequence_length.
Qed.

Lemma transform_returns_inv data self m self' :
  transform data self = (Returns m, self') ->
  exists data',
    _validate_and_convert_input data self = (Returns data', self)
    /\ process data' false self = (Returns m, self').
Proof.
  unfold transform, tryM. intros Hcall.
  destruct (bindM _ _ self) as [[m0|e] s0] eqn:Hbody; [|discriminate].
  injection Hcall as -> ->.
  unfold bindM at 1, getM in Hbody. unfold bindM at 1, liftM at 1 in Hbody.
  destruct (dict_get _ _ _) as [last_updated|]; [|discriminate].
  destruct (negb (truthy last_updated)); [discriminate|].
  apply bindM_inv in Hbody as [(? & ? & ?)|(data' & s1 & Hconv & Hbody)];
    [discriminate|].
  pose proof (validate_keeps _ _ _ _ Hconv) as ->.
  apply bindM_inv in Hbody as [(? & ? & ?)|(r & s2 & Hproc & Hbody)];
    [discriminate|].
  injection Hbody as <- <-. eauto.
Qed.

Lemma fit_transform_returns_inv data stats_time now self m self' :
  fit_transform data stats_time now self = (Returns m, self') ->
  exists data' s2 s3,
    _validate_and_convert_input data self = (Returns data', self)
    /\ _update_statistics data' stats_time self = (Returns tt, s2)
    /\ process data' true s2 = (Returns m, s3)
    /\ setitem (preprocessor_state s3) "last_updated" (str now)
        = Returns (preprocessor_state self')
    /\ self' = set_preprocessor_state (preprocessor_state self') s3.
Proof.
  unfold fit_transform, tryM. intros Hcall.
  destruct (bindM _ _ self) as [[m0|e] s0] eqn:Hbody; [|discriminate].
  injection Hcall as -> ->.
  apply bindM_inv in Hbody as [(? & ? & ?)|(data' & s1 & Hconv & Hbody)];
    [discriminate|].
  pose proof (validate_keeps _ _ _ _ Hconv) as ->.
  apply bindM_inv in Hbody as [(? & ? & ?)|([] & s2 & Hstats & Hbody)];
    [discriminate|].
  apply bindM_inv in Hbody as [(? & ? & ?)|(r & s3 & Hproc & Hbody)];
    [discriminate|].
  unfold bindM, getM, liftM, modify, retM in Hbody.
  destruct (setitem _ _ _) as [st|] eqn:Hset; [|discriminate].
  injection Hbody as <- <-. exists data', s2, s3. auto.
Qed.

(** Every row that the text pipeline returns has [MAX_SEQUENCE_LENGTH]
    entries: the nlp preprocessor on any input, the sentiment preprocessor
    on lists and arrays. *)
Theorem text_rows_have_sequence_length self data m self' :
  model_type self = "nlp"
  \/ (model_type self = "sentiment" /\ forall df, data <> InFrame df) ->
  transform data self = (Returns m, self')
  \/ (exists stats_time now,
        fit_transform data stats_time now self = (Returns m, self')) ->
  Forall (fun row => length row = MAX_SEQUENCE_LENGTH) m.
Proof.
  intros Htype Hcall.
  assert (Hpipe : forall data' fit s2 s3,
            _validate_and_convert_input data self = (Returns data', self) ->
            model_type s2 = model_type self ->
            process data' fit s2 = (Returns m, s3) ->
            Forall (fun row => length row = MAX_SEQUENCE_LENGTH) m).
  { intros data' fit s2 s3 Hconv Hsame Hproc.
    rewrite process_branch, Hsame in Hproc.
    destruct Htype as [Hnlp|[Hsent Hdata]].
    - rewrite Hnlp in Hproc. simpl in Hproc.
      eapply process_nlp_rows, Hproc.
    - rewrite Hsent in Hproc. simpl in Hproc.
      unfold _validate_and_convert_input, bindM, getM, retM, liftM in Hconv.
      rewrite Hsent in Hconv. simpl in Hconv.
      destruct data as [[a|e] as_frame|a|df|]; try discriminate.
      + injection Hconv as <-. eapply process_nlp_rows, Hproc.
      + injection Hconv as <-. eapply process_nlp_rows, Hproc.
      + destruct (Hdata df eq_refl). }
  destruct Hcall as [Htr|(stats_time & now & Hfit)].
  - apply transform_returns_inv in Htr as (data' & Hconv & Hproc).
    eapply Hpipe; [exact Hconv|reflexivity|exact Hproc].
  - apply fit_transform_returns_inv in Hfit
      as (data' & s2 & s3 & Hconv & Hstats & Hproc & _).
    eapply Hpipe; [exact Hconv| |exact Hproc].
    pose proof (update_statistics_keeps_type data' stats_time self) as Hkeep.
    rewrite Hstats in Hkeep. exact Hkeep.
Qed.
End PreprocessorPipelines.

(* ===================================================================== *)
(** * The preprocessor state on disk, and the persona model's files *)
(* ===================================================================== *)

Section StateOnDisk.
Context `{Interpreter} `{Transformers}.
Import DataPreprocessor.

Lemma tryM_true_inv {S} (c : M S bool) s s' :
  tryM c (fun _ => retM false) s = (Returns true, s') ->
  c s = (Returns true, s').
Proof.
  unfold tryM. destruct (c s) as [[flag|e] s1]; cbn; [|discriminate].
  intros [= -> ->]. reflexivity.
Qed.

Lemma bindM_returns_inv {S A B} (c : M S A) (k : A -> M S B) s b s' :
  bindM c k s = (Returns b, s') ->
  exists a s1, c s = (Returns a, s1) /\ k a s1 = (Returns b, s').
Proof.
  intros Hcall.
  apply bindM_inv in Hcall as [(e & _ & Hr)|Hk]; [discriminate|exact Hk].
Qed.

Lemma write_file_returns outcome path name content
    (disk : state_disk) u disk1 :
  write_file outcome path name content disk = (Returns u, disk1) ->
  disk1 !! path = Some (<[name := content]> (default ∅ (disk !! path))).
Proof.
  unfold write_file. destruct outcome; [|discriminate..].
  intros [= _ <-]. unfold state_disk. apply lookup_insert_eq.
Qed.

(** What a [save_state] that returned [True] left under its path. *)
Lemma save_state_written self cond path disk disk' :
  save_state self cond path disk = (Returns true, disk') ->
  exists directory,
    disk' !! path = Some directory
    /\ directory !! "preprocessor_state.json"
       = Some (JsonFile (preprocessor_state self))
    /\ directory !! "transformers.pkl" = Some (PickleFile (transformers self))
    /\ directory !! "cache.json" = Some (JsonFile (cache self)).
Proof.
  intros Hsave. apply tryM_true_inv in Hsave.
  apply bindM_returns_inv in Hsave as (u0 & disk0 & _ & Hsave).
  apply bindM_returns_inv in Hsave as (u1 & disk1 & Hst & Hsave).
  apply bindM_returns_inv in Hsave as (u2 & disk2 & Htr & Hsave).
  apply bindM_returns_inv in Hsave as (u3 & disk3 & Hc & Hsave).
  injection Hsave as <-.
  apply write_file_returns in Hst, Htr, Hc.
  rewrite Hst in Htr. rewrite Htr in Hc.
  eexists. split; [exact Hc|]. cbn [default from_option id].
  split; [|split].
  - rewrite !lookup_insert_ne by discriminate. apply lookup_insert_eq.
  - rewrite lookup_insert_ne by discriminate. apply lookup_insert_eq.
  - apply lookup_insert_eq.
Qed.

Lemma load_state_complete undecodable directory st tr c other :
  directory !! "preprocessor_state.json" = Some (JsonFile st) ->
  directory !! "transformers.pkl" = Some (PickleFile tr) ->
  directory !! "cache.json" = Some (JsonFile c) ->
  load_state (files_in undecodable directory) other
  = (Returns true,
     set_cache c (set_transformers tr (set_preprocessor_state st other))).
Proof.
  intros Hst Htr Hc.
  unfold load_state, files_in, read_json, read_pickle, tryM, bindM, liftM.
  cbn. rewrite Hst, Htr, Hc. reflexivity.
Qed.

(** [transform] looks at the model type, the state record and the
    transformers, at nothing else of the object. *)
Lemma transform_same data a b :
  model_type a = model_type b ->
  transformers a = transformers b ->
  preprocessor_state a = preprocessor_state b ->
  (transform data a).1 = (transform data b).1.
Proof.
  intros Htype Htr Hst. unfold transform, tryM.
  rewrite !bindM_get. cbv beta. rewrite !bindM_lift, Hst.
  destruct (dict_get _ _ _) as [last_updated|e]; [|reflexivity].
  destruct (negb (truthy last_updated)); [reflexivity|].
  assert (Hrest : reads (do data' <~ _validate_and_convert_input data ;;;
                         do processed_data <~ process data' false ;;;
                         retM processed_data)).
  { apply reads_bind; [apply validate_reads|intros data'].
    apply reads_bind; [apply process_reads|intros m]. apply reads_ret. }
  destruct (Hrest a b Htype Htr) as [Hres _].
  destruct (bindM _ _ a) as [ra sa], (bindM _ _ b) as [rb sb].
  simpl in Hres. subst rb. destruct ra; reflexivity.
Qed.

(** What [save_state] wrote, [load_state] reads back: after a save that
    returned [True], loading from the same path into any preprocessor
    returns [True] and gives it the saved state record, transformers and
    cache (its model type is not compared with the saved one); where the
    model types agree, [transform] answers as on the saved preprocessor. *)
Theorem saved_state_loads_back self cond path disk disk' undecodable other :
  save_state self cond path disk = (Returns true, disk') ->
  load_state_from undecodable disk' path other
  = (Returns true, restored_from self other)
  /\ (model_type other = model_type self ->
      forall data,
        (transform data (restored_from self other)).1
        = (transform data self).1).
Proof.
  intros Hsave.
  destruct (save_state_written _ _ _ _ _ Hsave)
    as (directory & Hdir & Hst & Htr & Hc).
  split.
  - unfold load_state_from. rewrite Hdir. cbn [default].
    apply load_state_complete; assumption.
  - intros Htype data. apply transform_same; [exact Htype|reflexivity..].
Qed.

Lemma load_state_returns files self :
  exists flag self', load_state files self = (Returns flag, self').
Proof.
  unfold load_state, tryM.
  destruct (bindM _ _ self) as [[flag|e] self']; cbn; eauto.
Qed.

End StateOnDisk.

Section PersonaPersistence.
Context `{Interpreter} `{Transformers} `{Predictor}.
Import PersonaModel.

(** [PersonaModel.load] returns [True] exactly when the network and the
    model state are read (and the test prediction passes, when asked for):
    what [load_state] of the preprocessor returned is not looked at. *)
Theorem persona_load_ignores_preprocessor_flag inputs verify_integrity self :
  (load inputs verify_integrity self).1 = Returns true
  <-> exists net st,
        keras_model inputs = Returns net
        /\ model_state_npy inputs = Returns st
        /\ (verify_integrity = true -> succeeded (integrity inputs net) = true).
Proof.
  unfold load, tryM.
  rewrite bindM_lift.
  destruct (keras_model inputs) as [net|e]; cbn.
  2:{ split; [discriminate|]. intros (? & ? & ? & _). discriminate. }
  unfold bindM at 1. unfold modify at 1.
  unfold bindM at 1. unfold on_preprocessor at 1.
  destruct (load_state_returns (preprocessor_files inputs)
              (preprocessor (set_model net self))) as (flag & p & ->).
  unfold liftM, bindM, retM. cbv beta iota.
  destruct (model_state_npy inputs) as [st|e].
  2:{ split; [discriminate|]. intros (? & ? & _ & ? & _). discriminate. }
  destruct verify_integrity.
  - destruct (integrity inputs net) as [[]|e] eqn:Hcheck; cbn.
    + split; [|reflexivity]. intros _. exists net, st.
      rewrite Hcheck. auto.
    + split; [discriminate|]. intros (net' & st' & [= <-] & _ & Hok).
      rewrite Hcheck in Hok. specialize (Hok eq_refl). discriminate.
  - cbn. split; [|reflexivity]. intros _. exists net, st.
    repeat split; discriminate.
Qed.

Lemma save_state_returns (p : DataPreprocessor.t) cond path disk :
  exists flag disk',
    DataPreprocessor.save_state p cond path disk = (Returns flag, disk').
Proof.
  unfold DataPreprocessor.save_state, tryM.
  destruct (bindM _ _ disk) as [[flag|e] disk']; cbn; eauto.
Qed.

(** [PersonaModel.save] returns [True] exactly when the network and the
    model state are written: what [save_state] of the preprocessor
    returned is not looked at. *)
Theorem persona_save_ignores_preprocessor_flag
    self keras_save cond state_save path disk :
  (save self keras_save cond state_save path disk).1 = Returns true
  <-> succeeded keras_save = true /\ succeeded state_save = true.
Proof.
  unfold save, tryM. rewrite bindM_lift.
  destruct keras_save as [u|e]; cbn [succeeded].
  2:{ cbn. split; [discriminate|]. intros [? _]. discriminate. }
  unfold bindM at 1.
  destruct (save_state_returns (preprocessor self) cond
              (path +:+ "/preprocessor") disk) as (flag & disk' & ->).
  rewrite bindM_lift.
  destruct state_save as [u'|e]; cbn.
  - split; auto.
  - split; [discriminate|]. intros [_ ?]. discriminate.
Qed.

End PersonaPersistence.

(* ===================================================================== *)
(** * The prediction cache *)
(* ===================================================================== *)

Section PersonaCache.
Context `{Interpreter} `{Transformers} `{Predictor}.
Import PersonaModel.

Lemma set_preprocessor_same (self : t) :
  set_preprocessor (preprocessor self) self = self.
Proof. destruct self. reflexivity. Qed.

(** A call of a preprocessor method that raises and changes nothing. *)
Lemma on_preprocessor_raises {A} (c : M DataPreprocessor.t A) self e :
  c (preprocessor self) = (Raises e, preprocessor self) ->
  on_preprocessor c self = (Raises e, self).
Proof.
  intros Hc. unfold on_preprocessor. rewrite Hc, set_preprocessor_same.
  reflexivity.
Qed.

Lemma predict_cached input key use_cache self answer :
  tobytes_hash input = Returns key ->
  use_cache = true ->
  _prediction_cache self !! key = Some answer ->
  predict input use_cache self = (Returns answer, self).
Proof.
  intros Hkey -> Hhit. unfold predict, tryM, bindM, liftM, getM, retM.
  rewrite Hkey, Hhit. reflexivity.
Qed.

(** What a returning [predict] with the cache in use leaves in the cache. *)
Lemma predict_caches_answer a self answer self' :
  predict (InArray a) true self = (Returns answer, self') ->
  _prediction_cache self' !! hash_of_bytes a = Some answer.
Proof.
  unfold predict, tryM. intros Hcall.
  destruct (bindM _ _ self) as [[r|e] s0] eqn:Hbody; [|discriminate].
  injection Hcall as -> ->.
  unfold bindM at 1, liftM at 1, tobytes_hash in Hbody.
  unfold bindM at 1, getM in Hbody.
  destruct (_prediction_cache self !! hash_of_bytes a) as [cached|] eqn:Hhit.
  { injection Hbody as <- <-. exact Hhit. }
  apply bindM_inv in Hbody as [(? & ? & ?)|(processed & s1 & _ & Hbody)];
    [discriminate|].
  apply bindM_inv in Hbody as [(? & ? & ?)|(outputs & s2 & _ & Hbody)];
    [discriminate|].
  apply bindM_inv in Hbody as [(? & ? & ?)|(threshold & s3 & _ & Hbody)];
    [discriminate|].
  apply bindM_inv in Hbody as [(? & ? & ?)|(valid & s4 & _ & Hbody)];
    [discriminate|].
  unfold bindM, getM, modify, retM in Hbody. injection Hbody as <- <-.
  simpl. apply lookup_insert_eq.
Qed.

(** The prediction cache is keyed by the hash of the input's bytes alone:
    after a [predict] that returned with the cache in use, an input with
    the same hash gets the same answer back, and the model is as it was. *)
Theorem predict_repeats_cached_answer a b self answer self' :
  predict (InArray a) true self = (Returns answer, self') ->
  hash_of_bytes b = hash_of_bytes a ->
  predict (InArray b) true self' = (Returns answer, self').
Proof.
  intros Hfirst Hhash. apply (predict_cached _ (hash_of_bytes b));
    [reflexivity|reflexivity|].
  rewrite Hhash. eapply predict_caches_answer, Hfirst.
Qed.


(** [predict] leaves the model as it was, but for the cache entry of the
    answer it returns. *)
Theorem predict_changes_the_cache_only input use_cache self r self' :
  predict input use_cache self = (r, self') ->
  self' = self
  \/ (use_cache = true
      /\ exists a answer,
           input = InArray a /\ r = Returns answer
           /\ self' = set_prediction_cache
                        (<[hash_of_bytes a := answer]> (_prediction_cache self))
                        self).
Proof.
  unfold predict, tryM. intros Hcall.
  destruct (bindM _ _ self) as [r0 s0] eqn:Hrun.
  assert (Hfoot : s0 = self
            \/ (use_cache = true
                /\ exists a answer,
                     input = InArray a /\ r0 = Returns answer
                     /\ s0 = set_prediction_cache
                               (<[hash_of_bytes a := answer]>
                                  (_prediction_cache self)) self)).
  { clear Hcall.
    unfold bindM at 1, liftM at 1 in Hrun.
    destruct (tobytes_hash input) as [key|e] eqn:Hkey;
      [|injection Hrun as _ <-; left; reflexivity].
    unfold bindM at 1, getM in Hrun.
    destruct (if use_cache then _ else _) as [cached|];
      [injection Hrun as _ <-; left; reflexivity|].
    assert (Hpre : forall rp sp,
              on_preprocessor (DataPreprocessor.transform input) self = (rp, sp)
              -> sp = self).
    { intros rp sp Hon. unfold on_preprocessor in Hon.
      pose proof (transform_reads_only input (preprocessor self)) as Hpure.
      destruct (DataPreprocessor.transform input (preprocessor self))
        as [rt pt]. simpl in Hpure. subst pt. injection Hon as _ <-.
      apply set_preprocessor_same. }
    unfold bindM at 1 in Hrun.
    destruct (on_preprocessor _ self) as [[processed|e] s1] eqn:Hon;
      pose proof (Hpre _ _ eq_refl) as ->;
      [|injection Hrun as _ <-; left; reflexivity].
    unfold bindM at 1, liftM at 1 in Hrun.
    destruct (network_predict_pair _ _) as [outputs|e];
      [|injection Hrun as _ <-; left; reflexivity].
    cbv zeta in Hrun. unfold bindM at 1, liftM at 1 in Hrun.
    destruct (confidence_threshold _) as [threshold|e];
      [|injection Hrun as _ <-; left; reflexivity].
    unfold bindM at 1, liftM at 1 in Hrun.
    destruct (boolean_index _ _) as [valid|e];
      [|injection Hrun as _ <-; left; reflexivity].
    destruct use_cache.
    - unfold bindM, getM, modify, retM in Hrun. injection Hrun as <- <-.
      right. split; [reflexivity|].
      destruct input as [as_array as_frame|a|df|]; try discriminate.
      injection Hkey as <-. eauto.
    - unfold bindM, retM in Hrun. injection Hrun as _ <-. left. reflexivity. }
  destruct r0 as [a0|e].
  - injection Hcall as <- <-. exact Hfoot.
  - unfold liftM in Hcall. injection Hcall as <- <-.
    destruct Hfoot as [->|(_ & a & answer & _ & [=] & _)].
    left. reflexivity.
Qed.


End PersonaCache.

(* ===================================================================== *)
(** * The bounds of the selection *)
(* ===================================================================== *)

Section SelectionBounds.
Import RecommendationModel.
Lemma scan_index predictions features selected candidates :
  forall best_score best_idx score j,
    scan predictions features selected candidates best_score best_idx
      = Returns (score, Some j) ->
    best_idx = Some j \/ (j ∈ candidates /\ j ∉ selected).
Proof.
  induction candidates as [|i rest IH]; intros best_score best_idx score j Hscan.
  - injection Hscan as _ ->. left. reflexivity.
  - simpl in Hscan. case_bool_decide as Hin.
    + destruct (IH _ _ _ _ Hscan) as [->|[Hj Hfree]]; [left; reflexivity|].
      right. split; [apply list_elem_of_further, Hj|exact Hfree].
    + destruct (candidate_score predictions features selected i) as [sc|e];
        [|discriminate]. simpl in Hscan.
      destruct (PrimFloat.ltb best_score sc).
      * destruct (IH _ _ _ _ Hscan) as [[= <-]|[Hj Hfree]].
        -- right. split; [apply list_elem_of_here|exact Hin].
        -- right. split; [apply list_elem_of_further, Hj|exact Hfree].
      * destruct (IH _ _ _ _ Hscan) as [->|[Hj Hfree]]; [left; reflexivity|].
        right. split; [apply list_elem_of_further, Hj|exact Hfree].
Qed.

Lemma best_candidate_index predictions features selected j :
  best_candidate predictions features selected = Returns (Some j) ->
  j < length predictions /\ j ∉ selected.
Proof.
  unfold best_candidate. intros Hbest.
  destruct (scan predictions features selected (seq 0 (length predictions))
              neg_infinity None) as [[score idx]|e] eqn:Hscan; [|discriminate].
  simpl in Hbest. injection Hbest as ->.
  destruct (scan_index _ _ _ _ _ _ _ _ Hscan) as [[=]|[Hj Hfree]].
  apply elem_of_seq in Hj. split; [lia|exact Hfree].
Qed.

Lemma selected_fits (selected : list nat) m :
  NoDup selected -> Forall (fun j => j < m) selected -> length selected <= m.
Proof.
  intros Hnd Hsel.
  assert (Hsub : selected ⊆ seq 0 m).
  { intros j Hj. apply elem_of_seq. rewrite Forall_forall in Hsel.
    specialize (Hsel j Hj). lia. }
  pose proof (submseteq_length _ _ (NoDup_submseteq _ _ Hnd Hsub)) as Hle.
  rewrite length_seq in Hle. exact Hle.
Qed.

Lemma selection_loop_beyond_pool predictions features (n : Z) :
  (Z.of_nat (length predictions) < n)%Z ->
  forall fuel selected chosen,
    NoDup selected ->
    Forall (fun j => j < length predictions) selected ->
    selection_loop fuel predictions features n selected <> Returns (Some chosen).
Proof.
  intros Hn. induction fuel as [|fuel IH]; intros selected chosen Hnd Hsel;
    pose proof (selected_fits selected _ Hnd Hsel) as Hlen;
    rewrite selection_loop_unfold;
    (replace (Z.of_nat (length selected) <? n)%Z with true
       by (symmetry; apply Z.ltb_lt; lia)); simpl negb; cbv iota.
  - discriminate.
  - destruct (best_candidate predictions features selected) as [[i|]|e] eqn:Hbest;
      simpl.
    + destruct (best_candidate_index _ _ _ _ Hbest) as [Hi Hfree].
      apply IH.
      * apply NoDup_app. split; [exact Hnd|]. split; [|apply NoDup_singleton].
        intros x Hx Hx'. apply list_elem_of_singleton in Hx'. subst x. auto.
      * apply Forall_app. split; [exact Hsel|]. apply Forall_singleton. exact Hi.
    + apply IH; assumption.
    + discriminate.
Qed.

(** Asked for more items than the pool holds, the selection never ends:
    once every candidate is selected no round finds an index, and the
    loop has no exit for that. Whatever the number of rounds, neither the
    loop nor [_enhance_diversity] has returned a selection. *)
Theorem selection_never_ends_beyond_pool predictions features (n : Z) :
  (Z.of_nat (length predictions) < n)%Z ->
  forall fuel,
    (forall chosen,
        selected_within fuel predictions features n <> Returns (Some chosen))
    /\ (forall picked,
          _enhance_diversity fuel predictions features n <> Returns (Some picked)).
Proof.
  intros Hn fuel.
  assert (Hloop : forall chosen,
            selected_within fuel predictions features n <> Returns (Some chosen)).
  { intros chosen. apply selection_loop_beyond_pool;
      [exact Hn|apply NoDup_nil_2|apply Forall_nil_2]. }
  split; [exact Hloop|]. intros picked. unfold _enhance_diversity.
  destruct (selected_within fuel predictions features n) as [[chosen|]|e];
    simpl; [|discriminate|discriminate].
  exfalso. apply (Hloop chosen). reflexivity.
Qed.
End SelectionBounds.

(* ===================================================================== *)
(** * Training and updates of the recommendation model *)
(* ===================================================================== *)

Section RecommenderFacts.
Context `{Interpreter} `{Transformers} `{Predictor}.
Import RecommendationModel.

Lemma rec_set_preprocessor_same (self : t) :
  set_preprocessor (preprocessor self) self = self.
Proof. destruct self. reflexivity. Qed.

Lemma rec_on_transform data self :
  on_preprocessor (DataPreprocessor.transform data) self
  = ((DataPreprocessor.transform data (preprocessor self)).1, self).
Proof.
  unfold on_preprocessor.
  pose proof (transform_reads_only data (preprocessor self)) as Hpure.
  destruct (DataPreprocessor.transform data (preprocessor self)) as [r p].
  simpl in Hpure. subst p. rewrite rec_set_preprocessor_same. reflexivity.
Qed.

(** [update] changes the network and the update history, nothing else:
    the model is not marked trained, its training count and metadata stay,
    the preprocessor is only read. The history grows by the entry that is
    returned. *)
Theorem update_touches_history_only self data now r self' :
  update data now self = (r, self') ->
  metadata self' = metadata self
  /\ preprocessor self' = preprocessor self
  /\ is_trained (model_state self') = is_trained (model_state self)
  /\ training_iterations (model_state self')
     = training_iterations (model_state self)
  /\ match r with
     | Returns metrics =>
         update_history (model_state self')
         = (update_history (model_state self) ++ [metrics])%list
         /\ timestamp metrics = now
     | Raises e =>
         update_history (model_state self') = update_history (model_state self)
         /\ exn_class e = RuntimeError
     end.
Proof.
  unfold update, tryM. intros Hcall.
  destruct (bindM _ _ self) as [r0 s0] eqn:Hrun.
  assert (Hfoot :
    metadata s0 = metadata self
    /\ preprocessor s0 = preprocessor self
    /\ is_trained (model_state s0) = is_trained (model_state self)
    /\ training_iterations (model_state s0)
       = training_iterations (model_state self)
    /\ match r0 with
       | Returns metrics =>
           update_history (model_state s0)
           = (update_history (model_state self) ++ [metrics])%list
           /\ timestamp metrics = now
       | Raises e =>
           update_history (model_state s0) = update_history (model_state self)
       end).
  { clear Hcall. unfold bindM at 1 in Hrun. rewrite rec_on_transform in Hrun.
    destruct (DataPreprocessor.transform data (preprocessor self)).1
      as [processed|e]; [|injection Hrun as <- <-; auto].
    cbv zeta in Hrun. unfold bindM at 1, liftM at 1 in Hrun.
    destruct (last_column processed) as [y|e];
      [|injection Hrun as <- <-; auto].
    unfold bindM at 1, getM in Hrun. unfold bindM at 1, liftM at 1 in Hrun.
    destruct (network_fit _ _) as [fitted|e];
      [|injection Hrun as <- <-; auto].
    unfold bindM at 1, modify at 1 in Hrun.
    unfold bindM at 1, liftM at 1 in Hrun.
    destruct (first_metric _ "loss") as [loss_first|e];
      [|injection Hrun as <- <-; auto].
    unfold bindM at 1, liftM at 1 in Hrun.
    destruct (PersonaModel.final_metric _ "loss") as [loss_last|e];
      [|injection Hrun as <- <-; auto].
    unfold bindM at 1, liftM at 1 in Hrun.
    destruct (PersonaModel.final_metric _ "auc") as [auc_last|e];
      [|injection Hrun as <- <-; auto].
    unfold bindM at 1, liftM at 1 in Hrun.
    destruct (first_metric _ "auc") as [auc_first|e];
      [|injection Hrun as <- <-; auto].
    unfold bindM, getM, modify, retM in Hrun. injection Hrun as <- <-.
    simpl. auto 10. }
  destruct r0 as [metrics|e].
  - injection Hcall as <- <-. exact Hfoot.
  - unfold liftM in Hcall. injection Hcall as <- <-.
    destruct Hfoot as (? & ? & ? & ? & ?). repeat split; assumption.
Qed.


Lemma rec_on_preprocessor_state {A} (c : M DataPreprocessor.t A) self r s1 :
  on_preprocessor c self = (r, s1) ->
  model_state s1 = model_state self /\ metadata s1 = metadata self
  /\ model s1 = model self.
Proof.
  unfold on_preprocessor. destruct (c (preprocessor self)) as [r0 p].
  intros [= _ <-]. auto.
Qed.

(** [train] marks the model trained as soon as [fit] has returned, whether
    or not the call then returns: the metrics are read from the history
    afterwards. When [fit] was not reached or did not return, the model
    state and the metadata are as before. (What a [fit] that raises has
    done to the weights by then is not stated.) *)
Theorem train_marks_trained_when_fit_returns
    self data epochs batch_size stats_time fitted_at now log_dir r self' :
  train data epochs batch_size stats_time fitted_at now log_dir self
    = (r, self') ->
  (is_trained (model_state self') = true
   /\ training_iterations (model_state self')
      = (training_iterations (model_state self) + 1)%Z
   /\ update_history (model_state self') = update_history (model_state self)
   /\ last_trained (metadata self') = Some now
   /\ (exists processed p' y history,
         DataPreprocessor.fit_transform data stats_time fitted_at
           (preprocessor self) = (Returns processed, p')
         /\ last_column processed = Returns y
         /\ network_fit (model self)
              (train_fit_call (all_but_last_column processed) y epochs
                              batch_size log_dir)
            = Returns (model self', history))
   /\ match r with
      | Returns metrics => performance_metrics (metadata self') = metrics
      | Raises e =>
          performance_metrics (metadata self')
          = performance_metrics (metadata self)
          /\ exn_class e = RuntimeError
      end)
  \/ (model_state self' = model_state self
      /\ metadata self' = metadata self
      /\ exists msg, r = Raises (Exn RuntimeError msg)).
Proof.
  unfold train, tryM. intros Hcall.
  destruct (bindM _ _ self) as [r0 s0] eqn:Hrun.
  assert (Hfoot :
    (is_trained (model_state s0) = true
     /\ training_iterations (model_state s0)
        = (training_iterations (model_state self) + 1)%Z
     /\ update_history (model_state s0) = update_history (model_state self)
     /\ last_trained (metadata s0) = Some now
     /\ (exists processed p' y history,
           DataPreprocessor.fit_transform data stats_time fitted_at
             (preprocessor self) = (Returns processed, p')
           /\ last_column processed = Returns y
           /\ network_fit (model self)
                (train_fit_call (all_but_last_column processed) y epochs
                                batch_size log_dir)
              = Returns (model s0, history))
     /\ match r0 with
        | Returns metrics => performance_metrics (metadata s0) = metrics
        | Raises e =>
            performance_metrics (metadata s0)
            = performance_metrics (metadata self)
        end)
    \/ (model_state s0 = model_state self
        /\ metadata s0 = metadata self
        /\ model s0 = model self
        /\ exists e, r0 = Raises e)).
  { clear Hcall. unfold bindM at 1 in Hrun.
    destruct (on_preprocessor _ self) as [[processed|e] s1] eqn:Hpre;
      destruct (rec_on_preprocessor_state _ _ _ _ Hpre) as (Hst & Hmd & Hnet);
      [|injection Hrun as <- <-; right; eauto].
    unfold on_preprocessor in Hpre.
    destruct (DataPreprocessor.fit_transform _ _ _ (preprocessor self))
      as [rp p'] eqn:Hfit.
    injection Hpre as -> <-.
    cbv zeta in Hrun. rewrite bindM_lift in Hrun.
    destruct (last_column processed) as [y|e] eqn:Hy;
      [|injection Hrun as <- <-; right; eauto].
    rewrite bindM_get, bindM_lift in Hrun. simpl model in Hrun.
    destruct (network_fit _ _) as [[net history]|e] eqn:Hnet0;
      [|injection Hrun as <- <-; right; eauto].
    left.
    change (bindM (modify ?f) ?k ?s) with (k tt (f s)) in Hrun.
    cbv beta in Hrun. rewrite bindM_get in Hrun.
    change (bindM (modify ?f) ?k ?s) with (k tt (f s)) in Hrun.
    cbv beta in Hrun.
    change (bindM (modify ?f) ?k ?s) with (k tt (f s)) in Hrun.
    cbv beta in Hrun. simpl fst in Hrun. simpl snd in Hrun.
    assert (Hdone : forall r1 s1,
              model s1 = net ->
              is_trained (model_state s1) = true ->
              training_iterations (model_state s1)
                = (training_iterations (model_state self) + 1)%Z ->
              update_history (model_state s1)
                = update_history (model_state self) ->
              last_trained (metadata s1) = Some now ->
              match r1 with
              | Returns metrics => performance_metrics (metadata s1) = metrics
              | Raises _ =>
                  performance_metrics (metadata s1)
                  = performance_metrics (metadata self)
              end ->
              is_trained (model_state s1) = true
              /\ training_iterations (model_state s1)
                 = (training_iterations (model_state self) + 1)%Z
              /\ update_history (model_state s1)
                 = update_history (model_state self)
              /\ last_trained (metadata s1) = Some now
              /\ (exists processed0 p'0 y0 history0,
                    (Returns processed, p') = (Returns processed0, p'0)
                    /\ last_column processed0 = Returns y0
                    /\ network_fit (model self)
                         (train_fit_call (all_but_last_column processed0) y0
                                         epochs batch_size log_dir)
                       = Returns (model s1, history0))
              /\ match r1 with
                 | Returns metrics =>
                     performance_metrics (metadata s1) = metrics
                 | Raises _ =>
                     performance_metrics (metadata s1)
                     = performance_metrics (metadata self)
                 end).
    { intros r1 s1 Hm ? ? ? ? ?. do 4 (split; [assumption|]).
      split; [|assumption]. rewrite Hm.
      exists processed, p', y, history. auto. }
    repeat (rewrite bindM_lift in Hrun;
            destruct (PersonaModel.final_metric history _) as [?|err];
            [|injection Hrun as <- <-; apply (Hdone (Raises err));
              reflexivity]).
    cbv zeta in Hrun.
    change (bindM (modify ?f) ?k ?s) with (k tt (f s)) in Hrun.
    unfold retM in Hrun. injection Hrun as <- <-.
    apply (Hdone (Returns _)); reflexivity. }
  destruct r0 as [metrics|e].
  - injection Hcall as <- <-.
    destruct Hfoot as [Hdone|(_ & _ & _ & e & [=])]. left. exact Hdone.
  - unfold liftM in Hcall. injection Hcall as <- <-.
    destruct Hfoot as [(? & ? & ? & ? & ? & ?)|(? & ? & ? & _)].
    + left. do 5 (split; [assumption|]). split; [assumption|reflexivity].
    + right. do 2 (split; [assumption|]). eauto.
Qed.


End RecommenderFacts.

Section UnfittedFacts.
Context `{Interpreter} `{Transformers} `{Predictor}.

(** Every model call that transforms data stops at a preprocessor that is
    not fitted: the preprocessor's error comes back as a [RuntimeError] with
    the prefixes of the calls it crossed, and the model is as before. *)
Theorem unfitted_preprocessor_stops_the_models (p : DataPreprocessor.t) :
  DataPreprocessor.unfitted p ->
  (forall self data now,
      RecommendationModel.preprocessor self = p ->
      RecommendationModel.update data now self
      = (raise RuntimeError
           ("Model update failed: " +:+ DataPreprocessor.unfitted_message),
         self))
  /\ (forall self X_train y_train epochs batch_size stats_time fitted_at now,
        PersonaModel.preprocessor self = p ->
        PersonaModel.train X_train y_train epochs batch_size true
                           stats_time fitted_at now self
        = (raise RuntimeError
             ("Model training failed: " +:+ DataPreprocessor.unfitted_message),
           self))
  /\ (forall self a use_cache,
        PersonaModel.preprocessor self = p ->
        (use_cache = true ->
         PersonaModel._prediction_cache self !! hash_of_bytes a = None) ->
        PersonaModel.predict (InArray a) use_cache self
        = (raise RuntimeError
             ("Model prediction failed: " +:+ DataPreprocessor.unfitted_message),
           self)).
Proof.
  intros Hunfitted. split; [|split].
  - intros self data now <-.
    unfold RecommendationModel.update, tryM. unfold bindM at 1.
    rewrite rec_on_transform.
    rewrite (transform_when_unfitted _ data Hunfitted). reflexivity.
  - intros self X_train y_train epochs batch_size stats_time fitted_at now <-.
    unfold PersonaModel.train, tryM. unfold bindM at 1. simpl negb. cbv iota.
    rewrite (on_preprocessor_raises _ _ _
               (transform_when_unfitted _ X_train Hunfitted)).
    reflexivity.
  - intros self a use_cache <- Hmiss.
    assert (Hlookup : (if use_cache
                       then PersonaModel._prediction_cache self
                              !! hash_of_bytes a
                       else None) = None).
    { destruct use_cache; [apply Hmiss|]; reflexivity. }
    unfold PersonaModel.predict, tryM.
    rewrite bindM_lift. simpl PersonaModel.tobytes_hash. cbv iota.
    rewrite bindM_get, Hlookup. unfold bindM at 1.
    rewrite (on_preprocessor_raises _ _ _
               (transform_when_unfitted _ (InArray a) Hunfitted)).
    reflexivity.
Qed.
End UnfittedFacts.

(* ===================================================================== *)
(** * Construction *)
(* ===================================================================== *)

Section Constructors.
Context `{Interpreter} `{Transformers} `{Predictor}.

Lemma reraise_as_returns {A} k prefix (r : result A) a :
  reraise_as k prefix r = Returns a -> r = Returns a.
Proof. destruct r; [intros [= ->]; reflexivity|discriminate]. Qed.

Lemma bind_returns_inv {A B} (r : result A) (k : A -> result B) b :
  r ≫= k = Returns b -> exists a, r = Returns a /\ k a = Returns b.
Proof. destruct r as [a|e]; [eauto|discriminate]. Qed.

(** [build_model] of the persona model stops at its first statement. *)
Lemma persona_build_model_raises assembled :
  PersonaModel.build_model assembled
  = raise RuntimeError
      "Model architecture build failed: 'DataPreprocessor' object has no attribute 'NUMERICAL_FEATURES'".
Proof. reflexivity. Qed.

Lemma persona_init_raises files merge_error env custom_config created_at
    assembled :
  exists msg,
    PersonaModel.__init__ files merge_error env custom_config created_at
      assembled
    = raise RuntimeError ("Model initialization failed: " +:+ msg).
Proof.
  unfold PersonaModel.__init__.
  destruct (ModelConfig.__init__ files merge_error env) as [config|e];
    cbn [mbind result_bind reraise_as]; [|eauto].
  destruct (ModelConfig.get_recommendation_config config).1 as [section|e];
    cbn [mbind result_bind reraise_as]; [|eauto].
  destruct (match custom_config with Some _ => _ | None => _ end)
    as [model_config|e]; cbn [mbind result_bind reraise_as]; [|eauto].
  destruct (DataPreprocessor.__init__ _ _ _ _) as [preprocessor|e];
    cbn [mbind result_bind reraise_as]; [|eauto].
  rewrite persona_build_model_raises. cbn. eauto.
Qed.

(** [PersonaModel(env, custom_config)] raises a [RuntimeError] whatever
    the environment, the configuration files and the custom configuration
    are: where nothing fails earlier, [build_model] reads
    [self.preprocessor.NUMERICAL_FEATURES], a constant of the module and
    not an attribute of the object. *)
Theorem persona_model_never_constructs files merge_error env custom_config
    created_at assembled :
  exists msg,
    PersonaModel.__init__ files merge_error env custom_config created_at
      assembled
    = raise RuntimeError ("Model initialization failed: " +:+ msg).
Proof. apply persona_init_raises. Qed.

(** A [RecommendationModel] is constructed only over a recommendation
    section that is a mapping with [user_features] and [item_features]
    (keys that the validation does not ask for); it is then untrained,
    with empty metrics and update history and a preprocessor that is not
    fitted. *)
Theorem recommendation_model_as_constructed gpu_setup files merge_error env
    preprocessor_created_at created_at keras m :
  RecommendationModel.__init__ gpu_setup files merge_error env
    preprocessor_created_at created_at keras = Returns m ->
  exists config section users items,
    ModelConfig.__init__ files merge_error env = Returns config
    /\ (ModelConfig.get_recommendation_config config).1
       = Returns (VDict section)
    /\ section !! "user_features" = Some users
    /\ section !! "item_features" = Some items
    /\ RecommendationModel.assembled keras users items
       = Returns (RecommendationModel.model m)
    /\ RecommendationModel.model_state m
       = RecommendationModel.Model_state false 0 []
    /\ RecommendationModel.metadata m
       = RecommendationModel.Metadata "1.0.0" created_at None ∅
    /\ DataPreprocessor.unfitted (RecommendationModel.preprocessor m).
Proof.
  unfold RecommendationModel.__init__. intros Hinit.
  apply reraise_as_returns in Hinit.
  apply bind_returns_inv in Hinit as (u & _ & Hinit).
  apply bind_returns_inv in Hinit as (config & Hconfig & Hinit).
  apply bind_returns_inv in Hinit as (p & Hp & Hinit).
  apply bind_returns_inv in Hinit as (net & Hnet & Hinit).
  injection Hinit as <-.
  unfold RecommendationModel.build_model in Hnet.
  destruct (ModelConfig.get_recommendation_config config) as [got config']
    eqn:Hgot.
  cbn [fst] in Hnet. apply reraise_as_returns in Hnet.
  apply bind_returns_inv in Hnet as (model_config & -> & Hnet).
  apply bind_returns_inv in Hnet as (users & Husers & Hnet).
  apply bind_returns_inv in Hnet as (u1 & _ & Hnet).
  apply bind_returns_inv in Hnet as (items & Hitems & Hnet).
  apply bind_returns_inv in Hnet as (u2 & _ & Hnet).
  destruct model_config as [s|l|section]; try discriminate.
  exists config, section, users, items. cbn.
  unfold getitem in Husers, Hitems.
  destruct (section !! "user_features") as [v1|]; [|discriminate].
  destruct (section !! "item_features") as [v2|]; [|discriminate].
  injection Husers as ->. injection Hitems as ->.
  split; [exact Hconfig|]. split; [rewrite Hgot; reflexivity|].
  repeat split; try assumption; try reflexivity.
  eapply init_unfitted, Hp.
Qed.

(** Which configuration a [DataPreprocessor] needs once [ModelConfig(env)]
    has returned: none for the sentiment and the anomaly type (their
    sections are never read); a recommendation section that validates; an
    nlp section that validates and is a mapping whose [tokenizer_settings]
    is a mapping. Any other model type is refused. *)
Theorem preprocessor_construction cfg model_type env created_at :
  succeeded (DataPreprocessor.__init__ (Returns cfg) model_type env created_at)
  = true
  <-> model_type = "sentiment" \/ model_type = "anomaly"
      \/ (model_type = "recommendation"
          /\ succeeded (ModelConfig.get_recommendation_config cfg).1 = true)
      \/ (model_type = "nlp"
          /\ exists section settings,
               (ModelConfig.get_nlp_config cfg).1 = Returns (VDict section)
               /\ default (VDict ∅) (section !! "tokenizer_settings")
                  = VDict settings).
Proof.
  unfold DataPreprocessor.__init__.
  destruct (decide (model_type = "recommendation")) as [->|Hrec].
  { cbn. unfold DataPreprocessor._initialize_model_specific_components,
      tryM, bindM, getM, DataPreprocessor.with_config. cbn.
    destruct (ModelConfig.get_recommendation_config cfg) as [[v|e] c']; cbn.
    - split; [intros _; right; right; left; auto|reflexivity].
    - split; [discriminate|].
      intros [?|[?|[[_ ?]|[? _]]]]; discriminate. }
  destruct (decide (model_type = "nlp")) as [->|Hnlp].
  { cbn. unfold DataPreprocessor._initialize_model_specific_components,
      tryM, bindM, getM, DataPreprocessor.with_config, liftM. cbn.
    destruct (ModelConfig.get_nlp_config cfg) as [[v|e] c']; cbn.
    2:{ split; [discriminate|].
        intros [?|[?|[[? _]|[_ (? & ? & ? & _)]]]]; discriminate. }
    destruct v as [s|l|section]; cbn.
    1,2: split; [discriminate|];
         intros [?|[?|[[? _]|[_ (? & ? & ? & _)]]]]; discriminate.
    destruct (default (VDict ∅) (section !! "tokenizer_settings"))
      as [s|l|settings] eqn:Hsettings; cbn.
    1,2: split; [discriminate|];
         intros [?|[?|[[? _]|[_ (? & ? & [= <-] & Hd)]]]];
         try discriminate; rewrite Hsettings in Hd; discriminate.
    split; [|reflexivity]. intros _. right; right; right.
    split; [reflexivity|]. eauto. }
  destruct (decide (model_type = "sentiment")) as [->|Hsent].
  { cbn. split; [auto|reflexivity]. }
  destruct (decide (model_type = "anomaly")) as [->|Hanom].
  { cbn. split; [auto|reflexivity]. }
  rewrite bool_decide_eq_false_2.
  2:{ unfold DataPreprocessor.SUPPORTED_MODEL_TYPES.
      rewrite !elem_of_cons, elem_of_nil. tauto. }
  cbn. split; [discriminate|]. tauto.
Qed.

Section Trainer.
Variable MODELS_PATH : string.
Import ModelTrainer.

Lemma trainer_init_inv files merge_error env model_type clock gpu_setup keras
    persona_assembled tr :
  __init__ files merge_error env model_type clock gpu_setup keras
    persona_assembled = Returns tr ->
  model_type = "recommendation"
  /\ identity tr = Make env "recommendation"
  /\ exists m,
       RecommendationModel.__init__ gpu_setup files merge_error env
         (model_preprocessor_created_at clock) (model_created_at clock) keras
       = Returns m
       /\ model tr = Recommender m.
Proof.
  unfold __init__. intros Hinit.
  apply reraise_as_returns in Hinit.
  apply bind_returns_inv in Hinit as (u & _ & Hinit).
  apply bind_returns_inv in Hinit as (config & _ & Hinit).
  apply bind_returns_inv in Hinit as (p & _ & Hinit).
  apply bind_returns_inv in Hinit as (m & Hm & Hinit).
  injection Hinit as <-.
  destruct (String.eqb model_type "recommendation") eqn:Htype.
  - apply String.eqb_eq in Htype as ->.
    apply bind_returns_inv in Hm as (rec & Hrec & [= <-]).
    cbn. eauto.
  - apply bind_returns_inv in Hm as (persona & Hpersona & _).
    destruct (persona_init_raises files merge_error env None
                (model_preprocessor_created_at clock) persona_assembled)
      as (msg & Hraises).
    rewrite Hraises in Hpersona. discriminate.
Qed.

Lemma load_model_without_load_method fs cond version tr m :
  model tr = Recommender m ->
  load_model MODELS_PATH fs cond version tr = (Returns false, tr).
Proof.
  intros Hmodel. unfold load_model, tryM.
  rewrite bindM_get. cbv beta zeta.
  destruct (bool_decide (is_Some (fs !! final_path MODELS_PATH version)));
    cbn [negb]; [|reflexivity].
  rewrite bindM_ret, bindM_lift.
  destruct (load_metadata _ _ _) as [md|e]; [|reflexivity].
  destruct (negb (String.eqb (md_model_type md) (model_type (identity tr))));
    [reflexivity|].
  rewrite bindM_ret.
  unfold bindM at 1. unfold load_model_part. rewrite Hmodel. reflexivity.
Qed.

(** A [ModelTrainer] is constructed for the model type ['recommendation']
    only (for the other types the persona model's constructor raises), and
    it holds a [RecommendationModel], which defines no [load]: [load_model]
    returns [False] for every version and leaves the trainer as it was. *)
Theorem constructed_trainer_never_loads files merge_error env model_type clock
    gpu_setup keras persona_assembled tr :
  __init__ files merge_error env model_type clock gpu_setup keras
    persona_assembled = Returns tr ->
  model_type = "recommendation"
  /\ (exists m, model tr = Recommender m)
  /\ forall fs cond version,
       load_model MODELS_PATH fs cond version tr = (Returns false, tr).
Proof.
  intros Hinit.
  destruct (trainer_init_inv _ _ _ _ _ _ _ _ _ Hinit)
    as (Htype & _ & m & _ & Hmodel).
  split; [exact Htype|]. split; [eauto|].
  intros fs cond version.
  apply (load_model_without_load_method _ _ _ _ m Hmodel).
Qed.

End Trainer.
End Constructors.

(* ===================================================================== *)
(** * What [save_model] leaves on the disk *)
(* ===================================================================== *)

Section SavedBundles.
Import ModelTrainer.
Variable MODELS_PATH : string.


(** What a written bundle holds: the metadata, over the preprocessor's
    files, over the model's files, over what the temporary directory held
    before. *)
Lemma write_bundle_contents self cond version fs fs1 :
  write_bundle MODELS_PATH self cond version fs = (Returns tt, fs1) ->
  exists before,
    (fs !! temp_path MODELS_PATH version = Some (Dir before)
     \/ (fs !! temp_path MODELS_PATH version = None /\ before = ∅))
    /\ fs1 !! temp_path MODELS_PATH version
       = Some (Dir ({[ "metadata.npy" :=
                        Pickled (Metadata version (model_type self) (env self)
                                   (clock cond) (framework_versions cond)) ]}
                    ∪ (left_behind (preprocessor_save_state cond)
                       ∪ (left_behind (model_save cond) ∪ before)))).
Proof.
  unfold write_bundle, bindM, makedirs, save_model_part, run_attempt, liftM,
    retM, np_save.
  destruct (makedirs_denied cond); [discriminate|].
  assert (Hdir : forall fs0 entries files,
            fs0 !! temp_path MODELS_PATH version = Some (Dir entries) ->
            write_files (temp_path MODELS_PATH version) files fs0
            !! temp_path MODELS_PATH version
            = Some (Dir (files ∪ entries))).
  { intros fs0 entries files H0. unfold write_files. rewrite H0.
    apply lookup_insert_eq. }
  destruct (fs !! temp_path MODELS_PATH version) as [[c|before]|] eqn:Htemp;
    [discriminate| |].
  - destruct (model_has_save self); [|discriminate]. simpl.
    destruct (reported (model_save cond)); simpl; [|discriminate].
    destruct (reported (preprocessor_save_state cond)); simpl; [|discriminate].
    destruct (metadata_save_failure cond); [discriminate|].
    intros [= <-]. exists before. split; [left; reflexivity|].
    apply Hdir, Hdir, Hdir, Htemp.
  - destruct (model_has_save self); [|discriminate]. simpl.
    destruct (reported (model_save cond)); simpl; [|discriminate].
    destruct (reported (preprocessor_save_state cond)); simpl; [|discriminate].
    destruct (metadata_save_failure cond); [discriminate|].
    intros [= <-]. exists ∅. split; [right; auto|].
    apply Hdir, Hdir, Hdir, lookup_insert_eq.
Qed.

Lemma os_remove_succeeded denied path fs fs' :
  os_remove denied path fs = (Returns tt, fs') ->
  (exists c, fs !! path = Some (File c)) /\ fs' = delete path fs.
Proof.
  unfold os_remove. destruct (fs !! path) as [[c|entries]|]; try discriminate.
  destruct denied; [discriminate|]. intros [= <-]. eauto.
Qed.

(** The renames and the cleanup, when all of them succeed. *)
Lemma install_bundle_succeeded cond version fs1 fs' new :
  fs1 !! temp_path MODELS_PATH version = Some (Dir new) -> new <> ∅ ->
  install_bundle MODELS_PATH cond version fs1 = (Returns tt, fs') ->
  (forall old, fs1 !! final_path MODELS_PATH version <> Some (Dir old))
  /\ fs' !! final_path MODELS_PATH version = Some (Dir new)
  /\ fs' !! temp_path MODELS_PATH version = None
  /\ fs' !! backup_path MODELS_PATH version = None.
Proof.
  intros Hnew Hfull Hrun.
  pose proof (temp_ne_final MODELS_PATH version) as Htf.
  pose proof (backup_ne_final MODELS_PATH version) as Hbf.
  unfold install_bundle in Hrun.
  unfold bindM at 1, path_exists at 1 in Hrun.
  destruct (fs1 !! final_path MODELS_PATH version) as [entry|] eqn:Hfinal.
  - rewrite bool_decide_eq_true_2 in Hrun by eauto.
    apply bindM_inv in Hrun as [(? & ? & ?)|([] & fs2 & Hback & Hrun)];
      [discriminate|].
    destruct (os_rename_succeeded _ _ _ _ _ Hback) as (e1 & He1 & -> & Hfree);
      [congruence|].
    rewrite Hfinal in He1. injection He1 as <-.
    assert (Hbt : backup_path MODELS_PATH version <> temp_path MODELS_PATH version).
    { intros Heq. rewrite Heq in Hfree. specialize (Hfree new Hnew).
      contradiction. }
    apply bindM_inv in Hrun as [(? & ? & ?)|([] & fs3 & Hinst & Hrun)];
      [discriminate|].
    destruct (os_rename_succeeded _ _ _ _ _ Hinst) as (e2 & He2 & -> & _);
      [exact Htf|].
    rewrite lookup_insert_ne, lookup_delete_ne, Hnew in He2 by congruence.
    injection He2 as <-.
    unfold bindM at 1, path_exists at 1 in Hrun.
    rewrite lookup_insert_ne, lookup_delete_ne, lookup_insert_eq in Hrun
      by congruence.
    rewrite bool_decide_eq_true_2 in Hrun by eauto.
    apply os_remove_succeeded in Hrun as [(c & Hc) ->].
    rewrite lookup_insert_ne, lookup_delete_ne, lookup_insert_eq in Hc
      by congruence.
    injection Hc as ->.
    split; [intros old; discriminate|].
    split; [rewrite lookup_delete_ne, lookup_insert_eq by congruence;
            reflexivity|].
    split; [rewrite lookup_delete_ne, lookup_insert_ne, lookup_delete_eq
              by congruence; reflexivity|].
    apply lookup_delete_eq.
  - rewrite bool_decide_eq_false_2 in Hrun by (intros [? [=]]).
    apply bindM_inv in Hrun as [(? & ? & ?)|([] & fs2 & [= <-] & Hrun)];
      [discriminate|].
    apply bindM_inv in Hrun as [(? & ? & ?)|([] & fs3 & Hinst & Hrun)];
      [discriminate|].
    destruct (os_rename_succeeded _ _ _ _ _ Hinst) as (e2 & He2 & -> & _);
      [exact Htf|].
    rewrite Hnew in He2. injection He2 as <-.
    split; [intros old; discriminate|].
    unfold bindM at 1, path_exists at 1 in Hrun.
    destruct (_ !! backup_path MODELS_PATH version) as [entry|] eqn:Hb.
    + rewrite bool_decide_eq_true_2 in Hrun by eauto.
      apply os_remove_succeeded in Hrun as [_ ->].
      split; [rewrite lookup_delete_ne, lookup_insert_eq by congruence;
              reflexivity|].
      split; [|apply lookup_delete_eq].
      destruct (decide (backup_path MODELS_PATH version
                        = temp_path MODELS_PATH version)) as [Heq|Hne].
      * rewrite Heq. apply lookup_delete_eq.
      * rewrite lookup_delete_ne, lookup_insert_ne, lookup_delete_eq
          by congruence. reflexivity.
    + rewrite bool_decide_eq_false_2 in Hrun by (intros [? [=]]).
      injection Hrun as <-.
      split; [apply lookup_insert_eq|].
      split; [|exact Hb].
      rewrite lookup_insert_ne, lookup_delete_eq by congruence. reflexivity.
Qed.

Lemma save_model_returned_true self cond version fs fs' :
  save_model MODELS_PATH self cond version fs = (Returns true, fs') ->
  exists fs1,
    write_bundle MODELS_PATH self cond version fs = (Returns tt, fs1)
    /\ install_bundle MODELS_PATH cond version fs1 = (Returns tt, fs').
Proof.
  unfold save_model, tryM. intros Hcall.
  destruct (bindM _ _ fs) as [[b|e] s0] eqn:Hbody; [|discriminate].
  injection Hcall as -> ->.
  apply bindM_inv in Hbody as [(? & ? & ?)|([] & fs1 & Hwrite & Hbody)];
    [discriminate|].
  apply bindM_inv in Hbody as [(? & ? & ?)|([] & fs2 & Hinst & Hbody)];
    [discriminate|].
  injection Hbody as <-. eauto.
Qed.

(** [save_model] returns [True] only for a version whose final path held
    no directory: the final path then holds the new bundle with its
    metadata, and neither the temporary nor the backup path is left. *)
Theorem save_model_succeeds_on_new_versions_only self cond version fs fs' :
  save_model MODELS_PATH self cond version fs = (Returns true, fs') ->
  (forall old, fs !! final_path MODELS_PATH version <> Some (Dir old))
  /\ (exists new,
        fs' !! final_path MODELS_PATH version = Some (Dir new)
        /\ new !! "metadata.npy"
           = Some (Pickled (Metadata version (model_type self) (env self)
                              (clock cond) (framework_versions cond))))
  /\ fs' !! temp_path MODELS_PATH version = None
  /\ fs' !! backup_path MODELS_PATH version = None.
Proof.
  intros Hcall.
  destruct (save_model_returned_true _ _ _ _ _ Hcall) as (fs1 & Hwrite & Hinst).
  destruct (write_bundle_contents _ _ _ _ _ Hwrite) as (before & _ & Hnew).
  assert (Hmeta : forall rest : gmap string content,
            ({[ "metadata.npy" :=
                  Pickled (Metadata version (model_type self) (env self)
                             (clock cond) (framework_versions cond)) ]} ∪ rest)
            !! "metadata.npy"
            = Some (Pickled (Metadata version (model_type self) (env self)
                               (clock cond) (framework_versions cond)))).
  { intros rest. apply lookup_union_Some_l, lookup_singleton_eq. }
  destruct (install_bundle_succeeded cond version fs1 fs' _ Hnew)
    as (Hold & Hfinal & Htemp & Hbackup); [|exact Hinst|].
  { intros Hempty. specialize (Hmeta (left_behind (preprocessor_save_state cond)
        ∪ (left_behind (model_save cond) ∪ before))).
    rewrite Hempty, lookup_empty in Hmeta. discriminate. }
  split; [|split; [eauto|auto]].
  intros old Hfs.
  pose proof (touches_write_bundle MODELS_PATH self cond version fs
                (final_path MODELS_PATH version)) as Hframe.
  rewrite Hwrite in Hframe. simpl in Hframe.
  apply (Hold old). rewrite Hframe; [exact Hfs|].
  intros Heq. apply (temp_ne_final MODELS_PATH version). congruence.
Qed.


(** Files that an earlier, failed save left in the temporary directory are
    not cleared: those that the new save does not write again become part
    of the bundle it installs. *)
Theorem stale_temporary_files_join_the_bundle
    self cond version fs fs' stale :
  fs !! temp_path MODELS_PATH version = Some (Dir stale) ->
  save_model MODELS_PATH self cond version fs = (Returns true, fs') ->
  exists new,
    fs' !! final_path MODELS_PATH version = Some (Dir new)
    /\ forall name c,
         stale !! name = Some c ->
         left_behind (model_save cond) !! name = None ->
         left_behind (preprocessor_save_state cond) !! name = None ->
         name <> "metadata.npy" ->
         new !! name = Some c.
Proof.
  intros Hstale Hcall.
  destruct (save_model_returned_true _ _ _ _ _ Hcall) as (fs1 & Hwrite & Hinst).
  destruct (write_bundle_contents _ _ _ _ _ Hwrite)
    as (before & [Hbefore|[Hbefore _]] & Hnew);
    rewrite Hstale in Hbefore; [|discriminate].
  injection Hbefore as <-.
  destruct (install_bundle_succeeded cond version fs1 fs' _ Hnew)
    as (_ & Hfinal & _); [|exact Hinst|].
  { intros Hempty.
    assert (Hmeta : ({[ "metadata.npy" :=
                          Pickled (Metadata version (model_type self) (env self)
                                     (clock cond) (framework_versions cond)) ]}
                     ∪ (left_behind (preprocessor_save_state cond)
                        ∪ (left_behind (model_save cond) ∪ stale)))
                    !! "metadata.npy" <> None).
    { erewrite lookup_union_Some_l; [discriminate|apply lookup_singleton_eq]. }
    rewrite Hempty, lookup_empty in Hmeta. contradiction. }
  eexists. split; [exact Hfinal|].
  intros name c Hc Hmodel Hpre Hname.
  rewrite lookup_union_r by (apply lookup_singleton_ne; congruence).
  rewrite lookup_union_r by exact Hpre.
  rewrite lookup_union_r by exact Hmodel. exact Hc.
Qed.

(** For a version that is a plain directory name: once [<version>_backup]
    holds a bundle, [save_model] can no longer replace the version: the
    rename of the final path onto the backup is refused, the call returns
    [False], and the final path is as before. *)
Theorem save_fails_while_backup_is_kept self cond version fs entry old :
  plain_name version = true ->
  fs !! final_path MODELS_PATH version = Some entry ->
  fs !! backup_path MODELS_PATH version = Some (Dir old) -> old <> ∅ ->
  exists fs1,
    save_model MODELS_PATH self cond version fs = (Returns false, fs1)
    /\ fs1 !! final_path MODELS_PATH version = Some entry.
Proof.
  intros _ Hentry Hold Hfull.
  pose proof (temp_ne_final MODELS_PATH version) as Htf.
  pose proof (backup_ne_final MODELS_PATH version) as Hbf.
  pose proof (touches_write_bundle MODELS_PATH self cond version fs
                (final_path MODELS_PATH version)) as Hframe.
  unfold save_model, tryM. unfold bindM at 1.
  destruct (write_bundle MODELS_PATH self cond version fs)
    as [[[]|e] fs1] eqn:Hwrite; simpl in Hframe.
  2:{ exists fs1. split; [reflexivity|]. rewrite Hframe; [exact Hentry|].
      congruence. }
  assert (Hentry1 : fs1 !! final_path MODELS_PATH version = Some entry).
  { rewrite Hframe; [exact Hentry|]. congruence. }
  assert (Hkept : exists kept,
            fs1 !! backup_path MODELS_PATH version = Some (Dir kept) /\ kept <> ∅).
  { destruct (decide (backup_path MODELS_PATH version
                      = temp_path MODELS_PATH version)) as [Heq|Hne].
    - destruct (write_bundle_contents _ _ _ _ _ Hwrite)
        as (before & Hbefore & Hnew).
      rewrite Heq. eexists. split; [exact Hnew|].
      intros Hempty.
      assert (Hmeta : ({[ "metadata.npy" :=
                          Pickled (Metadata version (model_type self) (env self)
                                     (clock cond) (framework_versions cond)) ]}
                     ∪ (left_behind (preprocessor_save_state cond)
                        ∪ (left_behind (model_save cond) ∪ before)))
                    !! "metadata.npy" <> None).
      { erewrite lookup_union_Some_l; [discriminate|apply lookup_singleton_eq]. }
      rewrite Hempty, lookup_empty in Hmeta. contradiction.
    - exists old. split; [|exact Hfull].
      pose proof (touches_write_bundle MODELS_PATH self cond version fs
                    (backup_path MODELS_PATH version) Hne) as Hb.
      rewrite Hwrite in Hb. simpl in Hb. rewrite Hb. exact Hold. }
  destruct Hkept as (kept & Hkept & Hkept_full).
  exists fs1. split; [|exact Hentry1].
  unfold install_bundle. unfold bindM at 1. unfold bindM at 1, path_exists at 1.
  rewrite Hentry1. rewrite bool_decide_eq_true_2 by eauto.
  unfold bindM at 1, os_rename at 1. rewrite Hentry1, Hkept.
  rewrite (bool_decide_eq_false_2
             (final_path MODELS_PATH version = backup_path MODELS_PATH version))
    by congruence.
  rewrite (bool_decide_eq_false_2 (kept = ∅)) by exact Hkept_full.
  destruct (rename_backup_denied cond), entry; reflexivity.
Qed.

Lemma within_ret {A} paths (a : A) : touches_within paths (retM a).
Proof. intros fs other _. reflexivity. Qed.

Lemma within_lift {A} paths (r : result A) : touches_within paths (liftM r).
Proof. intros fs other _. reflexivity. Qed.

Lemma within_bind {A B} paths (c : M filesystem A) (k : A -> M filesystem B) :
  touches_within paths c -> (forall a, touches_within paths (k a)) ->
  touches_within paths (bindM c k).
Proof.
  intros Hc Hk fs other Hout. unfold bindM. specialize (Hc fs other Hout).
  destruct (c fs) as [[a|e] fs1]; simpl in *; [|exact Hc].
  rewrite (Hk a fs1 other Hout). exact Hc.
Qed.

Lemma within_try {A} paths (c : M filesystem A) handler :
  touches_within paths c -> (forall e, touches_within paths (handler e)) ->
  touches_within paths (tryM c handler).
Proof.
  intros Hc Hh fs other Hout. unfold tryM. specialize (Hc fs other Hout).
  destruct (c fs) as [[a|e] fs1]; simpl in *; [exact Hc|].
  rewrite (Hh e fs1 other Hout). exact Hc.
Qed.

Lemma within_only {A} path paths (c : M filesystem A) :
  path ∈ paths -> touches_only path c -> touches_within paths c.
Proof.
  intros Hin Hc fs other Hout. apply Hc. intros ->. contradiction.
Qed.

Lemma within_path_exists paths path : touches_within paths (path_exists path).
Proof. intros fs other _. reflexivity. Qed.

Lemma within_os_rename paths denied src dst :
  src ∈ paths -> dst ∈ paths -> touches_within paths (os_rename denied src dst).
Proof.
  intros Hsrc Hdst fs other Hout. unfold os_rename.
  destruct denied; [reflexivity|].
  destruct (fs !! src) as [entry|]; [|reflexivity].
  case_bool_decide; [reflexivity|].
  destruct (match entry with File _ => _ | Dir _ => _ end); [|reflexivity].
  simpl. rewrite lookup_insert_ne, lookup_delete_ne; [reflexivity| |];
    intros ->; contradiction.
Qed.

Lemma within_os_remove paths denied path :
  path ∈ paths -> touches_within paths (os_remove denied path).
Proof.
  intros Hin fs other Hout. unfold os_remove.
  destruct (fs !! path) as [[c|entries]|]; try reflexivity.
  destruct denied; [reflexivity|]. simpl.
  apply lookup_delete_ne. intros ->. contradiction.
Qed.

Lemma append_assoc (a b c : string) : (a +:+ b) +:+ c = a +:+ (b +:+ c).
Proof.
  induction a as [|ch a IH]; [reflexivity|].
  change (String ch ((a +:+ b) +:+ c) = String ch (a +:+ (b +:+ c))).
  f_equal. exact IH.
Qed.

Lemma append_cancel (a b c : string) : a +:+ b = a +:+ c -> b = c.
Proof.
  induction a as [|ch a IH]; [auto|].
  change (String ch (a +:+ b) = String ch (a +:+ c) -> b = c).
  intros [= Heq]. auto.
Qed.

Lemma plain_name_relative name :
  plain_name name = true -> starts_with_slash name = false.
Proof.
  unfold plain_name. rewrite !andb_true_iff.
  intros (_ & Hsep). apply negb_true_iff in Hsep.
  destruct name as [|c rest]; [reflexivity|].
  simpl in *. apply orb_false_iff in Hsep. tauto.
Qed.

(** Below [MODELS_PATH], an entry with a relative name. *)
Lemma join_relative a name :
  starts_with_slash name = false -> join a name = dir_prefix a +:+ name.
Proof.
  intros Hrel. unfold join, dir_prefix. rewrite Hrel.
  destruct (String.eqb a "" || ends_with_slash a); [reflexivity|].
  symmetry. apply append_assoc.
Qed.

(** The three paths of a plain version are three entries of [MODELS_PATH],
    and another plain name is none of them. *)
Lemma sibling_is_no_path version other :
  plain_name version = true -> plain_name other = true ->
  other ∉ ["temp_" +:+ version; version; version +:+ "_backup"] ->
  join MODELS_PATH other ∉ [temp_path MODELS_PATH version;
                            final_path MODELS_PATH version;
                            backup_path MODELS_PATH version].
Proof.
  intros Hversion Hother Hout Hin. apply Hout.
  apply plain_name_relative in Hversion, Hother.
  unfold backup_path, temp_path, final_path in Hin.
  rewrite (join_relative _ other Hother) in Hin.
  rewrite (join_relative _ version Hversion) in Hin.
  rewrite (join_relative _ ("temp_" +:+ version)) in Hin by reflexivity.
  rewrite append_assoc in Hin.
  rewrite !elem_of_cons in Hin. rewrite !elem_of_cons.
  destruct Hin as [Heq|[Heq|[Heq|Hnil]]];
    [left|right; left|right; right; left|];
    try (apply append_cancel in Heq; exact Heq).
  apply elem_of_nil in Hnil. contradiction.
Qed.

(** [save_model] never raises, and whatever it returns, for a version that
    is a plain directory name it has left every other plain-named entry of
    [MODELS_PATH] as it was: it touches the temporary, the final and the
    backup entry of the version at most. *)
Theorem save_model_footprint self cond version fs :
  exists saved fs',
    save_model MODELS_PATH self cond version fs = (Returns saved, fs')
    /\ (plain_name version = true ->
        forall other,
          plain_name other = true ->
          other ∉ ["temp_" +:+ version; version; version +:+ "_backup"] ->
          fs' !! join MODELS_PATH other = fs !! join MODELS_PATH other).
Proof.
  cut (exists saved fs',
         save_model MODELS_PATH self cond version fs = (Returns saved, fs')
         /\ forall other,
              other ∉ [temp_path MODELS_PATH version;
                       final_path MODELS_PATH version;
                       backup_path MODELS_PATH version] ->
              fs' !! other = fs !! other).
  { intros (saved & fs' & Hcall & Hframe). exists saved, fs'.
    split; [exact Hcall|]. intros Hversion other Hother Hout.
    apply Hframe, sibling_is_no_path; assumption. }
  assert (Hwithin : touches_within
                      [temp_path MODELS_PATH version;
                       final_path MODELS_PATH version;
                       backup_path MODELS_PATH version]
                      (save_model MODELS_PATH self cond version)).
  { unfold save_model. apply within_try; [|intros e; apply within_ret].
    apply within_bind.
    { apply (within_only (temp_path MODELS_PATH version)); [apply list_elem_of_here|].
      apply touches_write_bundle. }
    intros _. apply within_bind; [|intros _; apply within_ret].
    unfold install_bundle.
    apply within_bind; [apply within_path_exists|intros final_exists].
    apply within_bind.
    { destruct final_exists; [|apply within_ret].
      apply within_os_rename; rewrite !elem_of_cons; auto. }
    intros _. apply within_bind.
    { apply within_os_rename; rewrite !elem_of_cons; auto. }
    intros _. apply within_bind; [apply within_path_exists|intros backup_exists].
    destruct backup_exists; [|apply within_ret].
    apply within_os_remove; rewrite !elem_of_cons; auto. }
  pose proof (Hwithin fs) as Hfs. unfold save_model, tryM in *.
  destruct (bindM _ _ fs) as [[saved|e] fs1]; simpl in Hfs; eauto.
Qed.

End SavedBundles.

(* ===================================================================== *)
(** * The further properties on concrete data *)
(* ===================================================================== *)

(** A call on a concrete object, from its result alone: the object
    afterwards is what the call leaves. *)
Lemma run_result {S A} (c : M S A) (s : S) (r : result A) :
  (c s).1 = r -> c s = (r, (c s).2).
Proof. destruct (c s) as [r0 s0]. simpl. intros ->. reflexivity. Qed.

Lemma run_returns {S A} (c : M S A) (s : S) (dflt : A) :
  succeeded (c s).1 = true ->
  c s = (Returns (Examples.or_else (c s).1 dflt), (c s).2).
Proof.
  destruct (c s) as [[a|e] s0]; simpl; [reflexivity|discriminate].
Qed.

Lemma run_returns_same {S A} (c : M S A) (s : S) (dflt : A) :
  succeeded (c s).1 = true -> (c s).2 = s ->
  c s = (Returns (Examples.or_else (c s).1 dflt), s).
Proof.
  destruct (c s) as [[a|e] s0]; simpl; [|discriminate].
  intros _ ->. reflexivity.
Qed.

Lemma returns_or_else {A} (r : result A) (dflt : A) :
  succeeded r = true -> r = Returns (Examples.or_else r dflt).
Proof. destruct r; [reflexivity|discriminate]. Qed.

Section ConfigurationRuns.
#[local] Existing Instance Reference.interpreter.
Import ModelConfig Examples.

Lemma merge_configs_idempotent_witness :
  _merge_configs base_settings staging_override = Some staging_settings
  /\ _merge_configs staging_settings staging_override = Some staging_settings.
Proof.
  assert (Hmerge : _merge_configs base_settings staging_override
                   = Some staging_settings) by by_evaluation.
  split; [exact Hmerge|].
  exact (merge_configs_idempotent base_settings staging_override
           staging_settings Hmerge).
Defined.

Lemma served_section_is_stable_witness :
  get_recommendation_config complete_config
  = (Returns recommendation_section, served_config)
  /\ getter Recommendation (after_getters [Nlp; Sentiment] served_config)
     = (Returns recommendation_section,
        after_getters [Nlp; Sentiment] served_config).
Proof.
  assert (Hserved : getter Recommendation complete_config
                    = (Returns recommendation_section, served_config))
    by by_evaluation.
  split; [exact Hserved|].
  exact (served_section_is_stable Recommendation complete_config
           recommendation_section served_config [Nlp; Sentiment] Hserved).
Defined.

Lemma getter_accepts_a_list_of_key_names_witness :
  getter Recommendation config_with_list_section
  = (Returns (VList section_as_list),
     Make "development" {[ "recommendation" := VList section_as_list ]}
          (config config_with_list_section)).
Proof.
  apply (getter_accepts_a_list_of_key_names Recommendation
           config_with_list_section
           {[ "recommendation_model" := VList section_as_list ]}
           section_as_list).
  - reflexivity.
  - reflexivity.
  - reflexivity.
  - intros key Hkey. simpl in Hkey. unfold required_keys in Hkey.
    rewrite !elem_of_cons, elem_of_nil in Hkey.
    unfold section_as_list. rewrite !elem_of_cons.
    destruct Hkey as [->|[->|[->|[]]]]; auto.
Defined.

Lemma override_file_must_hold_a_mapping_witness :
  exists msg,
    __init__ empty_override no_items "development"
    = raise ConfigValidationError msg.
Proof.
  apply (override_file_must_hold_a_mapping empty_override no_items
           "development" (VScalar SNone)).
  - apply list_elem_of_here.
  - reflexivity.
  - reflexivity.
Defined.

Lemma base_file_without_mapping_fails_late_witness :
  __init__ empty_base no_items "development"
  = Returns (Make "development" ∅ (VScalar SNone))
  /\ forall section,
       getter section (Make "development" ∅ (VScalar SNone))
       = (raise AttributeError "'NoneType' object has no attribute 'get'",
          Make "development" ∅ (VScalar SNone)).
Proof.
  apply (base_file_without_mapping_fails_late empty_base no_items
           "development" (VScalar SNone)).
  - apply list_elem_of_here.
  - reflexivity.
  - reflexivity.
  - reflexivity.
Defined.

End ConfigurationRuns.

Section PipelineRuns.
#[local] Existing Instance Reference.interpreter.
Import DataPreprocessor Examples.

Lemma fitted_recommendation_run :
  fit_transform (InFrame trips) fitted_at fitted_at recommendation0
  = (Returns trips_processed, fitted_recommendation).
Proof.
  apply (run_returns
           (fit_transform (InFrame trips) fitted_at fitted_at) recommendation0).
  by_evaluation.
Qed.

Lemma transform_repeats_fit_transform_witness :
  transform (InFrame trips) fitted_recommendation
  = (Returns trips_processed, fitted_recommendation)
  /\ forall other,
       (transform other fitted_recommendation).2 = fitted_recommendation.
Proof.
  apply (transform_repeats_fit_transform (InFrame trips) fitted_at fitted_at
           recommendation0).
  - discriminate.
  - exact fitted_recommendation_run.
Defined.

Lemma fitted_anomaly_type : model_type fitted_anomaly = "anomaly".
Proof. by_evaluation. Qed.

Lemma numerical_columns_required_witness :
  ((exists msg self',
       fit_transform (InFrame trips_without_group_size) fitted_at fitted_at
         fitted_anomaly
       = (Raises (Exn PreprocessingError msg), self'))
   /\ (exists msg,
         transform (InFrame trips_without_group_size) fitted_anomaly
         = (Raises (Exn PreprocessingError msg), fitted_anomaly)))
  /\ ((exists msg self',
         fit_transform (strings reviews) fitted_at fitted_at fitted_anomaly
         = (Raises (Exn PreprocessingError msg), self'))
      /\ (exists msg,
            transform (strings reviews) fitted_anomaly
            = (Raises (Exn PreprocessingError msg), fitted_anomaly))).
Proof.
  split; apply numerical_columns_required.
  - rewrite fitted_anomaly_type. apply list_elem_of_further, list_elem_of_here.
  - intros df [= <-]. exists "group_size". split; [|reflexivity].
    unfold NUMERICAL_FEATURES.
    apply list_elem_of_further, list_elem_of_further, list_elem_of_here.
  - rewrite fitted_anomaly_type. apply list_elem_of_further, list_elem_of_here.
  - intros df [= <-]. exists "budget". split; [|reflexivity].
    unfold NUMERICAL_FEATURES. apply list_elem_of_here.
Defined.

Lemma recommendation0_type : model_type recommendation0 = "recommendation".
Proof. by_evaluation. Qed.

Lemma categorical_column_required_witness :
  (exists msg self',
      fit_transform (InFrame trips_in_numbers) fitted_at fitted_at
        recommendation0
      = (Raises (Exn PreprocessingError msg), self'))
  /\ (exists msg,
        transform (InFrame trips_in_numbers) recommendation0
        = (Raises (Exn PreprocessingError msg), recommendation0)).
Proof.
  apply categorical_column_required.
  - rewrite recommendation0_type. apply list_elem_of_here.
  - intros feature Hfeature. unfold CATEGORICAL_FEATURES in Hfeature.
    rewrite !elem_of_cons, elem_of_nil in Hfeature.
    destruct Hfeature as [->|[->|[->|[]]]]; reflexivity.
Defined.

Lemma fitted_nlp_type : model_type fitted_nlp = "nlp".
Proof. by_evaluation. Qed.

Lemma reviews_transformed :
  transform (strings reviews) fitted_nlp = (Returns reviews_processed, fitted_nlp).
Proof.
  apply (run_returns_same (transform (strings reviews)) fitted_nlp).
  - by_evaluation.
  - apply (transform_reads_only (strings reviews)).
Qed.

Lemma text_rows_have_sequence_length_witness :
  Forall (fun row => length row = MAX_SEQUENCE_LENGTH) reviews_processed.
Proof.
  apply (text_rows_have_sequence_length fitted_nlp (strings reviews)
           reviews_processed fitted_nlp).
  - left. exact fitted_nlp_type.
  - left. exact reviews_transformed.
Defined.

Lemma state_saved_run :
  save_state fitted_anomaly all_written "state/v1" ∅
  = (Returns true, state_saved).
Proof.
  apply (run_result (save_state fitted_anomaly all_written "state/v1") ∅).
  by_evaluation.
Qed.

Lemma saved_state_loads_back_witness :
  load_state_from not_json state_saved "state/v1" anomaly0
  = (Returns true, restored_from fitted_anomaly anomaly0)
  /\ (model_type anomaly0 = model_type fitted_anomaly ->
      forall data,
        (transform data (restored_from fitted_anomaly anomaly0)).1
        = (transform data fitted_anomaly).1).
Proof.
  apply (saved_state_loads_back fitted_anomaly all_written "state/v1" ∅
           state_saved not_json anomaly0).
  exact state_saved_run.
Defined.

End PipelineRuns.

Section PersonaCacheRuns.
#[local] Existing Instance Reference.interpreter.
Import PersonaModel Examples.

Lemma persona_first_prediction :
  predict (InArray (ArrStr ["beach"])) true persona
  = (Returns (ArrNum [[1%float]], half_ones_like [[0.25%float]]),
     persona_after_beach).
Proof.
  apply (run_result (predict (InArray (ArrStr ["beach"])) true) persona).
  by_evaluation.
Qed.

Lemma predict_repeats_cached_answer_witness :
  predict (InArray (ArrStr ["beach"])) true persona_after_beach
  = (Returns (ArrNum [[1%float]], half_ones_like [[0.25%float]]),
     persona_after_beach).
Proof.
  apply (predict_repeats_cached_answer (ArrStr ["beach"]) (ArrStr ["beach"])
           persona).
  - exact persona_first_prediction.
  - reflexivity.
Defined.

Lemma predict_changes_the_cache_only_witness :
  persona_after_beach = persona
  \/ (true = true
      /\ exists a answer,
           InArray (ArrStr ["beach"]) = InArray a
           /\ Returns (ArrNum [[1%float]], half_ones_like [[0.25%float]])
              = Returns answer
           /\ persona_after_beach
              = set_prediction_cache
                  (<[hash_of_bytes a := answer]> (_prediction_cache persona))
                  persona).
Proof.
  apply (predict_changes_the_cache_only (InArray (ArrStr ["beach"])) true
           persona).
  exact persona_first_prediction.
Defined.



End PersonaCacheRuns.

Section SelectionBoundRuns.
#[local] Existing Instance Reference.interpreter.
Import RecommendationModel Examples.

Lemma selection_never_ends_beyond_pool_witness :
  (Z.of_nat (length fair_predictions) < 3)%Z
  /\ forall fuel,
       (forall chosen,
           selected_within fuel fair_predictions fair_features 3
           <> Returns (Some chosen))
       /\ (forall picked,
             _enhance_diversity fuel fair_predictions fair_features 3
             <> Returns (Some picked)).
Proof.
  assert (Hpool : (Z.of_nat (length fair_predictions) < 3)%Z)
    by (simpl; lia).
  split; [exact Hpool|].
  exact (selection_never_ends_beyond_pool fair_predictions fair_features 3
           Hpool).
Defined.

End SelectionBoundRuns.

Section RecommenderRuns.
#[local] Existing Instance Reference.interpreter.
Import RecommendationModel Examples.

Lemma trained_recommender_run :
  train (InFrame trips) 2 32 fitted_at fitted_at trained_at log_dir recommender
  = (Returns training_metrics, trained_recommender).
Proof.
  apply (run_result
           (train (InFrame trips) 2 32 fitted_at fitted_at trained_at log_dir)
           recommender).
  by_evaluation.
Qed.

Lemma updated_recommender_run :
  update (InFrame trips) updated_at trained_recommender
  = (Returns update_entry, updated_recommender).
Proof.
  apply (run_result (update (InFrame trips) updated_at) trained_recommender).
  by_evaluation.
Qed.

Lemma update_touches_history_only_witness :
  metadata updated_recommender = metadata trained_recommender
  /\ preprocessor updated_recommender = preprocessor trained_recommender
  /\ is_trained (model_state updated_recommender)
     = is_trained (model_state trained_recommender)
  /\ training_iterations (model_state updated_recommender)
     = training_iterations (model_state trained_recommender)
  /\ update_history (model_state updated_recommender)
     = (update_history (model_state trained_recommender) ++ [update_entry])%list
  /\ timestamp update_entry = updated_at.
Proof.
  exact (update_touches_history_only trained_recommender (InFrame trips)
           updated_at (Returns update_entry) updated_recommender
           updated_recommender_run).
Defined.

Lemma train_marks_trained_when_fit_returns_witness :
  is_trained (model_state recommender) = false
  /\ is_trained (model_state trained_recommender) = true
  /\ last_trained (metadata trained_recommender) = Some trained_at.
Proof.
  split; [reflexivity|].
  destruct (train_marks_trained_when_fit_returns recommender (InFrame trips)
              2 32 fitted_at fitted_at trained_at log_dir
              (Returns training_metrics) trained_recommender
              trained_recommender_run)
    as [(Htrained & _ & _ & Hlast & _)|(_ & _ & msg & Hraised)].
  - split; [exact Htrained|exact Hlast].
  - discriminate Hraised.
Defined.





Lemma recommendation0_unfitted : DataPreprocessor.unfitted recommendation0.
Proof.
  apply (init_unfitted (Returns complete_config) "recommendation"
           "development" created_at).
  exact fresh_recommendation_constructed.
Qed.

Lemma unfitted_preprocessor_stops_the_models_witness :
  update (InFrame trips) updated_at recommender
  = (raise RuntimeError
       ("Model update failed: " +:+ DataPreprocessor.unfitted_message),
     recommender)
  /\ PersonaModel.predict (InArray (ArrNum [[1; 2; 3]%float])) false
       persona_with_cache
     = (raise RuntimeError
          ("Model prediction failed: " +:+ DataPreprocessor.unfitted_message),
        persona_with_cache).
Proof.
  destruct (unfitted_preprocessor_stops_the_models recommendation0
              recommendation0_unfitted) as (Hupdate & _ & Hpredict).
  split.
  - apply Hupdate. reflexivity.
  - apply Hpredict; [reflexivity|discriminate].
Defined.

End RecommenderRuns.

Section ConstructionRuns.
#[local] Existing Instance Reference.interpreter.
Import Examples.

Lemma built_recommender_run :
  constructed_recommender = Returns built_recommender.
Proof. apply returns_or_else. by_evaluation. Qed.

Lemma recommendation_model_as_constructed_witness :
  exists config section users items,
    ModelConfig.__init__ base_only no_items "development" = Returns config
    /\ (ModelConfig.get_recommendation_config config).1
       = Returns (VDict section)
    /\ section !! "user_features" = Some users
    /\ section !! "item_features" = Some items
    /\ RecommendationModel.assembled keras users items
       = Returns (RecommendationModel.model built_recommender)
    /\ RecommendationModel.model_state built_recommender
       = RecommendationModel.Model_state false 0 []
    /\ RecommendationModel.metadata built_recommender
       = RecommendationModel.Metadata "1.0.0" created_at None ∅
    /\ DataPreprocessor.unfitted
         (RecommendationModel.preprocessor built_recommender).
Proof.
  exact (recommendation_model_as_constructed (Returns tt) base_only no_items
           "development" created_at created_at keras built_recommender
           built_recommender_run).
Defined.

Lemma built_trainer_run : constructed_trainer = Returns built_trainer.
Proof. apply returns_or_else. by_evaluation. Qed.

Lemma constructed_trainer_never_loads_witness :
  "recommendation" = "recommendation"
  /\ (exists m,
         ModelTrainer.model built_trainer = ModelTrainer.Recommender m)
  /\ forall fs cond version,
       ModelTrainer.load_model "models" fs cond version built_trainer
       = (Returns false, built_trainer).
Proof.
  exact (constructed_trainer_never_loads "models" base_only no_items
           "development" "recommendation" clock (Returns tt) keras
           (Returns (0%nat : Reference.network)) built_trainer
           built_trainer_run).
Defined.

End ConstructionRuns.

Section SaveRuns.
#[local] Existing Instance Reference.interpreter.
Import ModelTrainer Examples.

Lemma save_v2_run :
  save_model "models" nlp_trainer nothing_fails "v2" disk
  = (Returns true, after_save_v2).
Proof.
  apply (run_result (save_model "models" nlp_trainer nothing_fails "v2") disk).
  by_evaluation.
Qed.

Lemma save_model_succeeds_on_new_versions_only_witness :
  (forall old, disk !! final_path "models" "v2" <> Some (Dir old))
  /\ (exists new,
         after_save_v2 !! final_path "models" "v2" = Some (Dir new)
         /\ new !! "metadata.npy"
            = Some (Pickled (Metadata "v2" "nlp" "development"
                               "2024-02-01T00:00:00" "tensorflow 2.12")))
  /\ after_save_v2 !! temp_path "models" "v2" = None
  /\ after_save_v2 !! backup_path "models" "v2" = None.
Proof.
  exact (save_model_succeeds_on_new_versions_only "models" nlp_trainer
           nothing_fails "v2" disk after_save_v2 save_v2_run).
Defined.

Lemma save_over_stale_run :
  save_model "models" nlp_trainer nothing_fails "v2" disk_with_stale_file
  = (Returns true, after_save_over_stale).
Proof.
  apply (run_result (save_model "models" nlp_trainer nothing_fails "v2")
           disk_with_stale_file).
  by_evaluation.
Qed.

Lemma stale_temporary_files_join_the_bundle_witness :
  exists new,
    after_save_over_stale !! final_path "models" "v2" = Some (Dir new)
    /\ new !! "model/old_weights.h5" = Some (Bytes "stale").
Proof.
  destruct (stale_temporary_files_join_the_bundle "models" nlp_trainer
              nothing_fails "v2" disk_with_stale_file after_save_over_stale
              {[ "model/old_weights.h5" := Bytes "stale" ]})
    as (new & Hfinal & Hkept).
  - reflexivity.
  - exact save_over_stale_run.
  - exists new. split; [exact Hfinal|].
    apply Hkept; [reflexivity|reflexivity|reflexivity|discriminate].
Defined.

Lemma old_bundle_not_empty : old_bundle <> ∅.
Proof.
  intros Hempty.
  assert (Hmeta : old_bundle !! "metadata.npy" = None)
    by (rewrite Hempty; apply lookup_empty).
  discriminate Hmeta.
Qed.

Lemma save_fails_while_backup_is_kept_witness :
  exists fs1,
    save_model "models" nlp_trainer nothing_fails "v1" disk_with_backup
    = (Returns false, fs1)
    /\ fs1 !! final_path "models" "v1" = Some (Dir old_bundle).
Proof.
  apply (save_fails_while_backup_is_kept "models" nlp_trainer nothing_fails
           "v1" disk_with_backup (Dir old_bundle) old_bundle).
  - reflexivity.
  - reflexivity.
  - reflexivity.
  - exact old_bundle_not_empty.
Defined.

Lemma save_model_footprint_witness :
  plain_name "v2" = true /\ plain_name "v1" = true
  /\ exists saved fs',
       save_model "models" nlp_trainer nothing_fails "v2" disk
       = (Returns saved, fs')
       /\ fs' !! join "models" "v1" = Some (Dir old_bundle).
Proof.
  split; [reflexivity|]. split; [reflexivity|].
  destruct (save_model_footprint "models" nlp_trainer nothing_fails "v2" disk)
    as (saved & fs' & Hcall & Hframe).
  exists saved, fs'. split; [exact Hcall|].
  rewrite Hframe; [by_evaluation|reflexivity|reflexivity|].
  rewrite !elem_of_cons. intros [H|[H|[H|H]]]; try discriminate H.
  apply elem_of_nil in H. contradiction.
Defined.

End SaveRuns.
